(** * Grade-management backend: the weighted average and the grade store

    A shallow embedding of [backend/server.py], [backend/api_routes.py] and
    [backend/api_routes_part2.py].

    Modelling choices.
    - A number is a rational ([Q]).  The handlers that store, compare and
      copy numbers do so exactly.  The averaging handler
      [calculate_student_average] computes with Python floats and is embedded
      twice.  Module [Binary64] follows every sum, product, quotient and mean
      by the rounding to the nearest double ([fl]); the properties of the
      reported numbers are proved on it.  The other embedding keeps the
      rationals exact; the properties of which subjects, grades and errors a
      report holds are proved on that one, and a theorem near the end shows
      that the two give reports of the same shape.  NaN, infinities and
      overflow are outside the model.  Equalities between computed numbers
      are stated with [==] ([Qeq]) unless both sides are the same normal
      form.
    - A MongoDB collection is the list of its documents in insertion order;
      [find_one] returns the first match, [find] all matches in order.
    - A Python [dict] used for grouping keeps insertion order, so it is an
      association list whose new keys go to the end.
    - A string is the sequence of the bytes of its UTF-8 encoding; [len]
      counts its characters.
    - Exceptions are values of [exn]; a handler that only reads the store is
      a function into [result], a handler that writes it also returns the
      store it leaves behind.
    - [uuid.uuid4()] and [datetime.utcnow()] are inputs of the handlers, one
      input per call ([now] for the first reading of the clock, [later] for
      the second), and the caller is the user document that
      [get_current_user] resolved. *)

From Stdlib Require Import List String Bool ZArith QArith Qround Qreduction Qabs Qpower.
From Stdlib Require Import Sorted Lia Lqa.
Import ListNotations.
Local Open Scope string_scope.
Local Open Scope Q_scope.
Local Open Scope list_scope.

Set Implicit Arguments.

(* ================================================================== *)
(** ** Exceptions and the error monad *)

Inductive exn : Set :=
| HTTPException (status_code : nat) (detail : string)
| RequestValidationError
| StatisticsError
| ZeroDivisionError
| TypeError.

Definition HTTP_403_FORBIDDEN : nat := 403.
Definition HTTP_404_NOT_FOUND : nat := 404.

Definition result (A : Type) : Type := (exn + A)%type.
Definition ret {A} (a : A) : result A := inr a.
Definition raise {A} (e : exn) : result A := inl e.
Definition bind {A B} (m : result A) (k : A -> result B) : result B :=
  match m with
  | inl e => inl e
  | inr a => k a
  end.

Notation "x <- m ;; k" := (bind m (fun x => k))
  (at level 61, m at next level, right associativity).

(** Monadic left fold: a [for] loop whose body may raise. *)
Fixpoint foldM {A B : Type} (f : B -> A -> result B) (l : list A) (b : B) : result B :=
  match l with
  | [] => ret b
  | a :: l' => b' <- f b a ;; foldM f l' b'
  end.

(* ================================================================== *)
(** ** Numbers *)

Definition Qlt_bool (x y : Q) : bool := negb (Qle_bool y x).

(** [sum(data)] from [0]. *)
Definition Qsum (data : list Q) : Q := fold_left Qplus data 0.

(** [a / b], computed exactly: raises on a zero divisor. *)
Definition truediv (a b : Q) : result Q :=
  if Qeq_bool b 0 then raise ZeroDivisionError else ret (a / b).

(** [statistics.mean(data)]: raises on empty data, otherwise the exact
    sum divided by the number of points. *)
Definition mean (data : list Q) : result Q :=
  match data with
  | [] => raise StatisticsError
  | _ => ret (Qsum data / inject_Z (Z.of_nat (List.length data)))
  end.

(** Nearest integer, ties to the even one (Python's rounding mode). *)
Definition round_half_even (x : Q) : Z :=
  let f := Qfloor x in
  match Qcompare (x - inject_Z f) (1 # 2) with
  | Lt => f
  | Gt => (f + 1)%Z
  | Eq => if Z.even f then f else (f + 1)%Z
  end.

(** [round(x, ndigits)], in lowest terms. *)
Definition round (x : Q) (ndigits : nat) : Q :=
  let scale := Z.to_pos (10 ^ Z.of_nat ndigits) in
  Qred (round_half_even (x * inject_Z (Zpos scale)) # scale).

(** [f"{a} {b}"] *)
Definition full_name (a b : string) : string := String.append a (String.append " " b).

(* ================================================================== *)
(** ** Documents of the store *)

Inductive RoleEnum : Set := ADMIN | STUDENT | TEACHER.

Definition role_value (r : RoleEnum) : string :=
  match r with
  | ADMIN => "ADMIN"
  | STUDENT => "STUDENT"
  | TEACHER => "TEACHER"
  end.

Module User.
Record t : Set := mk {
  _id : string;
  username : string;
  firstname : string;
  lastname : string;
  email : string;
  role : RoleEnum
}.
End User.

Module Subject.
Record t : Set := mk {
  _id : string;
  subject_code : string;
  name : string;
  coefficient : Q;
  description : option string;
  created_at : Z
}.
End Subject.

Module Grade.
Record t : Set := mk {
  _id : string;
  student_id : string;
  subject_id : string;
  value : Q;
  comment : option string;
  recorded_by_teacher_id : string;
  date : Z;
  modified_at : option Z;
  modified_by : option string
}.
End Grade.

Record Db : Set := mkDb {
  users : list User.t;
  subjects : list Subject.t;
  grades : list Grade.t
}.

Definition empty_db : Db := mkDb [] [] [].

(* ================================================================== *)
(** ** Collection operations *)

Section Collection.
Variable A : Type.

Definition find (q : A -> bool) (c : list A) : list A := filter q c.

Definition find_one (q : A -> bool) (c : list A) : option A := List.find q c.

Definition insert_one (d : A) (c : list A) : list A := c ++ [d].

(** Removes the first match; the second component is [deleted_count]. *)
Fixpoint delete_one (q : A -> bool) (c : list A) : list A * nat :=
  match c with
  | [] => ([], O)
  | d :: c' =>
      if q d then (c', 1%nat)
      else let (r, n) := delete_one q c' in (d :: r, n)
  end.

Definition delete_many (q : A -> bool) (c : list A) : list A :=
  filter (fun d => negb (q d)) c.

(** [update_one(query, {"$set": ...})]: the first match is rewritten. *)
Fixpoint update_one (q : A -> bool) (set : A -> A) (c : list A) : list A :=
  match c with
  | [] => []
  | d :: c' => if q d then set d :: c' else d :: update_one q set c'
  end.
End Collection.

(** The queries the handlers use. *)
Definition user_by_id (user_id : string) (u : User.t) : bool :=
  String.eqb (User._id u) user_id.

Definition student_by_id (user_id : string) (u : User.t) : bool :=
  String.eqb (User._id u) user_id && String.eqb (role_value (User.role u)) "STUDENT".

Definition by_id (subject_id : string) (s : Subject.t) : bool :=
  String.eqb (Subject._id s) subject_id.

Definition by_code (code : string) (s : Subject.t) : bool :=
  String.eqb (Subject.subject_code s) code.

Definition grade_by_id (grade_id : string) (g : Grade.t) : bool :=
  String.eqb (Grade._id g) grade_id.

Definition of_student (student_id : string) (g : Grade.t) : bool :=
  String.eqb (Grade.student_id g) student_id.

(* ================================================================== *)
(** ** An insertion-ordered dictionary (the Python [dict]) *)

Section Dict.
Variable V : Type.

Definition dict : Type := list (string * V).

(** [k in d] *)
Definition dict_mem (k : string) (d : dict) : bool :=
  existsb (fun kv => String.eqb (fst kv) k) d.

(** [d[k] = v]: a present key keeps its place, a new one goes last. *)
Fixpoint dict_set (k : string) (v : V) (d : dict) : dict :=
  match d with
  | [] => [(k, v)]
  | (k', v') :: d' =>
      if String.eqb k' k then (k', v) :: d' else (k', v') :: dict_set k v d'
  end.

(** In-place mutation of the value stored under [k]. *)
Fixpoint dict_adjust (k : string) (f : V -> V) (d : dict) : dict :=
  match d with
  | [] => []
  | (k', v') :: d' =>
      if String.eqb k' k then (k', f v') :: d' else (k', v') :: dict_adjust k f d'
  end.
End Dict.

(* ================================================================== *)
(** ** Request models ([server.py], the pydantic classes) *)

Definition in_closed_range (lo hi x : Q) : bool := Qle_bool lo x && Qle_bool x hi.

(** A Python [str] is held as its UTF-8 bytes.  [len(s)] counts characters
    (code points), that is the bytes that are not continuation bytes
    [10xxxxxx]. *)
Definition is_continuation_byte (c : Ascii.ascii) : bool :=
  match c with
  | Ascii.Ascii _ _ _ _ _ _ false true => true
  | _ => false
  end.

Fixpoint len (s : string) : nat :=
  match s with
  | EmptyString => O
  | String c s' => if is_continuation_byte c then len s' else S (len s')
  end.

(** [min_length=lo, max_length=hi] *)
Definition length_between (lo hi : nat) (s : string) : bool :=
  Nat.leb lo (len s) && Nat.leb (len s) hi.

(** [SubjectCreate]: [coefficient: float = Field(1.0, ge=0.1, le=10.0)]. *)
Module SubjectCreate.
Record t : Set := mk {
  subject_code : string;
  name : string;
  coefficient : Q;
  description : option string
}.
Definition validate (body : t) : result t :=
  if length_between 1 20 (subject_code body)
     && length_between 1 200 (name body)
     && in_closed_range (1 # 10) 10 (coefficient body)
  then ret body else raise RequestValidationError.
End SubjectCreate.

(** [GradeCreate]: [value: float = Field(..., ge=0, le=20)]. *)
Module GradeCreate.
Record t : Set := mk {
  student_id : string;
  subject_id : string;
  value : Q;
  comment : option string;
  recorded_by_teacher_id : option string
}.
Definition validate (body : t) : result t :=
  if in_closed_range 0 20 (value body) then ret body
  else raise RequestValidationError.
End GradeCreate.

(** [GradeUpdate]: [value: Optional[float] = Field(None, ge=0, le=20)]. *)
Module GradeUpdate.
Record t : Set := mk {
  value : option Q;
  comment : option string
}.
Definition validate (body : t) : result t :=
  match value body with
  | None => ret body
  | Some v =>
      if in_closed_range 0 20 v then ret body else raise RequestValidationError
  end.
End GradeUpdate.

Module GradeResponse.
Record t : Set := mk {
  id : string;
  value : Q;
  date : Z;
  comment : option string;
  student_id : string;
  student_name : string;
  subject_id : string;
  subject_name : string;
  subject_coefficient : Q;
  recorded_by : string
}.
End GradeResponse.

Module SubjectResponse.
Record t : Set := mk {
  id : string;
  subject_code : string;
  name : string;
  coefficient : Q;
  description : option string;
  created_at : Z
}.
End SubjectResponse.

(** [require_role(required_roles)] applied to the resolved caller. *)
Definition require_role (required_roles : list RoleEnum) (current_user : User.t)
  : result User.t :=
  if existsb (String.eqb (role_value (User.role current_user)))
       (map role_value required_roles)
  then ret current_user
  else raise (HTTPException HTTP_403_FORBIDDEN "Permissions insuffisantes").

(* ================================================================== *)
(** ** Subjects ([api_routes.py]) *)

Definition with_subjects (db : Db) (ss : list Subject.t) : Db :=
  mkDb (users db) ss (grades db).

Definition with_grades (db : Db) (gs : list Grade.t) : Db :=
  mkDb (users db) (subjects db) gs.

Definition with_users (db : Db) (us : list User.t) : Db :=
  mkDb us (subjects db) (grades db).

Definition create_subject (db : Db) (subject_request : SubjectCreate.t)
    (current_user : User.t) (subject_id : string) (now later : Z)
  : result SubjectResponse.t * Db :=
  match find_one (by_code (SubjectCreate.subject_code subject_request)) (subjects db) with
  | Some _ => (raise (HTTPException 400 "Ce code de matière existe déjà"), db)
  | None =>
      let subject_data :=
        Subject.mk subject_id
          (SubjectCreate.subject_code subject_request)
          (SubjectCreate.name subject_request)
          (SubjectCreate.coefficient subject_request)
          (SubjectCreate.description subject_request) now in
      (ret (SubjectResponse.mk subject_id
              (SubjectCreate.subject_code subject_request)
              (SubjectCreate.name subject_request)
              (SubjectCreate.coefficient subject_request)
              (SubjectCreate.description subject_request) later),
       with_subjects db (insert_one subject_data (subjects db)))
  end.

(* ================================================================== *)
(** ** Users ([api_routes.py]) *)

Definition delete_user (db : Db) (user_id : string) (current_user : User.t)
  : result string * Db :=
  let (us, deleted_count) := delete_one (user_by_id user_id) (users db) in
  let db := with_users db us in
  if Nat.eqb deleted_count 0 then
    (raise (HTTPException HTTP_404_NOT_FOUND "Utilisateur non trouvé"), db)
  else
    let db := with_grades db (delete_many (of_student user_id) (grades db)) in
    (ret "Utilisateur supprimé avec succès", db).

(* ================================================================== *)
(** ** Grades ([api_routes_part2.py]) *)

(** [x or y] on an optional string: [None] and [""] are falsy. *)
Definition or_else (x : option string) (y : string) : string :=
  match x with
  | Some s => if String.eqb s "" then y else s
  | None => y
  end.

(** The [teacher_name] computed before every [GradeResponse]. *)
Definition teacher_name (users : list User.t) (teacher_id : string) : string :=
  if String.eqb teacher_id "" then ""
  else
    match find_one (user_by_id teacher_id) users with
    | Some teacher => full_name (User.firstname teacher) (User.lastname teacher)
    | None => ""
    end.

Definition create_grade (db : Db) (grade_request : GradeCreate.t)
    (current_user : User.t) (grade_id : string) (now later : Z)
  : result GradeResponse.t * Db :=
  match find_one (student_by_id (GradeCreate.student_id grade_request)) (users db) with
  | None => (raise (HTTPException HTTP_404_NOT_FOUND "Étudiant non trouvé"), db)
  | Some student =>
      match find_one (by_id (GradeCreate.subject_id grade_request)) (subjects db) with
      | None => (raise (HTTPException HTTP_404_NOT_FOUND "Matière non trouvée"), db)
      | Some subject =>
          let grade_data :=
            Grade.mk grade_id
              (GradeCreate.student_id grade_request)
              (GradeCreate.subject_id grade_request)
              (GradeCreate.value grade_request)
              (GradeCreate.comment grade_request)
              (or_else (GradeCreate.recorded_by_teacher_id grade_request)
                 (User._id current_user))
              now None None in
          let db := with_grades db (insert_one grade_data (grades db)) in
          (ret (GradeResponse.mk grade_id
                  (GradeCreate.value grade_request) later
                  (GradeCreate.comment grade_request)
                  (GradeCreate.student_id grade_request)
                  (full_name (User.firstname student) (User.lastname student))
                  (GradeCreate.subject_id grade_request)
                  (Subject.name subject) (Subject.coefficient subject)
                  (teacher_name (users db) (Grade.recorded_by_teacher_id grade_data))),
           db)
      end
  end.

(** The response built from a stored grade by the read and update handlers. *)
Definition grade_response (db : Db) (grade : Grade.t) (student_name : string)
  : GradeResponse.t :=
  let subject := find_one (by_id (Grade.subject_id grade)) (subjects db) in
  GradeResponse.mk (Grade._id grade) (Grade.value grade) (Grade.date grade)
    (Grade.comment grade) (Grade.student_id grade) student_name
    (Grade.subject_id grade)
    (match subject with Some s => Subject.name s | None => "Matière inconnue" end)
    (match subject with Some s => Subject.coefficient s | None => 1 end)
    (teacher_name (users db) (Grade.recorded_by_teacher_id grade)).

(** The permission test shared by the student-scoped read handlers. *)
Definition access_denied (current_user : User.t) (student_id : string) : bool :=
  String.eqb (role_value (User.role current_user)) "STUDENT"
  && negb (String.eqb (User._id current_user) student_id)
  && negb (existsb (String.eqb (role_value (User.role current_user))) ["TEACHER"; "ADMIN"]).

Definition get_student_grades (db : Db) (student_id : string) (current_user : User.t)
  : result (list GradeResponse.t) :=
  if access_denied current_user student_id then
    raise (HTTPException HTTP_403_FORBIDDEN "Accès non autorisé à ces notes")
  else
    let grades := find (of_student student_id) (grades db) in
    match find_one (user_by_id student_id) (users db) with
    | None => raise (HTTPException HTTP_404_NOT_FOUND "Étudiant non trouvé")
    | Some student =>
        ret (map (fun grade =>
                    grade_response db grade
                      (full_name (User.firstname student) (User.lastname student)))
               grades)
    end.

(** The [$set] document of [update_grade] applied to a stored grade. *)
Definition set_update (grade_update : GradeUpdate.t) (now : Z) (modified_by : string)
    (g : Grade.t) : Grade.t :=
  Grade.mk (Grade._id g) (Grade.student_id g) (Grade.subject_id g)
    (match GradeUpdate.value grade_update with Some v => v | None => Grade.value g end)
    (match GradeUpdate.comment grade_update with
     | Some c => Some c
     | None => Grade.comment g
     end)
    (Grade.recorded_by_teacher_id g) (Grade.date g) (Some now) (Some modified_by).

Definition update_grade (db : Db) (grade_id : string) (grade_update : GradeUpdate.t)
    (current_user : User.t) (now : Z) : result GradeResponse.t * Db :=
  match find_one (grade_by_id grade_id) (grades db) with
  | None => (raise (HTTPException HTTP_404_NOT_FOUND "Note non trouvée"), db)
  | Some grade =>
      let db :=
        with_grades db
          (update_one (grade_by_id grade_id)
             (set_update grade_update now (User._id current_user)) (grades db)) in
      match find_one (grade_by_id grade_id) (grades db) with
      | None => (raise TypeError, db)
      | Some updated_grade =>
          let student :=
            find_one (user_by_id (Grade.student_id updated_grade)) (users db) in
          (ret (grade_response db updated_grade
                  (match student with
                   | Some s => full_name (User.firstname s) (User.lastname s)
                   | None => "Étudiant inconnu"
                   end)),
           db)
      end
  end.

Definition delete_grade (db : Db) (grade_id : string) (current_user : User.t)
  : result string * Db :=
  let (gs, deleted_count) := delete_one (grade_by_id grade_id) (grades db) in
  let db := with_grades db gs in
  if Nat.eqb deleted_count 0 then
    (raise (HTTPException HTTP_404_NOT_FOUND "Note non trouvée"), db)
  else (ret "Note supprimée avec succès", db).

(* ================================================================== *)
(** ** Routes: dependency, body validation, handler

    A route first resolves its [Depends(require_role(...))] dependency, then
    validates the request body against its model, and calls the handler only
    when both succeed; otherwise the store is not touched. *)

Definition guarded {B A : Type} (roles : list RoleEnum) (validate : B -> result B)
    (handler : B -> User.t -> result A * Db) (db : Db) (body : B) (caller : User.t)
  : result A * Db :=
  match require_role roles caller with
  | inl e => (inl e, db)
  | inr current_user =>
      match validate body with
      | inl e => (inl e, db)
      | inr request => handler request current_user
      end
  end.

Definition route_create_subject (db : Db) (body : SubjectCreate.t) (caller : User.t)
    (subject_id : string) (now later : Z) : result SubjectResponse.t * Db :=
  guarded [ADMIN] SubjectCreate.validate
    (fun r u => create_subject db r u subject_id now later) db body caller.

Definition route_create_grade (db : Db) (body : GradeCreate.t) (caller : User.t)
    (grade_id : string) (now later : Z) : result GradeResponse.t * Db :=
  guarded [TEACHER; ADMIN] GradeCreate.validate
    (fun r u => create_grade db r u grade_id now later) db body caller.

Definition route_update_grade (db : Db) (grade_id : string) (body : GradeUpdate.t)
    (caller : User.t) (now : Z) : result GradeResponse.t * Db :=
  guarded [TEACHER; ADMIN] GradeUpdate.validate
    (fun r u => update_grade db grade_id r u now) db body caller.

Definition route_delete_grade (db : Db) (grade_id : string) (caller : User.t)
  : result string * Db :=
  guarded [TEACHER; ADMIN] (@ret unit)
    (fun _ u => delete_grade db grade_id u) db tt caller.

Definition route_delete_user (db : Db) (user_id : string) (caller : User.t)
  : result string * Db :=
  guarded [ADMIN] (@ret unit)
    (fun _ u => delete_user db user_id u) db tt caller.

(** The requests that write to the subject and grade collections. *)
Inductive request : Set :=
| PostSubject (body : SubjectCreate.t) (subject_id : string) (now later : Z)
| PostGrade (body : GradeCreate.t) (grade_id : string) (now later : Z)
| PutGrade (grade_id : string) (body : GradeUpdate.t) (now : Z)
| DeleteGrade (grade_id : string)
| DeleteUser (user_id : string).

(** The store after serving one request of [caller]. *)
Definition serve (db : Db) (cr : User.t * request) : Db :=
  let (caller, r) := cr in
  match r with
  | PostSubject body subject_id now later =>
      snd (route_create_subject db body caller subject_id now later)
  | PostGrade body grade_id now later =>
      snd (route_create_grade db body caller grade_id now later)
  | PutGrade grade_id body now => snd (route_update_grade db grade_id body caller now)
  | DeleteGrade grade_id => snd (route_delete_grade db grade_id caller)
  | DeleteUser user_id => snd (route_delete_user db user_id caller)
  end.

Definition serve_all (db : Db) (trace : list (User.t * request)) : Db :=
  fold_left serve trace db.

(* ================================================================== *)
(** ** [calculate_student_average]

    The handler with its arithmetic kept exact; the module [Binary64] further
    down repeats the arithmetic steps on doubles. *)

(** The value kept per subject in [subjects_data]. *)
Module SubjectData.
Record t : Set := mk {
  subject_name : string;
  coefficient : Q;
  grades : list Q
}.
Definition append_grade (v : Q) (d : t) : t :=
  mk (subject_name d) (coefficient d) (grades d ++ [v]).
End SubjectData.

(** One entry of ["subject_averages"]. *)
Module SubjectAverage.
Record t : Set := mk {
  subject_id : string;
  subject_name : string;
  average : Q;
  coefficient : Q;
  grade_count : nat
}.
End SubjectAverage.

(** The returned dictionary; the early return has no ["calculation_date"]. *)
Record AverageReport : Set := mkReport {
  student_id : string;
  general_average : Q;
  subject_averages : list SubjectAverage.t;
  total_coefficient : Q;
  semester : option string;
  calculation_date : option Z
}.

(** Body of the grouping loop (lines 298-310). *)
Definition group_grade (subjects : list Subject.t)
    (subjects_data : dict SubjectData.t) (grade : Grade.t) : dict SubjectData.t :=
  let subject_id := Grade.subject_id grade in
  let subjects_data :=
    if negb (dict_mem subject_id subjects_data) then
      match find_one (by_id subject_id) subjects with
      | Some subject =>
          dict_set subject_id
            (SubjectData.mk (Subject.name subject) (Subject.coefficient subject) [])
            subjects_data
      | None => subjects_data
      end
    else subjects_data in
  if dict_mem subject_id subjects_data then
    dict_adjust subject_id (SubjectData.append_grade (Grade.value grade)) subjects_data
  else subjects_data.

Definition group_grades (subjects : list Subject.t) (grades : list Grade.t)
  : dict SubjectData.t :=
  fold_left (group_grade subjects) grades [].

(** The three accumulators of the averaging loop. *)
Record Totals : Set := mkTotals {
  t_subject_averages : list SubjectAverage.t;
  t_weighted_sum : Q;
  t_total_coefficient : Q
}.

(** Body of the averaging loop (lines 317-330). *)
Definition average_subject (acc : Totals) (item : string * SubjectData.t) : result Totals :=
  let (subject_id, data) := item in
  match SubjectData.grades data with
  | [] => ret acc
  | _ =>
      subject_avg <- mean (SubjectData.grades data) ;;
      ret (mkTotals
             (t_subject_averages acc ++
                [SubjectAverage.mk subject_id (SubjectData.subject_name data)
                   (round subject_avg 2) (SubjectData.coefficient data)
                   (List.length (SubjectData.grades data))])
             (t_weighted_sum acc + subject_avg * SubjectData.coefficient data)
             (t_total_coefficient acc + SubjectData.coefficient data))
  end.

Definition average_subjects (subjects_data : dict SubjectData.t) : result Totals :=
  foldM average_subject subjects_data (mkTotals [] 0 0).

(** Line 332. *)
Definition compute_general_average (weighted_sum total_coefficient : Q) : result Q :=
  if Qlt_bool 0 total_coefficient then
    q <- truediv weighted_sum total_coefficient ;; ret (round q 2)
  else ret 0.

Definition calculate_student_average (db : Db) (student_id : string)
    (semester : option string) (current_user : User.t) (now : Z) : result AverageReport :=
  if access_denied current_user student_id then
    raise (HTTPException HTTP_403_FORBIDDEN "Accès non autorisé")
  else
    let grades := find (of_student student_id) (grades db) in
    match grades with
    | [] => ret (mkReport student_id 0 [] 0 semester None)
    | _ =>
        let subjects_data := group_grades (subjects db) grades in
        acc <- average_subjects subjects_data ;;
        general_average <-
          compute_general_average (t_weighted_sum acc) (t_total_coefficient acc) ;;
        ret (mkReport student_id general_average (t_subject_averages acc)
               (t_total_coefficient acc) semester (Some now))
    end.

(* ================================================================== *)
(** ** Double precision

    The handler computes with Python floats, that is IEEE 754 binary64.  A
    finite double is a rational [m * 2^q] with [|m| <= 2^53] and
    [q >= -1074], and every operation returns the double nearest to its
    exact result, a tie going to the even [m].  Results at or beyond
    [2^1024], where binary64 overflows, are outside this model.  The
    definitions of the handler given above compute with exact rationals
    instead; the module [Binary64] below repeats its arithmetic steps with
    the rounding of each operation. *)

Definition two_power (q : Z) : Q := Qpower 2 q.

(** The [e] with [2^e <= |x| < 2^(e+1)], for [x <> 0]. *)
Definition binade (x : Q) : Z :=
  let e := (Z.log2 (Z.abs (Qnum x)) - Z.log2 (Zpos (Qden x)))%Z in
  if Qle_bool (two_power e) (Qabs x) then e else (e - 1)%Z.

(** The exponent [q] of the doubles around [x]: 53 significant bits, and no
    finer than [2^-1074]. *)
Definition quantum (x : Q) : Z := Z.max (binade x - 52) (-1074).

(** The double nearest to [x], ties to even. *)
Definition fl (x : Q) : Q :=
  if Qeq_bool x 0 then 0
  else Qred (inject_Z (round_half_even (x / two_power (quantum x)))
             * two_power (quantum x)).

Module Binary64.

(** [a + b], [a * b] and [a / b] on floats. *)
Definition add (a b : Q) : Q := fl (a + b).

Definition mul (a b : Q) : Q := fl (a * b).

Definition truediv (a b : Q) : result Q :=
  if Qeq_bool b 0 then raise ZeroDivisionError else ret (fl (a / b)).

(** [statistics.mean(data)] on floats: the exact sum divided by the number
    of points, converted to the nearest float. *)
Definition mean (data : list Q) : result Q :=
  match data with
  | [] => raise StatisticsError
  | _ => ret (fl (Qsum data / inject_Z (Z.of_nat (List.length data))))
  end.

(** [round(x, ndigits)] on a float: the float nearest to the decimal that is
    nearest to [x], ties to even. *)
Definition round (x : Q) (ndigits : nat) : Q := fl (round x ndigits).

(** Body of the averaging loop (lines 317-330). *)
Definition average_subject (acc : Totals) (item : string * SubjectData.t) : result Totals :=
  let (subject_id, data) := item in
  match SubjectData.grades data with
  | [] => ret acc
  | _ =>
      subject_avg <- mean (SubjectData.grades data) ;;
      ret (mkTotals
             (t_subject_averages acc ++
                [SubjectAverage.mk subject_id (SubjectData.subject_name data)
                   (round subject_avg 2) (SubjectData.coefficient data)
                   (List.length (SubjectData.grades data))])
             (add (t_weighted_sum acc) (mul subject_avg (SubjectData.coefficient data)))
             (add (t_total_coefficient acc) (SubjectData.coefficient data)))
  end.

Definition average_subjects (subjects_data : dict SubjectData.t) : result Totals :=
  foldM average_subject subjects_data (mkTotals [] 0 0).

(** Line 332. *)
Definition compute_general_average (weighted_sum total_coefficient : Q) : result Q :=
  if Qlt_bool 0 total_coefficient then
    q <- truediv weighted_sum total_coefficient ;; ret (round q 2)
  else ret 0.

Definition calculate_student_average (db : Db) (student_id : string)
    (semester : option string) (current_user : User.t) (now : Z) : result AverageReport :=
  if access_denied current_user student_id then
    raise (HTTPException HTTP_403_FORBIDDEN "Accès non autorisé")
  else
    let grades := find (of_student student_id) (grades db) in
    match grades with
    | [] => ret (mkReport student_id 0 [] 0 semester None)
    | _ =>
        let subjects_data := group_grades (subjects db) grades in
        acc <- average_subjects subjects_data ;;
        general_average <-
          compute_general_average (t_weighted_sum acc) (t_total_coefficient acc) ;;
        ret (mkReport student_id general_average (t_subject_averages acc)
               (t_total_coefficient acc) semester (Some now))
    end.

End Binary64.

(* ================================================================== *)
(** ** What the report should contain, said directly

    These definitions follow the description of the computation rather than
    the loops: which subjects appear, which values belong to each, the
    arithmetic mean and the weighted mean.  The theorems below relate the
    handler to them. *)

(** The subject still exists. *)
Definition resolves (subjects : list Subject.t) (subject_id : string) : bool :=
  match find_one (by_id subject_id) subjects with
  | Some _ => true
  | None => false
  end.

Definition name_of (subjects : list Subject.t) (subject_id : string) : string :=
  match find_one (by_id subject_id) subjects with
  | Some s => Subject.name s
  | None => ""
  end.

Definition coefficient_of (subjects : list Subject.t) (subject_id : string) : Q :=
  match find_one (by_id subject_id) subjects with
  | Some s => Subject.coefficient s
  | None => 0
  end.

Definition mem (x : string) (l : list string) : bool := existsb (String.eqb x) l.

Definition remove_key (x : string) (l : list string) : list string :=
  filter (fun y => negb (String.eqb x y)) l.

(** Distinct elements of [l], each at the place of its first occurrence. *)
Fixpoint first_seen (l : list string) : list string :=
  match l with
  | [] => []
  | x :: l' => x :: remove_key x (first_seen l')
  end.



(** The grades that still point to a subject. *)
Definition live_grades (subjects : list Subject.t) (gs : list Grade.t) : list Grade.t :=
  filter (fun g => resolves subjects (Grade.subject_id g)) gs.

(** Subjects with at least one grade, in order of their first grade. *)
Definition graded_subjects (subjects : list Subject.t) (gs : list Grade.t) : list string :=
  first_seen (map Grade.subject_id (live_grades subjects gs)).

(** The values of the grades of one subject, in the order of the grades. *)
Definition values_of (subject_id : string) (gs : list Grade.t) : list Q :=
  map Grade.value (filter (fun g => String.eqb (Grade.subject_id g) subject_id) gs).

Definition arithmetic_mean (vs : list Q) : Q :=
  Qsum vs / inject_Z (Z.of_nat (List.length vs)).

Definition subject_mean (gs : list Grade.t) (subject_id : string) : Q :=
  arithmetic_mean (values_of subject_id gs).

(** The expected entry of the per-subject list. *)
Definition subject_row (subjects : list Subject.t) (gs : list Grade.t)
    (subject_id : string) : SubjectAverage.t :=
  SubjectAverage.mk subject_id (name_of subjects subject_id)
    (round (subject_mean gs subject_id) 2)
    (coefficient_of subjects subject_id)
    (List.length (values_of subject_id gs)).

(** Sum of (subject mean x coefficient) over the graded subjects. *)
Definition weighted_total (subjects : list Subject.t) (gs : list Grade.t) : Q :=
  Qsum (map (fun k => subject_mean gs k * coefficient_of subjects k)
          (graded_subjects subjects gs)).

(** Sum of the coefficients of the graded subjects. *)
Definition coefficient_total (subjects : list Subject.t) (gs : list Grade.t) : Q :=
  Qsum (map (coefficient_of subjects) (graded_subjects subjects gs)).

(** The grouping the first loop is expected to build. *)
Definition grouped (subjects : list Subject.t) (gs : list Grade.t) : dict SubjectData.t :=
  map (fun k => (k, SubjectData.mk (name_of subjects k) (coefficient_of subjects k)
                      (values_of k gs)))
      (graded_subjects subjects gs).

(** Store invariants that the request models establish. *)
Definition grade_in_range (g : Grade.t) : Prop := 0 <= Grade.value g <= 20.
Definition coefficients_positive (subjects : list Subject.t) : Prop :=
  forall s, In s subjects -> 0 < Subject.coefficient s.

Definition grades_in_range (db : Db) : Prop := Forall grade_in_range (grades db).

(** The grade sequence fetched at line 285. *)
Definition fetched (db : Db) (student_id : string) : list Grade.t :=
  find (of_student student_id) (grades db).


(** A dictionary given by its keys and the value under each key. *)
Definition table {V : Type} (e : string -> V) (keys : list string) : dict V :=
  map (fun k => (k, e k)) keys.

(** The value [grouped] stores under a key. *)
Definition group_of (subjects : list Subject.t) (gs : list Grade.t) (k : string)
  : SubjectData.t :=
  SubjectData.mk (name_of subjects k) (coefficient_of subjects k) (values_of k gs).

(** Line 332 without the exception plumbing. *)
Definition general_average_of (weighted_sum total_coefficient : Q) : Q :=
  if Qlt_bool 0 total_coefficient then round (weighted_sum / total_coefficient) 2 else 0.

(** What the handler returns to a caller who passes the permission test. *)
Definition expected_report (db : Db) (student_id : string)
    (semester : option string) (now : Z) : AverageReport :=
  let gs := fetched db student_id in
  match gs with
  | [] => mkReport student_id 0 [] 0 semester None
  | _ =>
      mkReport student_id
        (general_average_of (weighted_total (subjects db) gs)
           (coefficient_total (subjects db) gs))
        (map (subject_row (subjects db) gs) (graded_subjects (subjects db) gs))
        (coefficient_total (subjects db) gs) semester (Some now)
  end.

(** The caller may read the data of [student_id]. *)
Definition may_read (current_user : User.t) (student_id : string) : Prop :=
  User._id current_user = student_id
  \/ User.role current_user = TEACHER
  \/ User.role current_user = ADMIN.

Definition is_forbidden {A : Type} (r : result A) : Prop :=
  exists detail, r = inl (HTTPException HTTP_403_FORBIDDEN detail).

Definition is_not_found {A : Type} (r : result A) : Prop :=
  exists detail, r = inl (HTTPException HTTP_404_NOT_FOUND detail).

(* ================================================================== *)
(** ** Read handlers for subjects and for the grades of a subject *)

Definition subject_response (subject : Subject.t) : SubjectResponse.t :=
  SubjectResponse.mk (Subject._id subject) (Subject.subject_code subject)
    (Subject.name subject) (Subject.coefficient subject)
    (Subject.description subject) (Subject.created_at subject).

(** [get_all_subjects] ([api_routes.py], lines 287-304). *)
Definition get_all_subjects (db : Db) (current_user : User.t)
  : result (list SubjectResponse.t) :=
  let subjects := find (fun _ => true) (subjects db) in
  ret (map subject_response subjects).

(** [get_subject_by_id] ([api_routes.py], lines 306-326). *)
Definition get_subject_by_id (db : Db) (subject_id : string) (current_user : User.t)
  : result SubjectResponse.t :=
  match find_one (by_id subject_id) (subjects db) with
  | None => raise (HTTPException HTTP_404_NOT_FOUND "Matière non trouvée")
  | Some subject => ret (subject_response subject)
  end.

Definition of_subject (subject_id : string) (g : Grade.t) : bool :=
  String.eqb (Grade.subject_id g) subject_id.

(** [get_subject_grades] ([api_routes_part2.py], lines 148-188). *)
Definition get_subject_grades (db : Db) (subject_id : string) (current_user : User.t)
  : result (list GradeResponse.t) :=
  let grades := find (of_subject subject_id) (grades db) in
  match find_one (by_id subject_id) (subjects db) with
  | None => raise (HTTPException HTTP_404_NOT_FOUND "Matière non trouvée")
  | Some subject =>
      ret (map (fun grade =>
                  let student :=
                    find_one (user_by_id (Grade.student_id grade)) (users db) in
                  GradeResponse.mk (Grade._id grade) (Grade.value grade)
                    (Grade.date grade) (Grade.comment grade)
                    (Grade.student_id grade)
                    (match student with
                     | Some s => full_name (User.firstname s) (User.lastname s)
                     | None => "Étudiant inconnu"
                     end)
                    subject_id (Subject.name subject) (Subject.coefficient subject)
                    (teacher_name (users db) (Grade.recorded_by_teacher_id grade)))
               grades)
  end.

(** The route of [get_subject_grades]: the role dependency, then the handler. *)
Definition route_get_subject_grades (db : Db) (subject_id : string) (caller : User.t)
  : result (list GradeResponse.t) :=
  current_user <- require_role [TEACHER; ADMIN] caller ;;
  get_subject_grades db subject_id current_user.

(** ** Conditions on a store used by the properties below *)

(** Identifiers are unique within a collection, as the store enforces. *)
Definition unique_user_ids (db : Db) : Prop := NoDup (map User._id (users db)).
Definition unique_grade_ids (db : Db) : Prop := NoDup (map Grade._id (grades db)).
Definition unique_subject_ids (db : Db) : Prop := NoDup (map Subject._id (subjects db)).
Definition unique_subject_codes (db : Db) : Prop :=
  NoDup (map Subject.subject_code (subjects db)).

(** The fields of a stored subject are within the limits of [SubjectCreate]. *)
Definition subject_within_limits (s : Subject.t) : Prop :=
  (1 # 10) <= Subject.coefficient s <= 10
  /\ (1 <= len (Subject.subject_code s) <= 20)%nat
  /\ (1 <= len (Subject.name s) <= 200)%nat.

(** Every grade points to a stored subject and to a stored student. *)
Definition references_resolve (db : Db) : Prop :=
  forall g, In g (grades db) ->
    resolves (subjects db) (Grade.subject_id g) = true
    /\ exists u, In u (users db) /\ User._id u = Grade.student_id g
                 /\ User.role u = STUDENT.

(** The documents that [create_subject] and [create_grade] insert. *)
Definition new_subject (body : SubjectCreate.t) (subject_id : string) (now : Z)
  : Subject.t :=
  Subject.mk subject_id (SubjectCreate.subject_code body) (SubjectCreate.name body)
    (SubjectCreate.coefficient body) (SubjectCreate.description body) now.

Definition new_grade (body : GradeCreate.t) (current_user : User.t)
    (grade_id : string) (now : Z) : Grade.t :=
  Grade.mk grade_id (GradeCreate.student_id body) (GradeCreate.subject_id body)
    (GradeCreate.value body) (GradeCreate.comment body)
    (or_else (GradeCreate.recorded_by_teacher_id body) (User._id current_user))
    now None None.

(** The write request [r] is about the grades of [student_id]: it adds a
    grade for the student, rewrites or deletes one of the student's grades,
    deletes the student, or creates a subject under an identifier that one of
    the student's grades points to without finding a subject. *)
Definition concerns (db : Db) (student_id : string) (r : request) : Prop :=
  match r with
  | PostSubject _ subject_id _ _ =>
      exists g, In g (grades db) /\ Grade.student_id g = student_id
                /\ Grade.subject_id g = subject_id
                /\ resolves (subjects db) subject_id = false
  | PostGrade body _ _ _ => GradeCreate.student_id body = student_id
  | PutGrade grade_id _ _ =>
      exists g, In g (grades db) /\ Grade.student_id g = student_id
                /\ Grade._id g = grade_id
  | DeleteGrade grade_id =>
      exists g, In g (grades db) /\ Grade.student_id g = student_id
                /\ Grade._id g = grade_id
  | DeleteUser user_id => user_id = student_id
  end.

(** How many times [k] occurs in [l]. *)
Definition occurrences (k : string) (l : list string) : nat :=
  List.length (filter (fun y => String.eqb y k) l).

(* ================================================================== *)
(** ** A small store used in the examples *)

Definition example_student : User.t :=
  User.mk "s1" "alice" "Alice" "Martin" "alice@example.com" STUDENT.

Definition example_other_student : User.t :=
  User.mk "s2" "bob" "Bob" "Durand" "bob@example.com" STUDENT.

Definition example_teacher : User.t :=
  User.mk "t1" "carol" "Carol" "Petit" "carol@example.com" TEACHER.

Definition example_admin : User.t :=
  User.mk "a1" "admin" "Admin" "Système" "admin@example.com" ADMIN.

Definition example_subjects : list Subject.t :=
  [Subject.mk "A" "MATH" "Subject A" 2 None 0;
   Subject.mk "B" "PHYS" "Subject B" 1 None 0].

Definition example_grade (id student subject : string) (v : Q) : Grade.t :=
  Grade.mk id student subject v None "t1" 0 None None.

(** Student [s1] has 10 and 14 in subject A (coefficient 2) and 16 in
    subject B (coefficient 1); [s2] has a grade of their own. *)
Definition example_db : Db :=
  mkDb [example_student; example_other_student; example_teacher; example_admin]
    example_subjects
    [example_grade "g1" "s1" "A" 10;
     example_grade "g2" "s2" "A" 7;
     example_grade "g3" "s1" "A" 14;
     example_grade "g4" "s1" "B" 16].

(** The same, for the handler in double precision: every sum, product,
    quotient and mean is followed by the rounding to the nearest double. *)
Definition float_mean (vs : list Q) : Q := fl (arithmetic_mean vs).

Definition float_row (subjects : list Subject.t) (gs : list Grade.t)
    (subject_id : string) : SubjectAverage.t :=
  SubjectAverage.mk subject_id (name_of subjects subject_id)
    (fl (round (float_mean (values_of subject_id gs)) 2))
    (coefficient_of subjects subject_id)
    (List.length (values_of subject_id gs)).

(** The running sum of (subject mean x coefficient), subject after subject. *)
Definition float_weighted_total (subjects : list Subject.t) (gs : list Grade.t) : Q :=
  fold_left
    (fun w k => fl (w + fl (float_mean (values_of k gs) * coefficient_of subjects k)))
    (graded_subjects subjects gs) 0.

(** The running sum of the coefficients, subject after subject. *)
Definition float_coefficient_total (subjects : list Subject.t) (gs : list Grade.t) : Q :=
  fold_left (fun t k => fl (t + coefficient_of subjects k))
    (graded_subjects subjects gs) 0.

Definition float_general_average (weighted_sum total_coefficient : Q) : Q :=
  if Qlt_bool 0 total_coefficient
  then fl (round (fl (weighted_sum / total_coefficient)) 2)
  else 0.

Definition float_expected_report (db : Db) (student_id : string)
    (semester : option string) (now : Z) : AverageReport :=
  let gs := fetched db student_id in
  match gs with
  | [] => mkReport student_id 0 [] 0 semester None
  | _ =>
      mkReport student_id
        (float_general_average (float_weighted_total (subjects db) gs)
           (float_coefficient_total (subjects db) gs))
        (map (float_row (subjects db) gs) (graded_subjects (subjects db) gs))
        (float_coefficient_total (subjects db) gs) semester (Some now)
  end.

(** A store with one subject and two grades of one student, 2.67 and 2.68
    as the doubles nearest to these decimals. *)
Definition float_example_db : Db :=
  mkDb [example_student]
    [Subject.mk "A" "MATH" "Subject A" 1 None 0]
    [example_grade "g1" "s1" "A" (fl (267 # 100));
     example_grade "g2" "s1" "A" (fl (268 # 100))].

(* ================================================================== *)
(** * Proofs *)

(** ** Sanity checks of the numeric model *)

Example round_two_decimals : round (40 # 3) 2 = 1333 # 100.
Proof. reflexivity. Qed.

Example round_tie_to_even_down : round (1 # 8) 2 == 12 # 100.
Proof. vm_compute. reflexivity. Qed.

Example round_tie_to_even_up : round (3 # 8) 2 == 38 # 100.
Proof. vm_compute. reflexivity. Qed.

Example len_counts_characters :
  len "Système" = 7%nat /\ String.length "Système" = 8%nat.
Proof. split; reflexivity. Qed.

Example mean_of_two : mean [10; 14] = inr (24 # 2).
Proof. reflexivity. Qed.

Example mean_of_nothing : mean [] = inl StatisticsError.
Proof. reflexivity. Qed.

Example truediv_by_zero : truediv 5 0 = inl ZeroDivisionError.
Proof. reflexivity. Qed.

Example first_seen_keeps_first_places :
  first_seen ["B"; "A"; "B"; "C"; "A"] = ["B"; "A"; "C"].
Proof. reflexivity. Qed.

Example grouping_keeps_insertion_order :
  group_grades example_subjects
    [example_grade "g1" "s1" "B" 16; example_grade "g2" "s1" "Z" 3;
     example_grade "g3" "s1" "A" 10; example_grade "g4" "s1" "B" 12]
  = [("B", SubjectData.mk "Subject B" 1 [16; 12]);
     ("A", SubjectData.mk "Subject A" 2 [10])].
Proof. reflexivity. Qed.

Example fl_one_tenth : fl (1 # 10) = 3602879701896397 # 36028797018963968.
Proof. vm_compute. reflexivity. Qed.

Example fl_integer : fl 20 = 20.
Proof. vm_compute. reflexivity. Qed.

Example fl_below_decimal : fl (475 # 1000) < 475 # 1000.
Proof. vm_compute. reflexivity. Qed.

Example fl_tie_to_even :
  fl (inject_Z (2 ^ 53 + 1)) = inject_Z (2 ^ 53)
  /\ fl (inject_Z (2 ^ 53 + 3)) = inject_Z (2 ^ 53 + 4).
Proof. split; vm_compute; reflexivity. Qed.

Example fl_smallest_double :
  fl (two_power (-1074)) == two_power (-1074) /\ fl (two_power (-1076)) == 0.
Proof. split; vm_compute; reflexivity. Qed.

Example float_round_examples :
  Binary64.round (fl (2675 # 1000)) 2 = fl (267 # 100)
  /\ Binary64.round (1 # 8) 2 = fl (12 # 100)
  /\ Binary64.round (3 # 8) 2 = fl (38 # 100)
  /\ Binary64.round (fl (2 # 3)) 2 = fl (67 # 100).
Proof. repeat split; vm_compute; reflexivity. Qed.

(* ================================================================== *)
(** ** Lists of keys *)

Lemma mem_In (x : string) (l : list string) : mem x l = true <-> In x l.
Proof.
  unfold mem. rewrite existsb_exists. split.
  - intros [y [Hy He]]. apply String.eqb_eq in He. now subst.
  - intros H. exists x. split; [assumption | apply String.eqb_refl].
Qed.

Lemma mem_false_In (x : string) (l : list string) : mem x l = false <-> ~ In x l.
Proof.
  rewrite <- mem_In. destruct (mem x l); split; congruence.
Qed.

Lemma In_remove_key (x y : string) (l : list string) :
  In y (remove_key x l) <-> In y l /\ x <> y.
Proof.
  unfold remove_key. rewrite filter_In. rewrite negb_true_iff.
  rewrite String.eqb_neq. tauto.
Qed.

Lemma remove_key_app (x : string) (l1 l2 : list string) :
  remove_key x (l1 ++ l2) = remove_key x l1 ++ remove_key x l2.
Proof. unfold remove_key. apply filter_app. Qed.

Lemma In_first_seen (x : string) (l : list string) : In x (first_seen l) <-> In x l.
Proof.
  induction l as [|a l IH]; simpl; [tauto|].
  rewrite In_remove_key, IH.
  destruct (string_dec a x); [subst|]; tauto.
Qed.

Lemma NoDup_remove_key (x : string) (l : list string) :
  NoDup l -> NoDup (remove_key x l).
Proof. unfold remove_key. apply NoDup_filter. Qed.

Lemma NoDup_first_seen (l : list string) : NoDup (first_seen l).
Proof.
  induction l as [|a l IH]; simpl; constructor.
  - rewrite In_remove_key. tauto.
  - now apply NoDup_remove_key.
Qed.

Lemma mem_first_seen (x : string) (l : list string) : mem x (first_seen l) = mem x l.
Proof.
  destruct (mem x l) eqn:E.
  - apply mem_In. apply In_first_seen. now apply mem_In.
  - apply mem_false_In. rewrite In_first_seen. now apply mem_false_In.
Qed.

(** Appending one more element either leaves the distinct keys alone or
    adds the new key at the end. *)
Lemma first_seen_snoc (l : list string) (x : string) :
  first_seen (l ++ [x]) = if mem x l then first_seen l else first_seen l ++ [x].
Proof.
  induction l as [|a l IH]; simpl; [reflexivity|].
  rewrite IH. destruct (String.eqb x a) eqn:E; simpl.
  - apply String.eqb_eq in E. subst a.
    destruct (mem x l); [reflexivity|].
    rewrite remove_key_app. simpl. rewrite String.eqb_refl. simpl.
    now rewrite app_nil_r.
  - destruct (mem x l); [reflexivity|].
    rewrite remove_key_app. simpl.
    rewrite String.eqb_sym, E. reflexivity.
Qed.

(* ================================================================== *)
(** ** The dictionary on key-indexed tables *)

Section DictFacts.
Variable V : Type.
Implicit Types (d : dict V) (e : string -> V).

Lemma dict_mem_table e keys k : dict_mem k (table e keys) = mem k keys.
Proof.
  unfold dict_mem, mem, table. induction keys as [|a keys IH]; simpl; [reflexivity|].
  now rewrite IH, String.eqb_sym.
Qed.

Lemma dict_set_fresh k v d : dict_mem k d = false -> dict_set k v d = d ++ [(k, v)].
Proof.
  unfold dict_mem. induction d as [|[k' v'] d IH]; simpl; [reflexivity|].
  intros H. apply orb_false_iff in H as [H1 H2]. rewrite H1. now rewrite IH.
Qed.

Lemma dict_adjust_last k f v d :
  dict_mem k d = false -> dict_adjust k f (d ++ [(k, v)]) = d ++ [(k, f v)].
Proof.
  unfold dict_mem. induction d as [|[k' v'] d IH]; simpl.
  - now rewrite String.eqb_refl.
  - intros H. apply orb_false_iff in H as [H1 H2]. rewrite H1. now rewrite IH.
Qed.

Lemma dict_adjust_table k f e keys :
  NoDup keys ->
  dict_adjust k f (table e keys)
  = table (fun k' => if String.eqb k' k then f (e k') else e k') keys.
Proof.
  induction 1 as [|a keys Ha Hnd IH]; simpl; [reflexivity|].
  destruct (String.eqb a k) eqn:E.
  - f_equal. apply String.eqb_eq in E. subst a.
    apply map_ext_in. intros k' Hk'.
    destruct (String.eqb k' k) eqn:E'; [|reflexivity].
    apply String.eqb_eq in E'. now subst.
  - f_equal. apply IH.
Qed.
End DictFacts.

(* ================================================================== *)
(** ** The grouping loop builds [grouped] *)

Section Grouping.
Variable subjects : list Subject.t.

Lemma live_grades_snoc gs g :
  live_grades subjects (gs ++ [g])
  = live_grades subjects gs
    ++ (if resolves subjects (Grade.subject_id g) then [g] else []).
Proof.
  unfold live_grades. rewrite filter_app. simpl.
  now destruct (resolves subjects (Grade.subject_id g)).
Qed.

Lemma values_of_snoc k gs g :
  values_of k (gs ++ [g])
  = values_of k gs ++ (if String.eqb (Grade.subject_id g) k then [Grade.value g] else []).
Proof.
  unfold values_of. rewrite filter_app, map_app. simpl.
  now destruct (String.eqb (Grade.subject_id g) k).
Qed.

Lemma graded_subjects_resolve gs k :
  In k (graded_subjects subjects gs) -> resolves subjects k = true.
Proof.
  unfold graded_subjects, live_grades. rewrite In_first_seen, in_map_iff.
  intros [g [<- Hg]]. apply filter_In in Hg. tauto.
Qed.

Lemma graded_subjects_In gs k :
  In k (graded_subjects subjects gs) <->
  resolves subjects k = true /\ exists g, In g gs /\ Grade.subject_id g = k.
Proof.
  unfold graded_subjects, live_grades. rewrite In_first_seen, in_map_iff. split.
  - intros [g [<- Hg]]. apply filter_In in Hg. destruct Hg. eauto.
  - intros [Hr [g [Hg <-]]]. exists g. split; [reflexivity|].
    apply filter_In. tauto.
Qed.

Lemma values_of_nil gs k :
  resolves subjects k = true -> ~ In k (graded_subjects subjects gs) ->
  values_of k gs = [].
Proof.
  intros Hr Hn. unfold values_of.
  induction gs as [|g gs IH]; simpl; [reflexivity|].
  destruct (String.eqb (Grade.subject_id g) k) eqn:E.
  - exfalso. apply Hn. apply graded_subjects_In. split; [assumption|].
    exists g. apply String.eqb_eq in E. simpl. tauto.
  - apply IH. intros H. apply Hn. apply graded_subjects_In.
    apply graded_subjects_In in H as [_ [g' [Hg' He]]].
    split; [assumption|]. exists g'. simpl. tauto.
Qed.

Lemma values_of_nonempty gs k :
  In k (graded_subjects subjects gs) -> values_of k gs <> [].
Proof.
  intros H. apply graded_subjects_In in H as [_ [g [Hg He]]].
  unfold values_of. intros Hnil. apply map_eq_nil in Hnil.
  assert (Hin : In g (filter (fun g => String.eqb (Grade.subject_id g) k) gs)).
  { apply filter_In. split; [assumption|]. now apply String.eqb_eq. }
  rewrite Hnil in Hin. destruct Hin.
Qed.

Lemma resolves_find_one k :
  resolves subjects k = true ->
  exists s, find_one (by_id k) subjects = Some s
            /\ name_of subjects k = Subject.name s
            /\ coefficient_of subjects k = Subject.coefficient s.
Proof.
  unfold resolves, name_of, coefficient_of.
  destruct (find_one _ subjects) as [s|]; [|discriminate].
  intros _. now exists s.
Qed.

Lemma resolves_false_find_one k :
  resolves subjects k = false ->
  find_one (by_id k) subjects = None.
Proof.
  unfold resolves. now destruct (find_one _ subjects).
Qed.

Lemma graded_subjects_snoc gs g :
  graded_subjects subjects (gs ++ [g])
  = if resolves subjects (Grade.subject_id g) then
      if mem (Grade.subject_id g) (graded_subjects subjects gs)
      then graded_subjects subjects gs
      else graded_subjects subjects gs ++ [Grade.subject_id g]
    else graded_subjects subjects gs.
Proof.
  unfold graded_subjects. rewrite live_grades_snoc.
  destruct (resolves subjects (Grade.subject_id g)).
  - rewrite map_app. simpl. rewrite first_seen_snoc.
    now rewrite mem_first_seen.
  - now rewrite app_nil_r.
Qed.

Lemma grouped_table gs :
  grouped subjects gs = table (group_of subjects gs) (graded_subjects subjects gs).
Proof. reflexivity. Qed.

(** One iteration of the loop takes the expected grouping of [gs] to the
    expected grouping of [gs ++ [g]]. *)
Lemma group_grade_grouped gs g :
  group_grade subjects (grouped subjects gs) g = grouped subjects (gs ++ [g]).
Proof.
  rewrite !grouped_table, graded_subjects_snoc. unfold group_grade.
  set (sid := Grade.subject_id g).
  set (keys := graded_subjects subjects gs).
  assert (Hnd : NoDup keys) by apply NoDup_first_seen.
  rewrite dict_mem_table.
  destruct (resolves subjects sid) eqn:Hr.
  - destruct (resolves_find_one _ Hr) as [s [Hs [Hn Hc]]].
    destruct (mem sid keys) eqn:Hm; simpl.
    + rewrite dict_mem_table, Hm.
      rewrite dict_adjust_table by assumption.
      unfold table. apply map_ext. intros k. f_equal.
      unfold group_of, SubjectData.append_grade. simpl.
      rewrite values_of_snoc. fold sid. rewrite (String.eqb_sym sid k).
      destruct (String.eqb k sid); [reflexivity|].
      now rewrite app_nil_r.
    + rewrite Hs.
      assert (Hfresh : dict_mem sid (table (group_of subjects gs) keys) = false)
        by now rewrite dict_mem_table.
      rewrite dict_set_fresh by exact Hfresh.
      replace (dict_mem sid _) with true.
      2:{ symmetry. unfold dict_mem. rewrite existsb_app. simpl.
          rewrite String.eqb_refl. now rewrite orb_true_r. }
      rewrite dict_adjust_last by exact Hfresh.
      unfold table. rewrite map_app. simpl. f_equal.
      * apply map_ext_in. intros k Hk. f_equal. unfold group_of. f_equal.
        rewrite values_of_snoc. fold sid.
        destruct (String.eqb sid k) eqn:E; [|now rewrite app_nil_r].
        apply String.eqb_eq in E. subst k.
        apply mem_false_In in Hm. contradiction.
      * unfold group_of, SubjectData.append_grade. simpl.
        rewrite values_of_snoc. fold sid. rewrite String.eqb_refl.
        rewrite values_of_nil; [|assumption|now apply mem_false_In].
        now rewrite <- Hn, <- Hc.
  - assert (Hm : mem sid keys = false).
    { apply mem_false_In. intros H. apply graded_subjects_resolve in H. congruence. }
    rewrite Hm. simpl. rewrite (resolves_false_find_one _ Hr).
    rewrite dict_mem_table, Hm.
    unfold table. apply map_ext_in. intros k Hk. f_equal. unfold group_of. f_equal.
    rewrite values_of_snoc. fold sid.
    destruct (String.eqb sid k) eqn:E; [|now rewrite app_nil_r].
    apply String.eqb_eq in E. subst k.
    apply graded_subjects_resolve in Hk. congruence.
Qed.

Theorem group_grades_grouped gs : group_grades subjects gs = grouped subjects gs.
Proof.
  unfold group_grades. induction gs as [|g gs IH] using rev_ind.
  - reflexivity.
  - rewrite fold_left_app. simpl. rewrite IH. apply group_grade_grouped.
Qed.
End Grouping.

(* ================================================================== *)
(** ** The averaging loop and the whole handler *)

(** The division of line 332 is only reached with a positive divisor, so
    it never raises. *)
Lemma compute_general_average_total (w t : Q) :
  compute_general_average w t = inr (general_average_of w t).
Proof.
  unfold compute_general_average, general_average_of, truediv, Qlt_bool.
  destruct (Qle_bool t 0) eqn:Hle; simpl; [reflexivity|].
  destruct (Qeq_bool t 0) eqn:Heq; simpl; [|reflexivity].
  apply Qeq_bool_iff in Heq.
  assert (Hle' : Qle_bool t 0 = true).
  { apply Qle_bool_iff. rewrite Heq. apply Qle_refl. }
  congruence.
Qed.

Section Averaging.
Variable subjects : list Subject.t.
Variable gs : list Grade.t.

Lemma average_subject_group (acc : Totals) (k : string) :
  values_of k gs <> [] ->
  average_subject acc (k, group_of subjects gs k)
  = inr (mkTotals
           (t_subject_averages acc ++ [subject_row subjects gs k])
           (t_weighted_sum acc + subject_mean gs k * coefficient_of subjects k)
           (t_total_coefficient acc + coefficient_of subjects k)).
Proof.
  intros Hne. unfold average_subject, group_of, subject_row, subject_mean,
    arithmetic_mean, mean. simpl.
  destruct (values_of k gs) as [|v vs] eqn:E; [congruence|]. reflexivity.
Qed.

Lemma foldM_average_subject (keys : list string) (acc : Totals) :
  (forall k, In k keys -> values_of k gs <> []) ->
  foldM average_subject (table (group_of subjects gs) keys) acc
  = inr (mkTotals
           (t_subject_averages acc ++ map (subject_row subjects gs) keys)
           (fold_left Qplus
              (map (fun k => subject_mean gs k * coefficient_of subjects k) keys)
              (t_weighted_sum acc))
           (fold_left Qplus (map (coefficient_of subjects) keys)
              (t_total_coefficient acc))).
Proof.
  unfold table. revert acc.
  induction keys as [|k keys IH]; intros acc Hne; cbn [map foldM fold_left].
  - rewrite app_nil_r. now destruct acc.
  - rewrite average_subject_group by (apply Hne; now left). cbn [bind].
    rewrite IH by (intros k' Hk'; apply Hne; now right). cbn.
    now rewrite <- app_assoc.
Qed.

Lemma average_subjects_grouped :
  average_subjects (group_grades subjects gs)
  = inr (mkTotals (map (subject_row subjects gs) (graded_subjects subjects gs))
           (weighted_total subjects gs) (coefficient_total subjects gs)).
Proof.
  rewrite group_grades_grouped, grouped_table. unfold average_subjects.
  rewrite foldM_average_subject by (intros k; apply values_of_nonempty).
  reflexivity.
Qed.
End Averaging.

Lemma calculate_student_average_allowed db student_id semester current_user now :
  access_denied current_user student_id = false ->
  calculate_student_average db student_id semester current_user now
  = inr (expected_report db student_id semester now).
Proof.
  intros Hacc. unfold calculate_student_average, expected_report, fetched.
  rewrite Hacc.
  destruct (find (of_student student_id) (grades db)) as [|g gs] eqn:E; [reflexivity|].
  rewrite average_subjects_grouped. simpl.
  rewrite compute_general_average_total. reflexivity.
Qed.

Lemma calculate_student_average_denied db student_id semester current_user now :
  access_denied current_user student_id = true ->
  calculate_student_average db student_id semester current_user now
  = inl (HTTPException HTTP_403_FORBIDDEN "Accès non autorisé").
Proof.
  intros Hacc. unfold calculate_student_average. now rewrite Hacc.
Qed.

(* ================================================================== *)
(** ** Arithmetic of sums, means and rounding *)

Lemma Qlt_bool_iff (x y : Q) : Qlt_bool x y = true <-> x < y.
Proof.
  unfold Qlt_bool. rewrite negb_true_iff. split.
  - intros H. apply Qnot_le_lt. intros Hle. apply Qle_bool_iff in Hle. congruence.
  - intros H. destruct (Qle_bool y x) eqn:E; [|reflexivity].
    apply Qle_bool_iff in E. exfalso. exact (Qlt_not_le _ _ H E).
Qed.

Lemma in_closed_range_iff (lo hi x : Q) :
  in_closed_range lo hi x = true <-> lo <= x <= hi.
Proof.
  unfold in_closed_range. rewrite andb_true_iff, !Qle_bool_iff. tauto.
Qed.

(** A running sum stays between the bounds its terms allow. *)
Lemma fold_Qplus_bounds (lo hi : Q) (l : list Q) (a : Q) :
  (forall x, In x l -> lo <= x <= hi) ->
  a + inject_Z (Z.of_nat (List.length l)) * lo <= fold_left Qplus l a
  /\ fold_left Qplus l a <= a + inject_Z (Z.of_nat (List.length l)) * hi.
Proof.
  revert a. induction l as [|x l IH]; intros a Hall.
  - cbn [fold_left List.length Z.of_nat]. change (inject_Z 0) with 0. split; lra.
  - destruct (Hall x (or_introl eq_refl)) as [Hlo Hhi].
    destruct (IH (a + x) (fun y Hy => Hall y (or_intror Hy))) as [IH1 IH2].
    cbn [fold_left List.length].
    rewrite Nat2Z.inj_succ, <- Z.add_1_r, inject_Z_plus.
    change (inject_Z 1) with 1. split; lra.
Qed.

Lemma arithmetic_mean_bounds (lo hi : Q) (vs : list Q) :
  vs <> [] -> (forall x, In x vs -> lo <= x <= hi) ->
  lo <= arithmetic_mean vs <= hi.
Proof.
  intros Hne Hall. unfold arithmetic_mean, Qsum.
  destruct (@fold_Qplus_bounds lo hi vs 0 Hall) as [H1 H2].
  assert (Hn : 0 < inject_Z (Z.of_nat (List.length vs))).
  { change 0 with (inject_Z 0). rewrite <- Zlt_Qlt.
    destruct vs; [congruence|]. simpl. lia. }
  split.
  - apply Qle_shift_div_l; [assumption|]. lra.
  - apply Qle_shift_div_r; [assumption|]. lra.
Qed.


Lemma fold_Qplus_nonneg (l : list Q) (a : Q) :
  (forall x, In x l -> 0 <= x) -> a <= fold_left Qplus l a.
Proof.
  revert a. induction l as [|x l IH]; intros a Hall; cbn [fold_left].
  - apply Qle_refl.
  - apply Qle_trans with (a + x).
    + specialize (Hall x (or_introl eq_refl)). lra.
    + apply IH. intros y Hy. apply Hall. now right.
Qed.

Lemma fold_Qplus_pos (l : list Q) :
  (forall x, In x l -> 0 < x) -> l <> [] -> 0 < Qsum l.
Proof.
  intros Hall Hne. destruct l as [|x l]; [congruence|].
  unfold Qsum. cbn [fold_left].
  apply Qlt_le_trans with (0 + x).
  - specialize (Hall x (or_introl eq_refl)). lra.
  - apply fold_Qplus_nonneg. intros y Hy. apply Qlt_le_weak, Hall. now right.
Qed.

Lemma round_half_even_comp (x y : Q) : x == y -> round_half_even x = round_half_even y.
Proof.
  intros H. unfold round_half_even.
  rewrite (Qfloor_comp _ _ H).
  assert (Hc : Qcompare (x - inject_Z (Qfloor y)) (1 # 2)
               = Qcompare (y - inject_Z (Qfloor y)) (1 # 2)).
  { apply Qcompare_comp; [now rewrite H | reflexivity]. }
  now rewrite Hc.
Qed.

(** Rounding does not leave an interval with integer ends. *)
Lemma round_half_even_bounds (a b : Z) (y : Q) :
  inject_Z a <= y <= inject_Z b -> (a <= round_half_even y <= b)%Z.
Proof.
  intros [Ha Hb]. unfold round_half_even.
  assert (Hfa : (a <= Qfloor y)%Z).
  { rewrite <- (Qfloor_Z a). now apply Qfloor_resp_le. }
  assert (Hfb : (Qfloor y <= b)%Z).
  { rewrite <- (Qfloor_Z b). now apply Qfloor_resp_le. }
  assert (Hup : 0 < y - inject_Z (Qfloor y) -> (Qfloor y + 1 <= b)%Z).
  { intros Hpos. destruct (Z.eq_dec (Qfloor y) b) as [E|E]; [|lia].
    rewrite E in Hpos. lra. }
  destruct (Qcompare (y - inject_Z (Qfloor y)) (1 # 2)) eqn:C.
  - apply Qeq_alt in C. destruct (Z.even (Qfloor y)); [lia|].
    split; [lia|]. apply Hup. rewrite C. reflexivity.
  - lia.
  - apply Qgt_alt in C. split; [lia|]. apply Hup. lra.
Qed.

Lemma round_comp (x y : Q) (ndigits : nat) : x == y -> round x ndigits = round y ndigits.
Proof.
  intros H. unfold round. f_equal. f_equal.
  apply round_half_even_comp. now rewrite H.
Qed.

Lemma round_2_bounds (x : Q) : 0 <= x <= 20 -> 0 <= round x 2 <= 20.
Proof.
  intros [H0 H20]. unfold round.
  change (Z.to_pos (10 ^ Z.of_nat 2)) with 100%positive.
  rewrite Qred_correct.
  destruct (@round_half_even_bounds 0 2000 (x * inject_Z 100)) as [Hlo Hhi].
  { change (inject_Z 0) with 0. change (inject_Z 2000) with 2000.
    change (inject_Z 100) with 100. split; lra. }
  unfold Qle. simpl. lia.
Qed.

(* ================================================================== *)
(** ** Rounding to hundredths *)

Lemma round_half_even_error (x : Q) :
  inject_Z (round_half_even x) - (1 # 2) <= x
  /\ x <= inject_Z (round_half_even x) + (1 # 2).
Proof.
  unfold round_half_even.
  pose proof (Qfloor_le x) as Hlo. pose proof (Qlt_floor x) as Hhi.
  rewrite inject_Z_plus in Hhi. change (inject_Z 1) with 1 in Hhi.
  destruct (Qcompare (x - inject_Z (Qfloor x)) (1 # 2)) eqn:C.
  - apply Qeq_alt in C. destruct (Z.even (Qfloor x)).
    + split; lra.
    + rewrite inject_Z_plus. change (inject_Z 1) with 1. split; lra.
  - apply Qlt_alt in C. split; lra.
  - apply Qgt_alt in C. rewrite inject_Z_plus. change (inject_Z 1) with 1.
    split; lra.
Qed.

Lemma round_2_hundredths (x : Q) : round x 2 == round_half_even (x * 100) # 100.
Proof.
  unfold round. change (Z.to_pos (10 ^ Z.of_nat 2)) with 100%positive.
  change (inject_Z 100) with 100. apply Qred_correct.
Qed.

Lemma round_2_error (x : Q) :
  round x 2 - (1 # 200) <= x /\ x <= round x 2 + (1 # 200).
Proof.
  rewrite round_2_hundredths.
  destruct (round_half_even_error (x * 100)) as [Hlo Hhi].
  assert (E : round_half_even (x * 100) # 100
              == inject_Z (round_half_even (x * 100)) * (1 # 100)).
  { unfold Qeq, inject_Z. simpl. ring. }
  rewrite E. split; lra.
Qed.

(** On a tie the even neighbour is taken. *)
Lemma round_half_even_tie (y : Q) :
  Qabs (inject_Z (round_half_even y) - y) == 1 # 2 ->
  Z.even (round_half_even y) = true.
Proof.
  unfold round_half_even.
  pose proof (Qfloor_le y) as Hlo. pose proof (Qlt_floor y) as Hhi.
  rewrite inject_Z_plus in Hhi. change (inject_Z 1) with 1 in Hhi.
  destruct (Qcompare (y - inject_Z (Qfloor y)) (1 # 2)) eqn:C.
  - intros _. destruct (Z.even (Qfloor y)) eqn:E; [exact E|].
    rewrite Z.even_add, E. reflexivity.
  - apply Qlt_alt in C. intros H. exfalso.
    rewrite Qabs_neg in H by lra. lra.
  - apply Qgt_alt in C. rewrite inject_Z_plus. change (inject_Z 1) with 1.
    intros H. exfalso. rewrite Qabs_pos in H by lra. lra.
Qed.

(** [round x 2] is a whole number of hundredths, nearest to [x], the even
    one on a tie. *)
Lemma round_2_nearest (x : Q) :
  exists n : Z,
    round x 2 == n # 100
    /\ Qabs (round x 2 - x) <= 1 # 200
    /\ (Qabs (round x 2 - x) == 1 # 200 -> Z.even n = true).
Proof.
  exists (round_half_even (x * 100)).
  split; [apply round_2_hundredths|].
  split.
  - apply Qabs_diff_Qle_condition. destruct (round_2_error x). split; lra.
  - intros H. apply round_half_even_tie.
    rewrite round_2_hundredths in H.
    assert (E : inject_Z (round_half_even (x * 100)) - x * 100
                == ((round_half_even (x * 100) # 100) - x) * 100).
    { rewrite (Qmake_Qdiv (round_half_even (x * 100)) 100).
      change (inject_Z (Zpos 100)) with 100. field. }
    rewrite E, Qabs_Qmult, H. reflexivity.
Qed.

(* ================================================================== *)
(** ** Rounding to the nearest double *)

Lemma two_power_pos (q : Z) : 0 < two_power q.
Proof. unfold two_power. apply Qpower_0_lt. reflexivity. Qed.

Lemma two_power_plus (a b : Z) : two_power (a + b) == two_power a * two_power b.
Proof. unfold two_power. apply Qpower_plus. discriminate. Qed.

Lemma two_power_le (a b : Z) : (a <= b)%Z -> two_power a <= two_power b.
Proof. intros H. unfold two_power. apply Qpower_le_compat_l; [exact H|]. discriminate. Qed.

Lemma two_power_inject (a : Z) : (0 <= a)%Z -> two_power a == inject_Z (2 ^ a).
Proof.
  intros H. unfold two_power. change 2 with (inject_Z 2).
  symmetry. apply Zpower_Qpower. exact H.
Qed.

Lemma Qabs_as_quotient (x : Q) :
  Qabs x == inject_Z (Z.abs (Qnum x)) / inject_Z (Zpos (Qden x)).
Proof.
  destruct x as [n d]. unfold Qabs. cbn [Qnum Qden].
  rewrite (Qmake_Qdiv (Z.abs n) d). reflexivity.
Qed.

Lemma log2_brackets (n : Z) :
  (0 < n)%Z ->
  two_power (Z.log2 n) <= inject_Z n /\ inject_Z n < two_power (Z.log2 n + 1).
Proof.
  intros Hn. pose proof (Z.log2_spec n Hn) as [Hlo Hhi].
  pose proof (Z.log2_nonneg n) as H0.
  rewrite !two_power_inject by lia. rewrite <- Zle_Qle, <- Zlt_Qlt.
  unfold Z.succ in Hhi. split; assumption.
Qed.

(** [binade x] is the exponent of the power of two at or just below [|x|]. *)
Lemma binade_spec (x : Q) :
  ~ x == 0 ->
  two_power (binade x) <= Qabs x /\ Qabs x < two_power (binade x + 1).
Proof.
  intros Hx. unfold binade.
  set (n := Z.abs (Qnum x)). set (d := Zpos (Qden x)).
  assert (Hn : (0 < n)%Z).
  { subst n. destruct x as [xn xd]. cbn [Qnum]. unfold Qeq in Hx. cbn in Hx. lia. }
  assert (Hd : (0 < d)%Z) by (subst d; lia).
  destruct (@log2_brackets n Hn) as [Hn1 Hn2].
  destruct (@log2_brackets d Hd) as [Hd1 Hd2].
  assert (Hdq : 0 < inject_Z d) by (change 0 with (inject_Z 0); rewrite <- Zlt_Qlt; exact Hd).
  pose proof (Qabs_as_quotient x) as Habs. fold n d in Habs.
  set (a := Z.log2 n) in *. set (b := Z.log2 d) in *.
  assert (Hlow : two_power (a - b - 1) <= Qabs x).
  { rewrite Habs. apply Qle_shift_div_l; [exact Hdq|].
    apply Qle_trans with (two_power (a - b - 1) * two_power (b + 1)).
    - apply Qmult_le_l; [apply two_power_pos|]. apply Qlt_le_weak, Hd2.
    - rewrite <- two_power_plus. replace (a - b - 1 + (b + 1))%Z with a by lia.
      exact Hn1. }
  assert (Hhigh : Qabs x < two_power (a - b + 1)).
  { rewrite Habs. apply Qlt_shift_div_r; [exact Hdq|].
    apply Qlt_le_trans with (two_power (a - b + 1) * two_power b).
    - rewrite <- two_power_plus. replace (a - b + 1 + b)%Z with (a + 1)%Z by lia.
      exact Hn2.
    - apply Qmult_le_l; [apply two_power_pos|]. exact Hd1. }
  destruct (Qle_bool (two_power (a - b)) (Qabs x)) eqn:C.
  - apply Qle_bool_iff in C. split; assumption.
  - split; [exact Hlow|].
    replace (a - b - 1 + 1)%Z with (a - b)%Z by lia.
    apply Qnot_le_lt. intros H. apply Qle_bool_iff in H. congruence.
Qed.

Lemma Qabs_le_half (m y u : Q) :
  0 < u -> m - (1 # 2) <= y -> y <= m + (1 # 2) ->
  Qabs (m * u - y * u) <= u * (1 # 2).
Proof.
  intros Hu Hlo Hhi. apply Qabs_diff_Qle_condition. split; nra.
Qed.

Lemma two_power_cancel (x : Q) (q : Z) : x / two_power q * two_power q == x.
Proof.
  pose proof (two_power_pos q) as H. field. intros E. rewrite E in H.
  apply (Qlt_irrefl 0), H.
Qed.

Lemma fl_zero (x : Q) : x == 0 -> fl x = 0.
Proof. intros H. unfold fl. apply Qeq_bool_iff in H. now rewrite H. Qed.

(** [fl x] lies on the grid of spacing [2^quantum x], with a significand of
    at most 53 bits, is nearest to [x] on that grid, and on a tie has the
    even significand. *)
Lemma fl_nearest (x : Q) :
  exists m : Z,
    fl x == inject_Z m * two_power (quantum x)
    /\ (Z.abs m <= 2 ^ 53)%Z
    /\ Qabs (fl x - x) <= two_power (quantum x) * (1 # 2)
    /\ (Qabs (fl x - x) == two_power (quantum x) * (1 # 2) -> Z.even m = true).
Proof.
  pose proof (two_power_pos (quantum x)) as Hu.
  unfold fl. destruct (Qeq_bool x 0) eqn:Hz.
  - apply Qeq_bool_iff in Hz. exists 0%Z.
    assert (E : Qabs (0 - x) == 0) by (rewrite Hz; reflexivity).
    split; [change (inject_Z 0) with 0; ring|]. split; [discriminate|].
    rewrite E. split; [nra|]. intros H. exfalso. nra.
  - apply Qeq_bool_neq in Hz.
    set (u := two_power (quantum x)) in *. set (y := x / u).
    exists (round_half_even y). rewrite Qred_correct.
    assert (Hx : x == y * u) by (subst y u; now rewrite two_power_cancel).
    destruct (round_half_even_error y) as [Hlo Hhi].
    split; [reflexivity|].
    split; [|split].
    + destruct (binade_spec Hz) as [_ Hb].
      assert (Hq : (binade x + 1 <= quantum x + 53)%Z) by (unfold quantum; lia).
      assert (Hy : Qabs y <= inject_Z (2 ^ 53)).
      { subst y. unfold Qdiv. rewrite Qabs_Qmult.
        rewrite (Qabs_pos (/ u)) by (apply Qlt_le_weak, Qinv_lt_0_compat, Hu).
        apply Qle_shift_div_r; [exact Hu|].
        rewrite <- two_power_inject by lia. subst u. rewrite <- two_power_plus.
        apply Qlt_le_weak. eapply Qlt_le_trans; [exact Hb|].
        apply two_power_le. lia. }
      apply Qabs_Qle_condition in Hy. rewrite <- inject_Z_opp in Hy.
      apply round_half_even_bounds in Hy. lia.
    + assert (E : inject_Z (round_half_even y) * u - x
                  == inject_Z (round_half_even y) * u - y * u)
        by (rewrite <- Hx; reflexivity).
      rewrite E. apply Qabs_le_half; assumption.
    + intros H. apply round_half_even_tie.
      assert (E : inject_Z (round_half_even y) * u - x
                  == (inject_Z (round_half_even y) - y) * u).
      { transitivity (inject_Z (round_half_even y) * u - y * u);
          [rewrite <- Hx; reflexivity | ring]. }
      rewrite E, Qabs_Qmult, (Qabs_pos u) in H by (apply Qlt_le_weak, Hu).
      rewrite (Qmult_comm u (1 # 2)) in H.
      apply Qmult_inj_r in H; [exact H|].
      intros E0. rewrite E0 in Hu. apply (Qlt_irrefl 0), Hu.
Qed.

Lemma binade_unique (x : Q) (e : Z) :
  ~ x == 0 -> two_power e <= Qabs x -> Qabs x < two_power (e + 1) -> binade x = e.
Proof.
  intros Hx Hlo Hhi. destruct (@binade_spec x Hx) as [Blo Bhi].
  assert (H1 : (e < binade x + 1)%Z).
  { apply Qpower_lt_compat_l_inv with (q := 2); [|reflexivity].
    eapply Qle_lt_trans; [exact Hlo | exact Bhi]. }
  assert (H2 : (binade x < e + 1)%Z).
  { apply Qpower_lt_compat_l_inv with (q := 2); [|reflexivity].
    eapply Qle_lt_trans; [exact Blo | exact Hhi]. }
  lia.
Qed.

(** [fl] does not depend on how the rational is written. *)
Lemma fl_comp (x y : Q) : x == y -> fl x = fl y.
Proof.
  intros E. destruct (Qeq_dec x 0) as [Hz|Hz].
  - rewrite (fl_zero Hz). symmetry. apply fl_zero. now rewrite <- E.
  - assert (Hy : ~ y == 0) by (now rewrite <- E).
    assert (Hb : binade x = binade y).
    { destruct (@binade_spec y Hy) as [Blo Bhi].
      apply binade_unique; [assumption| |]; now rewrite E. }
    unfold fl, quantum. rewrite Hb.
    destruct (Qeq_bool x 0) eqn:Ex; [apply Qeq_bool_iff in Ex; contradiction|].
    destruct (Qeq_bool y 0) eqn:Ey; [apply Qeq_bool_iff in Ey; contradiction|].
    apply Qred_complete.
    rewrite (@round_half_even_comp (x / two_power (Z.max (binade y - 52) (-1074)))
               (y / two_power (Z.max (binade y - 52) (-1074))));
      [reflexivity | now rewrite E].
Qed.

Lemma binade_lt (x : Q) (k : Z) :
  ~ x == 0 -> Qabs x < two_power k -> (binade x < k)%Z.
Proof.
  intros Hx Hk. destruct (@binade_spec x Hx) as [Hlo _].
  apply Qpower_lt_compat_l_inv with (q := 2); [|reflexivity].
  eapply Qle_lt_trans; [exact Hlo | exact Hk].
Qed.

Lemma quantum_below_32 (x : Q) : ~ x == 0 -> Qabs x < 32 -> (quantum x <= -48)%Z.
Proof.
  intros Hx H32. assert (Hb : (binade x < 5)%Z) by (now apply binade_lt).
  unfold quantum. lia.
Qed.

(** Below 32 a double is at most [2^-49] away. *)
Lemma fl_error_below_32 (x : Q) : Qabs x < 32 -> Qabs (fl x - x) <= two_power (-49).
Proof.
  intros H32. destruct (Qeq_dec x 0) as [Hz|Hz].
  - rewrite (fl_zero Hz), Hz. discriminate.
  - destruct (fl_nearest x) as [m [_ [_ [Herr _]]]].
    eapply Qle_trans; [exact Herr|].
    pose proof (two_power_le (quantum_below_32 Hz H32)) as Hq.
    assert (E : two_power (-49) == two_power (-48) * (1 # 2)) by reflexivity.
    rewrite E. apply Qmult_le_compat_r; [exact Hq | discriminate].
Qed.

(** Rounding to a double does not cross an integer. *)
Lemma fl_between_integers (a b : Z) (x : Q) :
  Qabs x < 32 -> inject_Z a <= x <= inject_Z b -> inject_Z a <= fl x <= inject_Z b.
Proof.
  intros H32 [Ha Hb]. destruct (Qeq_dec x 0) as [Hz|Hz].
  - rewrite (fl_zero Hz). rewrite Hz in Ha, Hb. split; assumption.
  - pose proof (quantum_below_32 Hz H32) as Hq.
    pose proof (two_power_pos (quantum x)) as Hu.
    unfold fl. destruct (Qeq_bool x 0) eqn:Hz';
      [apply Qeq_bool_iff in Hz'; contradiction|].
    rewrite Qred_correct.
    set (u := two_power (quantum x)) in *.
    assert (Hs : two_power (- quantum x) * u == 1).
    { subst u. rewrite <- two_power_plus. replace (- quantum x + quantum x)%Z with 0%Z by lia.
      reflexivity. }
    assert (Hi : two_power (- quantum x) == inject_Z (2 ^ (- quantum x)))
      by (apply two_power_inject; lia).
    pose proof (two_power_pos (- quantum x)) as Hp.
    assert (Hy : x / u == x * two_power (- quantum x)).
    { unfold Qdiv. apply Qmult_comp; [reflexivity|].
      rewrite <- (Qmult_1_l (/ u)), <- Hs, <- Qmult_assoc, Qmult_inv_r, Qmult_1_r;
        [reflexivity|].
      intros E0. rewrite E0 in Hu. apply (Qlt_irrefl 0), Hu. }
    destruct (@round_half_even_bounds (a * 2 ^ (- quantum x)) (b * 2 ^ (- quantum x))
                (x / u)) as [Hlo Hhi].
    { rewrite !inject_Z_mult, <- Hi, Hy. split.
      - apply Qmult_le_compat_r; [exact Ha | apply Qlt_le_weak, Hp].
      - apply Qmult_le_compat_r; [exact Hb | apply Qlt_le_weak, Hp]. }
    rewrite Zle_Qle in Hlo, Hhi. rewrite inject_Z_mult, <- Hi in Hlo, Hhi.
    split.
    + assert (E : inject_Z a == inject_Z a * two_power (- quantum x) * u)
        by (rewrite <- Qmult_assoc, Hs; ring).
      rewrite E. apply Qmult_le_compat_r; [exact Hlo | apply Qlt_le_weak, Hu].
    + assert (E : inject_Z b == inject_Z b * two_power (- quantum x) * u)
        by (rewrite <- Qmult_assoc, Hs; ring).
      rewrite E. apply Qmult_le_compat_r; [exact Hhi | apply Qlt_le_weak, Hu].
Qed.

Lemma fl_in_scale (x : Q) : 0 <= x <= 20 -> 0 <= fl x <= 20.
Proof.
  intros [H0 H20]. apply (@fl_between_integers 0 20 x); [|split; assumption].
  rewrite Qabs_pos by assumption. lra.
Qed.

(** The reported average of values between 0 and 20 is within the two
    roundings to a double and the rounding to hundredths of their mean. *)
Lemma float_row_average_close (vs : list Q) :
  vs <> [] -> (forall v, In v vs -> 0 <= v <= 20) ->
  let average := fl (round (fl (arithmetic_mean vs)) 2) in
  0 <= average <= 20
  /\ Qabs (average - arithmetic_mean vs) <= (1 # 200) + two_power (-48).
Proof.
  intros Hne Hall. cbn zeta.
  pose proof (arithmetic_mean_bounds Hne Hall) as Hm.
  set (m := arithmetic_mean vs) in *.
  pose proof (fl_in_scale Hm) as Ha.
  assert (Hma : Qabs (fl m - m) <= two_power (-49)).
  { apply fl_error_below_32. rewrite Qabs_pos by tauto. lra. }
  pose proof (round_2_bounds Ha) as Hr.
  destruct (round_2_nearest (fl m)) as [_ [_ [Har _]]].
  assert (Hrb : Qabs (fl (round (fl m) 2) - round (fl m) 2) <= two_power (-49)).
  { apply fl_error_below_32. rewrite Qabs_pos by tauto. lra. }
  split; [now apply fl_in_scale|].
  assert (E : fl (round (fl m) 2) - m
              == (fl (round (fl m) 2) - round (fl m) 2)
                 + ((round (fl m) 2 - fl m) + (fl m - m))) by ring.
  rewrite E.
  eapply Qle_trans; [apply Qabs_triangle|].
  eapply Qle_trans; [apply Qplus_le_compat; [exact Hrb | apply Qabs_triangle]|].
  eapply Qle_trans;
    [apply Qplus_le_compat; [apply Qle_refl | apply Qplus_le_compat; [exact Har | exact Hma]]|].
  assert (E2 : two_power (-48) == two_power (-49) + two_power (-49)) by reflexivity.
  rewrite E2. lra.
Qed.

(* ================================================================== *)
(** ** Facts about the expected report *)

Lemma coefficient_of_positive (subjects : list Subject.t) (k : string) :
  coefficients_positive subjects -> resolves subjects k = true ->
  0 < coefficient_of subjects k.
Proof.
  unfold coefficients_positive, resolves, coefficient_of, find_one.
  intros Hpos. destruct (List.find (by_id k) subjects) as [s|] eqn:E; [|discriminate].
  intros _. apply Hpos. apply find_some in E. tauto.
Qed.

Lemma In_values_of (k : string) (gs : list Grade.t) (v : Q) :
  In v (values_of k gs) -> exists g, In g gs /\ Grade.value g = v.
Proof.
  unfold values_of. rewrite in_map_iff. intros [g [Hv Hg]].
  apply filter_In in Hg. exists g. tauto.
Qed.

Lemma In_fetched (db : Db) (student_id : string) (g : Grade.t) :
  In g (fetched db student_id) <-> In g (grades db) /\ Grade.student_id g = student_id.
Proof.
  unfold fetched, find, of_student. rewrite filter_In, String.eqb_eq. tauto.
Qed.



Lemma general_average_of_positive (w t : Q) :
  0 < t -> general_average_of w t = round (w / t) 2.
Proof.
  intros H. unfold general_average_of.
  now rewrite (proj2 (Qlt_bool_iff 0 t) H).
Qed.

Lemma general_average_of_nonpositive (w t : Q) :
  t <= 0 -> general_average_of w t = 0.
Proof.
  intros H. unfold general_average_of, Qlt_bool.
  now rewrite (proj2 (Qle_bool_iff t 0) H).
Qed.

Lemma coefficient_total_positive (subjects : list Subject.t) (gs : list Grade.t) :
  coefficients_positive subjects -> graded_subjects subjects gs <> [] ->
  0 < coefficient_total subjects gs.
Proof.
  intros Hpos Hne. unfold coefficient_total. apply fold_Qplus_pos.
  - intros x Hx. apply in_map_iff in Hx as [k [<- Hk]].
    apply coefficient_of_positive; [assumption|].
    now apply graded_subjects_resolve with gs.
  - intros Hnil. apply map_eq_nil in Hnil. contradiction.
Qed.

(** ** Dangling grades *)



Lemma values_of_live (subjects : list Subject.t) (gs : list Grade.t) (k : string) :
  resolves subjects k = true ->
  values_of k (live_grades subjects gs) = values_of k gs.
Proof.
  intros Hr. unfold values_of, live_grades. f_equal.
  induction gs as [|g gs IH]; simpl; [reflexivity|].
  destruct (String.eqb (Grade.subject_id g) k) eqn:E.
  - apply String.eqb_eq in E. rewrite E, Hr. simpl.
    rewrite E, String.eqb_refl. now f_equal.
  - destruct (resolves subjects (Grade.subject_id g)); simpl; [now rewrite E|assumption].
Qed.





Lemma graded_subjects_none (subjects : list Subject.t) (gs : list Grade.t) :
  live_grades subjects gs = [] -> graded_subjects subjects gs = [].
Proof. unfold graded_subjects. now intros ->. Qed.

(** ** Order of the breakdown *)







Lemma live_grades_nil (subjects : list Subject.t) (gs : list Grade.t) :
  (forall g, In g gs -> resolves subjects (Grade.subject_id g) = false) ->
  live_grades subjects gs = [].
Proof.
  unfold live_grades. induction gs as [|g gs IH]; intros H; simpl; [reflexivity|].
  rewrite (H g (or_introl eq_refl)). apply IH. intros g' Hg'. apply H. now right.
Qed.

(* ================================================================== *)
(** ** Writes to the collections *)

Section CollectionFacts.
Variable A : Type.
Implicit Types (q : A -> bool) (c : list A).

Lemma delete_one_absent q c :
  (forall d, In d c -> q d = false) -> delete_one q c = (c, O).
Proof.
  induction c as [|d c IH]; intros H; simpl; [reflexivity|].
  rewrite (H d (or_introl eq_refl)).
  rewrite IH by (intros d' Hd'; apply H; now right). reflexivity.
Qed.

Lemma delete_one_present q c :
  (exists d, In d c /\ q d = true) -> snd (delete_one q c) = 1%nat.
Proof.
  induction c as [|d c IH]; intros [x [Hx Hq]]; [destruct Hx|]. simpl.
  destruct (q d) eqn:E; [reflexivity|].
  destruct Hx as [->|Hx]; [congruence|].
  specialize (IH (ex_intro _ x (conj Hx Hq))).
  destruct (delete_one q c) as [r n]. exact IH.
Qed.

Lemma delete_one_incl q c d : In d (fst (delete_one q c)) -> In d c.
Proof.
  induction c as [|x c IH]; simpl; [tauto|].
  destruct (q x); [now right|].
  destruct (delete_one q c) as [r n]. simpl in *. intros [H|H]; auto.
Qed.

Lemma In_delete_many q c d : In d (delete_many q c) <-> In d c /\ q d = false.
Proof. unfold delete_many. rewrite filter_In, negb_true_iff. tauto. Qed.

Lemma update_one_Forall (P : A -> Prop) q (f : A -> A) c :
  (forall d, P d -> q d = true -> P (f d)) -> Forall P c -> Forall P (update_one q f c).
Proof.
  intros Hf. induction 1 as [|d c Hd Hc IH]; simpl; [constructor|].
  destruct (q d) eqn:E; constructor; auto.
Qed.

Lemma find_one_update_one q (f : A -> A) c d :
  (forall x, q x = true -> q (f x) = true) ->
  find_one q c = Some d -> find_one q (update_one q f c) = Some (f d).
Proof.
  intros Hq. unfold find_one. induction c as [|x c IH]; simpl; [discriminate|].
  destruct (q x) eqn:E.
  - intros [= <-]. simpl. now rewrite (Hq x E).
  - intros H. simpl. rewrite E. now apply IH.
Qed.
End CollectionFacts.

(* ================================================================== *)
(** ** Validation and the store invariants *)

Lemma require_role_In (roles : list RoleEnum) (caller : User.t) :
  In (User.role caller) roles -> require_role roles caller = inr caller.
Proof.
  intros H. unfold require_role.
  replace (existsb _ _) with true; [reflexivity|].
  symmetry. apply existsb_exists. exists (role_value (User.role caller)).
  split; [now apply in_map | apply String.eqb_refl].
Qed.

Lemma GradeCreate_validate_cases (body : GradeCreate.t) :
  (0 <= GradeCreate.value body <= 20 /\ GradeCreate.validate body = inr body)
  \/ (~ 0 <= GradeCreate.value body <= 20
      /\ GradeCreate.validate body = inl RequestValidationError).
Proof.
  unfold GradeCreate.validate.
  destruct (in_closed_range 0 20 (GradeCreate.value body)) eqn:E.
  - left. split; [now apply in_closed_range_iff | reflexivity].
  - right. split; [|reflexivity]. intros H. apply in_closed_range_iff in H. congruence.
Qed.

Lemma GradeUpdate_validate_cases (body : GradeUpdate.t) :
  ((forall v, GradeUpdate.value body = Some v -> 0 <= v <= 20)
   /\ GradeUpdate.validate body = inr body)
  \/ ((exists v, GradeUpdate.value body = Some v /\ ~ 0 <= v <= 20)
      /\ GradeUpdate.validate body = inl RequestValidationError).
Proof.
  unfold GradeUpdate.validate. destruct (GradeUpdate.value body) as [v|].
  - destruct (in_closed_range 0 20 v) eqn:E.
    + left. split; [|reflexivity]. intros v' [= <-]. now apply in_closed_range_iff.
    + right. split; [|reflexivity]. exists v. split; [reflexivity|].
      intros H. apply in_closed_range_iff in H. congruence.
  - left. split; [discriminate | reflexivity].
Qed.

Lemma SubjectCreate_validate_cases (body : SubjectCreate.t) :
  (0 < SubjectCreate.coefficient body /\ SubjectCreate.validate body = inr body)
  \/ SubjectCreate.validate body = inl RequestValidationError.
Proof.
  unfold SubjectCreate.validate.
  destruct (length_between 1 20 _ && length_between 1 200 _
            && in_closed_range (1 # 10) 10 _) eqn:E; [left | now right].
  split; [|reflexivity].
  apply andb_true_iff in E as [_ E]. apply in_closed_range_iff in E as [E _].
  apply Qlt_le_trans with (1 # 10); [reflexivity | assumption].
Qed.

(** What [create_grade] leaves in the store. *)
Lemma create_grade_stores (db : Db) (grade_request : GradeCreate.t)
    (current_user : User.t) (grade_id : string) (now later : Z) :
  match fst (create_grade db grade_request current_user grade_id now later) with
  | inr response =>
      GradeResponse.value response = GradeCreate.value grade_request
      /\ exists g,
           snd (create_grade db grade_request current_user grade_id now later)
           = with_grades db (grades db ++ [g])
           /\ Grade._id g = grade_id
           /\ Grade.value g = GradeCreate.value grade_request
  | inl _ => snd (create_grade db grade_request current_user grade_id now later) = db
  end.
Proof.
  unfold create_grade.
  destruct (find_one (student_by_id _) (users db)) as [student|]; [|reflexivity].
  destruct (find_one (by_id _) (subjects db)) as [subject|]; [|reflexivity].
  simpl. split; [reflexivity|]. eexists. split; [reflexivity|]. split; reflexivity.
Qed.

Lemma grade_by_id_set_update (grade_id : string) (grade_update : GradeUpdate.t)
    (now : Z) (modified_by : string) (g : Grade.t) :
  grade_by_id grade_id g = true ->
  grade_by_id grade_id (set_update grade_update now modified_by g) = true.
Proof. intros H. exact H. Qed.

(** What [update_grade] leaves in the store: it either fails with not-found
    and changes nothing, or rewrites the first grade with that identifier. *)
Lemma update_grade_stores (db : Db) (grade_id : string) (grade_update : GradeUpdate.t)
    (current_user : User.t) (now : Z) :
  match fst (update_grade db grade_id grade_update current_user now) with
  | inr response =>
      snd (update_grade db grade_id grade_update current_user now)
      = with_grades db
          (update_one (grade_by_id grade_id)
             (set_update grade_update now (User._id current_user)) (grades db))
      /\ exists g,
           find_one (grade_by_id grade_id)
             (grades (snd (update_grade db grade_id grade_update current_user now)))
           = Some g
           /\ GradeResponse.value response = Grade.value g
           /\ forall v, GradeUpdate.value grade_update = Some v -> Grade.value g = v
  | inl e =>
      e = HTTPException HTTP_404_NOT_FOUND "Note non trouvée"
      /\ snd (update_grade db grade_id grade_update current_user now) = db
  end.
Proof.
  unfold update_grade.
  destruct (find_one (grade_by_id grade_id) (grades db)) as [grade|] eqn:E;
    [|now split].
  cbn [grades with_grades].
  rewrite (@find_one_update_one _ (grade_by_id grade_id)
             (set_update grade_update now (User._id current_user)) (grades db) grade
             (grade_by_id_set_update grade_id grade_update now (User._id current_user)) E).
  cbn [fst snd]. split; [reflexivity|].
  exists (set_update grade_update now (User._id current_user) grade).
  cbn [grades with_grades].
  split.
  - apply find_one_update_one; [apply grade_by_id_set_update | exact E].
  - split; [reflexivity|]. intros v Hv. simpl. now rewrite Hv.
Qed.

Section GuardedFacts.
Variables (B A : Type).
Variable roles : list RoleEnum.
Variable validate : B -> result B.
Variable handler : B -> User.t -> result A * Db.

(** A route that refuses the caller or the body leaves the store alone. *)
Lemma guarded_refused (db : Db) (body : B) (caller : User.t) (e : exn) :
  validate body = inl e ->
  snd (guarded roles validate handler db body caller) = db
  /\ (exists e', fst (guarded roles validate handler db body caller) = inl e')
  /\ (In (User.role caller) roles ->
      fst (guarded roles validate handler db body caller) = inl e).
Proof.
  intros Hv. unfold guarded. split; [|split].
  - destruct (require_role roles caller); [reflexivity|]. now rewrite Hv.
  - destruct (require_role roles caller) as [e'|u]; [now exists e'|].
    rewrite Hv. now exists e.
  - intros Hin. rewrite (require_role_In _ _ Hin). now rewrite Hv.
Qed.

Lemma guarded_cases (db : Db) (body : B) (caller : User.t) :
  (snd (guarded roles validate handler db body caller) = db
   /\ exists e, fst (guarded roles validate handler db body caller) = inl e)
  \/ (exists request,
        validate body = inr request
        /\ In (User.role caller) roles
        /\ guarded roles validate handler db body caller = handler request caller).
Proof.
  unfold guarded. unfold require_role.
  destruct (existsb _ _) eqn:Er.
  - simpl. destruct (validate body) as [e|request].
    + left. split; [reflexivity | now exists e].
    + right. exists request. split; [reflexivity|]. split; [|reflexivity].
      apply existsb_exists in Er as [x [Hx He]]. apply String.eqb_eq in He. subst x.
      apply in_map_iff in Hx as [r [Hv Hr]].
      replace (User.role caller) with r; [assumption|].
      destruct r, (User.role caller); simpl in Hv; congruence.
  - left. split; [reflexivity | now eexists].
Qed.
End GuardedFacts.

Lemma create_subject_stores (db : Db) (subject_request : SubjectCreate.t)
    (current_user : User.t) (subject_id : string) (now later : Z) :
  grades (snd (create_subject db subject_request current_user subject_id now later)) = grades db
  /\ (subjects (snd (create_subject db subject_request current_user subject_id now later))
      = subjects db
      \/ exists s,
           subjects (snd (create_subject db subject_request current_user subject_id now later))
           = subjects db ++ [s]
           /\ Subject.coefficient s = SubjectCreate.coefficient subject_request).
Proof.
  unfold create_subject.
  destruct (find_one (by_code _) (subjects db)); simpl; split; auto.
  right. eexists. split; reflexivity.
Qed.

Lemma delete_grade_stores (db : Db) (grade_id : string) (current_user : User.t) :
  subjects (snd (delete_grade db grade_id current_user)) = subjects db
  /\ forall g, In g (grades (snd (delete_grade db grade_id current_user))) ->
               In g (grades db).
Proof.
  unfold delete_grade.
  pose proof (@delete_one_incl _ (grade_by_id grade_id) (grades db)) as Hincl.
  destruct (delete_one (grade_by_id grade_id) (grades db)) as [gs n].
  destruct (Nat.eqb n 0); simpl; split; auto.
Qed.

Lemma delete_user_stores (db : Db) (user_id : string) (current_user : User.t) :
  subjects (snd (delete_user db user_id current_user)) = subjects db
  /\ forall g, In g (grades (snd (delete_user db user_id current_user))) ->
               In g (grades db).
Proof.
  unfold delete_user.
  destruct (delete_one (user_by_id user_id) (users db)) as [us n].
  destruct (Nat.eqb n 0); simpl; split; auto.
  intros g Hg. apply In_delete_many in Hg. tauto.
Qed.

(** Every request keeps the stored grade values within the scale. *)
Lemma serve_grades_in_range (db : Db) (cr : User.t * request) :
  grades_in_range db -> grades_in_range (serve db cr).
Proof.
  unfold grades_in_range. intros Hinv. destruct cr as [caller r].
  destruct r as [body subject_id now later | body grade_id now later | grade_id body now
                 | grade_id | user_id]; simpl.
  - unfold route_create_subject.
    destruct (guarded_cases [ADMIN] SubjectCreate.validate
                (fun r u => create_subject db r u subject_id now later) db body caller)
      as [[-> _] | [request [_ [_ ->]]]]; [assumption|].
    now rewrite (proj1 (create_subject_stores db request caller subject_id now later)).
  - unfold route_create_grade.
    destruct (guarded_cases [TEACHER; ADMIN] GradeCreate.validate
                (fun r u => create_grade db r u grade_id now later) db body caller)
      as [[-> _] | [request [Hv [_ ->]]]]; [assumption|].
    destruct (GradeCreate_validate_cases body) as [[Hr Hv'] | [_ Hv']];
      rewrite Hv' in Hv; [|discriminate].
    injection Hv as <-.
    pose proof (create_grade_stores db body caller grade_id now later) as Hs.
    destruct (fst (create_grade db body caller grade_id now later)).
    + now rewrite Hs.
    + destruct Hs as [_ [g [-> [_ Hg]]]]. simpl.
      apply Forall_app. split; [assumption|].
      constructor; [|constructor]. unfold grade_in_range. now rewrite Hg.
  - unfold route_update_grade.
    destruct (guarded_cases [TEACHER; ADMIN] GradeUpdate.validate
                (fun r u => update_grade db grade_id r u now) db body caller)
      as [[-> _] | [request [Hv [_ ->]]]]; [assumption|].
    destruct (GradeUpdate_validate_cases body) as [[Hr Hv'] | [_ Hv']];
      rewrite Hv' in Hv; [|discriminate].
    injection Hv as <-.
    pose proof (update_grade_stores db grade_id body caller now) as Hs.
    destruct (fst (update_grade db grade_id body caller now)).
    + destruct Hs as [_ ->]. assumption.
    + destruct Hs as [-> _]. simpl.
      apply update_one_Forall; [|assumption].
      intros g Hg _. unfold grade_in_range, set_update. simpl.
      destruct (GradeUpdate.value body) as [v|]; [now apply Hr | exact Hg].
  - unfold route_delete_grade.
    destruct (guarded_cases [TEACHER; ADMIN] (@ret unit)
                (fun _ u => delete_grade db grade_id u) db tt caller)
      as [[-> _] | [request [_ [_ ->]]]]; [assumption|].
    rewrite Forall_forall in *. intros g Hg. apply Hinv.
    now apply (proj2 (delete_grade_stores db grade_id caller)).
  - unfold route_delete_user.
    destruct (guarded_cases [ADMIN] (@ret unit)
                (fun _ u => delete_user db user_id u) db tt caller)
      as [[-> _] | [request [_ [_ ->]]]]; [assumption|].
    rewrite Forall_forall in *. intros g Hg. apply Hinv.
    now apply (proj2 (delete_user_stores db user_id caller)).
Qed.

Lemma serve_all_grades_in_range (db : Db) (trace : list (User.t * request)) :
  grades_in_range db -> grades_in_range (serve_all db trace).
Proof.
  unfold serve_all. revert db. induction trace as [|cr trace IH]; intros db H.
  - exact H.
  - simpl. apply IH. now apply serve_grades_in_range.
Qed.

(** Every request keeps the subject coefficients positive. *)
Lemma serve_coefficients_positive (db : Db) (cr : User.t * request) :
  coefficients_positive (subjects db) -> coefficients_positive (subjects (serve db cr)).
Proof.
  intros Hinv. destruct cr as [caller r].
  destruct r as [body subject_id now later | body grade_id now later | grade_id body now
                 | grade_id | user_id]; simpl.
  - unfold route_create_subject.
    destruct (guarded_cases [ADMIN] SubjectCreate.validate
                (fun r u => create_subject db r u subject_id now later) db body caller)
      as [[-> _] | [request [Hv [_ ->]]]]; [assumption|].
    destruct (SubjectCreate_validate_cases body) as [[Hc Hv'] | Hv'];
      rewrite Hv' in Hv; [|discriminate].
    injection Hv as <-.
    destruct (proj2 (create_subject_stores db body caller subject_id now later))
      as [-> | [s [-> Hs]]]; [assumption|].
    intros s' Hs'. apply in_app_iff in Hs' as [Hs'|[<-|[]]]; [now apply Hinv|].
    now rewrite Hs.
  - unfold route_create_grade.
    destruct (guarded_cases [TEACHER; ADMIN] GradeCreate.validate
                (fun r u => create_grade db r u grade_id now later) db body caller)
      as [[-> _] | [request [_ [_ ->]]]]; [assumption|].
    pose proof (create_grade_stores db request caller grade_id now later) as Hs.
    destruct (fst (create_grade db request caller grade_id now later)).
    + now rewrite Hs.
    + destruct Hs as [_ [g [-> _]]]. exact Hinv.
  - unfold route_update_grade.
    destruct (guarded_cases [TEACHER; ADMIN] GradeUpdate.validate
                (fun r u => update_grade db grade_id r u now) db body caller)
      as [[-> _] | [request [_ [_ ->]]]]; [assumption|].
    pose proof (update_grade_stores db grade_id request caller now) as Hs.
    destruct (fst (update_grade db grade_id request caller now)).
    + destruct Hs as [_ ->]. assumption.
    + destruct Hs as [-> _]. exact Hinv.
  - unfold route_delete_grade.
    destruct (guarded_cases [TEACHER; ADMIN] (@ret unit)
                (fun _ u => delete_grade db grade_id u) db tt caller)
      as [[-> _] | [request [_ [_ ->]]]]; [assumption|].
    now rewrite (proj1 (delete_grade_stores db grade_id caller)).
  - unfold route_delete_user.
    destruct (guarded_cases [ADMIN] (@ret unit)
                (fun _ u => delete_user db user_id u) db tt caller)
      as [[-> _] | [request [_ [_ ->]]]]; [assumption|].
    now rewrite (proj1 (delete_user_stores db user_id caller)).
Qed.

Lemma serve_all_coefficients_positive (db : Db) (trace : list (User.t * request)) :
  coefficients_positive (subjects db) ->
  coefficients_positive (subjects (serve_all db trace)).
Proof.
  unfold serve_all. revert db. induction trace as [|cr trace IH]; intros db H.
  - exact H.
  - simpl. apply IH. now apply serve_coefficients_positive.
Qed.

(* ================================================================== *)
(** ** The handler in double precision *)

Lemma Binary64_compute_general_average_total (w t : Q) :
  Binary64.compute_general_average w t = inr (float_general_average w t).
Proof.
  unfold Binary64.compute_general_average, float_general_average,
    Binary64.truediv, Binary64.round, Qlt_bool.
  destruct (Qle_bool t 0) eqn:Hle; simpl; [reflexivity|].
  destruct (Qeq_bool t 0) eqn:Heq; simpl; [|reflexivity].
  apply Qeq_bool_iff in Heq.
  assert (Hle' : Qle_bool t 0 = true).
  { apply Qle_bool_iff. rewrite Heq. apply Qle_refl. }
  congruence.
Qed.

Section FloatAveraging.
Variable subjects : list Subject.t.
Variable gs : list Grade.t.

Lemma Binary64_average_subject_group (acc : Totals) (k : string) :
  values_of k gs <> [] ->
  Binary64.average_subject acc (k, group_of subjects gs k)
  = inr (mkTotals
           (t_subject_averages acc ++ [float_row subjects gs k])
           (fl (t_weighted_sum acc
                + fl (float_mean (values_of k gs) * coefficient_of subjects k)))
           (fl (t_total_coefficient acc + coefficient_of subjects k))).
Proof.
  intros Hne. unfold Binary64.average_subject, group_of, float_row, float_mean,
    arithmetic_mean, Binary64.mean, Binary64.round, Binary64.add, Binary64.mul. simpl.
  destruct (values_of k gs) as [|v vs] eqn:E; [congruence|]. reflexivity.
Qed.

Lemma Binary64_foldM_average_subject (keys : list string) (acc : Totals) :
  (forall k, In k keys -> values_of k gs <> []) ->
  foldM Binary64.average_subject (table (group_of subjects gs) keys) acc
  = inr (mkTotals
           (t_subject_averages acc ++ map (float_row subjects gs) keys)
           (fold_left
              (fun w k =>
                 fl (w + fl (float_mean (values_of k gs) * coefficient_of subjects k)))
              keys (t_weighted_sum acc))
           (fold_left (fun t k => fl (t + coefficient_of subjects k)) keys
              (t_total_coefficient acc))).
Proof.
  unfold table. revert acc.
  induction keys as [|k keys IH]; intros acc Hne; cbn [map foldM fold_left].
  - rewrite app_nil_r. now destruct acc.
  - rewrite Binary64_average_subject_group by (apply Hne; now left). cbn [bind].
    rewrite IH by (intros k' Hk'; apply Hne; now right). cbn.
    now rewrite <- app_assoc.
Qed.

Lemma Binary64_average_subjects_grouped :
  Binary64.average_subjects (group_grades subjects gs)
  = inr (mkTotals (map (float_row subjects gs) (graded_subjects subjects gs))
           (float_weighted_total subjects gs) (float_coefficient_total subjects gs)).
Proof.
  rewrite group_grades_grouped, grouped_table. unfold Binary64.average_subjects.
  rewrite Binary64_foldM_average_subject by (intros k; apply values_of_nonempty).
  reflexivity.
Qed.
End FloatAveraging.

Lemma Binary64_calculate_student_average_allowed
    db student_id semester current_user now :
  access_denied current_user student_id = false ->
  Binary64.calculate_student_average db student_id semester current_user now
  = inr (float_expected_report db student_id semester now).
Proof.
  intros Hacc. unfold Binary64.calculate_student_average, float_expected_report, fetched.
  rewrite Hacc.
  destruct (find (of_student student_id) (grades db)) as [|g gs] eqn:E; [reflexivity|].
  rewrite Binary64_average_subjects_grouped. simpl.
  rewrite Binary64_compute_general_average_total. reflexivity.
Qed.

Lemma Binary64_calculate_student_average_denied
    db student_id semester current_user now :
  access_denied current_user student_id = true ->
  Binary64.calculate_student_average db student_id semester current_user now
  = inl (HTTPException HTTP_403_FORBIDDEN "Accès non autorisé").
Proof.
  intros Hacc. unfold Binary64.calculate_student_average. now rewrite Hacc.
Qed.

Lemma float_expected_report_nonempty (db : Db) (student_id : string)
    (semester : option string) (now : Z) :
  fetched db student_id <> [] ->
  float_expected_report db student_id semester now
  = mkReport student_id
      (float_general_average (float_weighted_total (subjects db) (fetched db student_id))
         (float_coefficient_total (subjects db) (fetched db student_id)))
      (map (float_row (subjects db) (fetched db student_id))
         (graded_subjects (subjects db) (fetched db student_id)))
      (float_coefficient_total (subjects db) (fetched db student_id))
      semester (Some now).
Proof.
  intros Hne. unfold float_expected_report.
  destruct (fetched db student_id); [congruence | reflexivity].
Qed.

(* ================================================================== *)
(** * The claims *)

(** C1, as the code has it.  For a student with at least one grade whose
    subject still exists, the handler returns one row per such subject.
    The average of a row is [round(statistics.mean(values), 2)] on doubles:
    the mean of the subject's grade values is first rounded to the nearest
    double, that double is rounded to two decimals, and the result is again
    the nearest double.  The total coefficient is the running sum of the
    coefficients, and the weighted sum the running sum of the products
    (unrounded subject mean x coefficient), each product and each sum rounded
    to the nearest double.  When the total coefficient is positive the
    general average is [round(weighted_sum / total_coefficient, 2)], rounded
    in the same way; otherwise it is 0.

    The second part says what rounding to two decimals is: a whole number of
    hundredths, at most 0.005 away, the even one when two are equally near.
    The third and fourth say what the nearest double is: 0 for 0, and for
    [x] between [2^e] and [2^(e+1)] in absolute value a multiple [m * ulp]
    of [ulp = 2^max(e - 52, -1074)] with at most 53 bits in [m], at most half
    an [ulp] away, with [m] even when two are equally near.

    Last, for subject A (coefficient 2) with grades 10 and 14 and subject B
    (coefficient 1) with grade 16, the averages are 12, 16 and the double
    nearest to 13.33. *)
Theorem calculate_student_average_weighted_mean_of_doubles :
  (forall (db : Db) (student_id : string) (semester : option string)
          (current_user : User.t) (now : Z),
      access_denied current_user student_id = false ->
      (exists g, In g (grades db) /\ Grade.student_id g = student_id
                 /\ resolves (subjects db) (Grade.subject_id g) = true) ->
      let gs := fetched db student_id in
      let keys := graded_subjects (subjects db) gs in
      let coefficient := coefficient_of (subjects db) in
      let subject_avg k := fl (arithmetic_mean (values_of k gs)) in
      let weighted_sum :=
        fold_left (fun w k => fl (w + fl (subject_avg k * coefficient k))) keys 0 in
      let total := fold_left (fun t k => fl (t + coefficient k)) keys 0 in
      exists report,
        Binary64.calculate_student_average db student_id semester current_user now
        = inr report
        /\ keys <> []
        /\ subject_averages report
           = map (fun k =>
                    SubjectAverage.mk k (name_of (subjects db) k)
                      (fl (round (subject_avg k) 2)) (coefficient k)
                      (List.length (values_of k gs))) keys
        /\ total_coefficient report = total
        /\ (0 < total ->
            general_average report = fl (round (fl (weighted_sum / total)) 2))
        /\ (total <= 0 -> general_average report = 0))
  /\ (forall x : Q,
        exists n : Z,
          round x 2 == n # 100
          /\ Qabs (round x 2 - x) <= 1 # 200
          /\ (Qabs (round x 2 - x) == 1 # 200 -> Z.even n = true))
  /\ (forall x : Q, x == 0 -> fl x = 0)
  /\ (forall x : Q,
        ~ x == 0 ->
        exists e m : Z,
          two_power e <= Qabs x < two_power (e + 1)
          /\ let ulp := two_power (Z.max (e - 52) (-1074)) in
             fl x == inject_Z m * ulp
             /\ (Z.abs m <= 2 ^ 53)%Z
             /\ Qabs (fl x - x) <= ulp * (1 # 2)
             /\ (Qabs (fl x - x) == ulp * (1 # 2) -> Z.even m = true))
  /\ Binary64.calculate_student_average example_db "s1" None example_student 0
     = inr (mkReport "s1" (fl (1333 # 100))
              [SubjectAverage.mk "A" "Subject A" 12 2 2;
               SubjectAverage.mk "B" "Subject B" 16 1 1]
              3 None (Some 0%Z)).
Proof.
  split; [|split; [exact round_2_nearest|split; [exact fl_zero|split]]].
  - intros db student_id semester current_user now Hacc [g [Hg [Hs Hr]]]
      gs keys coefficient subject_avg weighted_sum total.
    exists (float_expected_report db student_id semester now).
    split; [now apply Binary64_calculate_student_average_allowed|].
    assert (Hin : In g gs) by (apply In_fetched; tauto).
    assert (Hk : In (Grade.subject_id g) keys).
    { apply graded_subjects_In. split; [assumption|]. now exists g. }
    split; [intros Hnil; rewrite Hnil in Hk; destruct Hk|].
    rewrite float_expected_report_nonempty
      by (fold gs; intros Hnil; rewrite Hnil in Hin; destruct Hin).
    cbn [subject_averages general_average total_coefficient].
    split; [reflexivity|]. split; [reflexivity|].
    unfold float_general_average.
    change (float_coefficient_total (subjects db) (fetched db student_id)) with total.
    change (float_weighted_total (subjects db) (fetched db student_id)) with weighted_sum.
    split.
    + intros Hpos. apply Qlt_bool_iff in Hpos. now rewrite Hpos.
    + intros Hle. destruct (Qlt_bool 0 total) eqn:E; [|reflexivity].
      apply Qlt_bool_iff in E. lra.
  - intros x Hx. destruct (fl_nearest x) as [m Hm].
    exists (binade x), m. split; [now apply binade_spec | exact Hm].
  - vm_compute. reflexivity.
Qed.

Lemma calculate_student_average_weighted_mean_of_doubles_witness :
  exists report,
    Binary64.calculate_student_average example_db "s1" (Some "S1") example_teacher 7
    = inr report
    /\ general_average report = fl (1333 # 100).
Proof.
  destruct (proj1 calculate_student_average_weighted_mean_of_doubles example_db "s1"
              (Some "S1") example_teacher 7%Z) as [report [Hrun [_ [_ [_ [Hga _]]]]]].
  - reflexivity.
  - exists (example_grade "g1" "s1" "A" 10). simpl. tauto.
  - exists report. split; [exact Hrun|]. rewrite Hga; vm_compute; reflexivity.
Defined.

(** C1 as stated, with the mean and the weighted mean rounded once to two
    decimals, fails.  One subject of coefficient 1 holds the grades 2.67 and
    2.68 (the doubles nearest to them).  The mean of the two values is just
    above 2.675, so it rounds to 2.68, and so does the weighted mean; the
    handler reports 2.67 for both, because [statistics.mean] returns the
    double nearest to the mean, which lies below 2.675.  The reported values
    differ from 2.68 and from the double nearest to 2.68. *)
Lemma calculate_student_average_exact_mean_fails :
  let gs := fetched float_example_db "s1" in
  let claimed_average := round (arithmetic_mean (values_of "A" gs)) 2 in
  let claimed_general :=
    round (Qsum [arithmetic_mean (values_of "A" gs) * 1] / Qsum [1]) 2 in
  exists report row,
    Binary64.calculate_student_average float_example_db "s1" None example_student 0
    = inr report
    /\ subject_averages report = [row]
    /\ values_of "A" gs = [fl (267 # 100); fl (268 # 100)]
    /\ claimed_average == 268 # 100
    /\ claimed_general == 268 # 100
    /\ SubjectAverage.average row = fl (267 # 100)
    /\ general_average report = fl (267 # 100)
    /\ ~ SubjectAverage.average row == claimed_average
    /\ ~ SubjectAverage.average row == fl claimed_average
    /\ ~ general_average report == claimed_general
    /\ ~ general_average report == fl claimed_general.
Proof.
  cbn zeta. eexists. eexists.
  split; [vm_compute; reflexivity|].
  cbn [subject_averages SubjectAverage.average general_average].
  repeat split; try (vm_compute; reflexivity); vm_compute; discriminate.
Qed.

(** C2. When the grade store holds no grade of the student, the report has
    general average 0, an empty per-subject list and total coefficient 0. *)
Theorem calculate_student_average_no_grades
    (db : Db) (student_id : string) (semester : option string)
    (current_user : User.t) (now : Z) :
  access_denied current_user student_id = false ->
  (forall g, In g (grades db) -> Grade.student_id g <> student_id) ->
  exists report,
    calculate_student_average db student_id semester current_user now = inr report
    /\ general_average report = 0
    /\ subject_averages report = []
    /\ total_coefficient report = 0.
Proof.
  intros Hacc Hnone.
  exists (expected_report db student_id semester now).
  split; [now apply calculate_student_average_allowed|].
  unfold expected_report.
  destruct (fetched db student_id) as [|g gs] eqn:E; [repeat split|].
  exfalso. assert (Hg : In g (fetched db student_id)) by (rewrite E; now left).
  apply In_fetched in Hg as [Hg Hs]. exact (Hnone g Hg Hs).
Qed.

Lemma calculate_student_average_no_grades_witness :
  exists report,
    calculate_student_average example_db "t1" None example_admin 3 = inr report
    /\ general_average report = 0
    /\ subject_averages report = []
    /\ total_coefficient report = 0.
Proof.
  apply calculate_student_average_no_grades.
  - reflexivity.
  - intros g Hg. simpl in Hg.
    destruct Hg as [<-|[<-|[<-|[<-|[]]]]]; discriminate.
Defined.



(** C4. The division of the general average is guarded: the handler never
    raises a division by zero (nor a mean of no data); whenever the sum of
    the contributing coefficients is 0 the general average is 0, and this is
    the case when no grade of the student resolves to an existing subject. *)
Theorem calculate_student_average_no_zero_division
    (db : Db) (student_id : string) (semester : option string)
    (current_user : User.t) (now : Z) :
  calculate_student_average db student_id semester current_user now
    <> inl ZeroDivisionError
  /\ calculate_student_average db student_id semester current_user now
    <> inl StatisticsError
  /\ (forall w t, t <= 0 -> compute_general_average w t = inr 0)
  /\ (access_denied current_user student_id = false ->
      exists report,
        calculate_student_average db student_id semester current_user now = inr report
        /\ (total_coefficient report == 0 -> general_average report = 0)
        /\ ((forall g, In g (grades db) -> Grade.student_id g = student_id ->
                       resolves (subjects db) (Grade.subject_id g) = false) ->
            total_coefficient report = 0 /\ general_average report = 0)).
Proof.
  assert (Hguard : forall w t, t <= 0 -> compute_general_average w t = inr 0).
  { intros w t Ht. rewrite compute_general_average_total.
    now rewrite general_average_of_nonpositive. }
  destruct (access_denied current_user student_id) eqn:Hacc.
  - rewrite calculate_student_average_denied by exact Hacc.
    repeat split; try discriminate; assumption.
  - rewrite calculate_student_average_allowed by exact Hacc.
    split; [discriminate|]. split; [discriminate|]. split; [assumption|].
    intros _. exists (expected_report db student_id semester now).
    split; [reflexivity|]. unfold expected_report.
    destruct (fetched db student_id) as [|g0 gs0] eqn:E.
    + split; [reflexivity|]. now split.
    + cbn [general_average total_coefficient]. split.
      * intros Hz. apply general_average_of_nonpositive. rewrite Hz. apply Qle_refl.
      * intros Hnone.
        assert (Hl : live_grades (subjects db) (g0 :: gs0) = []).
        { apply live_grades_nil. intros g Hg. rewrite <- E in Hg.
          apply In_fetched in Hg as [Hg Hs]. now apply Hnone. }
        unfold coefficient_total, weighted_total.
        rewrite (graded_subjects_none _ _ Hl). now split.
Qed.

(** A store whose only subject was deleted after [s1] was graded in it. *)
Lemma calculate_student_average_no_zero_division_witness :
  exists report,
    calculate_student_average
      (mkDb [example_student] [] [example_grade "g1" "s1" "A" 10])
      "s1" None example_student 0 = inr report
    /\ total_coefficient report = 0 /\ general_average report = 0.
Proof.
  destruct (calculate_student_average_no_zero_division
              (mkDb [example_student] [] [example_grade "g1" "s1" "A" 10])
              "s1" None example_student 0%Z) as [_ [_ [_ H]]].
  destruct (H eq_refl) as [report [Hrun [_ Hz]]].
  exists report. split; [exact Hrun|].
  apply Hz. intros g Hg _. reflexivity.
Defined.

(** C5. Two runs over the same stores with any two semester arguments end
    the same way; when they return a report, the general average, the
    per-subject averages and the total coefficient are identical, and the
    semester argument only shows in the echoed label. *)
Theorem calculate_student_average_ignores_semester
    (db : Db) (student_id : string) (semester1 semester2 : option string)
    (current_user : User.t) (now1 now2 : Z) :
  match calculate_student_average db student_id semester1 current_user now1,
        calculate_student_average db student_id semester2 current_user now2 with
  | inr report1, inr report2 =>
      general_average report1 = general_average report2
      /\ subject_averages report1 = subject_averages report2
      /\ total_coefficient report1 = total_coefficient report2
      /\ semester report1 = semester1
      /\ semester report2 = semester2
  | inl e1, inl e2 => e1 = e2
  | _, _ => False
  end.
Proof.
  destruct (access_denied current_user student_id) eqn:Hacc.
  - rewrite !calculate_student_average_denied by exact Hacc. reflexivity.
  - rewrite !calculate_student_average_allowed by exact Hacc.
    unfold expected_report.
    destruct (fetched db student_id); repeat split.
Qed.





(** C8. A caller with role STUDENT who asks for the average or the grades of
    another student identifier gets the forbidden outcome, whether or not
    that identifier exists (so never the not-found outcome); and any run that
    gets past the permission test was made by the subject student or by a
    TEACHER or ADMIN. *)
Theorem student_reads_are_forbidden_not_hidden
    (db : Db) (student_id : string) (semester : option string)
    (current_user : User.t) (now : Z) :
  (User.role current_user = STUDENT -> User._id current_user <> student_id ->
     calculate_student_average db student_id semester current_user now
       = inl (HTTPException HTTP_403_FORBIDDEN "Accès non autorisé")
     /\ get_student_grades db student_id current_user
       = inl (HTTPException HTTP_403_FORBIDDEN "Accès non autorisé à ces notes")
     /\ ~ is_not_found (calculate_student_average db student_id semester current_user now)
     /\ ~ is_not_found (get_student_grades db student_id current_user))
  /\ (~ is_forbidden (calculate_student_average db student_id semester current_user now) ->
      may_read current_user student_id)
  /\ (~ is_forbidden (get_student_grades db student_id current_user) ->
      may_read current_user student_id)
  /\ (may_read current_user student_id ->
      exists report,
        calculate_student_average db student_id semester current_user now = inr report).
Proof.
  assert (Hden : access_denied current_user student_id = true <->
                 User.role current_user = STUDENT /\ User._id current_user <> student_id).
  { unfold access_denied. rewrite <- String.eqb_neq.
    destruct (User.role current_user); simpl;
      destruct (String.eqb (User._id current_user) student_id); simpl;
      split; intros H; try discriminate; try (destruct H; congruence); auto. }
  assert (Hok : access_denied current_user student_id = false <->
                may_read current_user student_id).
  { unfold may_read. split.
    - intros E.
      destruct (string_dec (User._id current_user) student_id) as [Hi|Hi]; [now left|].
      destruct (User.role current_user) eqn:Hr; auto.
      assert (access_denied current_user student_id = true) by (apply Hden; auto).
      congruence.
    - intros Hmay. apply not_true_is_false. intros E.
      apply Hden in E as [Hr Hi]. destruct Hmay as [H|[H|H]]; congruence. }
  split; [|split; [|split]].
  - intros Hr Hi. assert (E : access_denied current_user student_id = true)
      by (apply Hden; auto).
    unfold get_student_grades.
    rewrite calculate_student_average_denied by exact E. rewrite E.
    repeat split; intros [d Hd]; discriminate.
  - intros Hnf. apply Hok. apply not_true_is_false. intros E.
    apply Hnf. rewrite calculate_student_average_denied by exact E.
    now eexists.
  - intros Hnf. apply Hok. apply not_true_is_false. intros E.
    apply Hnf. unfold get_student_grades. rewrite E. now eexists.
  - intros Hmay. apply Hok in Hmay.
    rewrite calculate_student_average_allowed by exact Hmay. now eexists.
Qed.

(** Student [s2] asks for the data of [s1], and of an unknown identifier. *)
Lemma student_reads_are_forbidden_not_hidden_witness :
  calculate_student_average example_db "s1" None example_other_student 0
    = inl (HTTPException HTTP_403_FORBIDDEN "Accès non autorisé")
  /\ get_student_grades example_db "nobody" example_other_student
    = inl (HTTPException HTTP_403_FORBIDDEN "Accès non autorisé à ces notes").
Proof.
  split.
  - apply (proj1 (student_reads_are_forbidden_not_hidden example_db "s1" None
                    example_other_student 0%Z)); [reflexivity | discriminate].
  - apply (proj1 (student_reads_are_forbidden_not_hidden example_db "nobody" None
                    example_other_student 0%Z)); [reflexivity | discriminate].
Defined.

(** C9. Deleting an existing user removes every grade whose student reference
    is the deleted identifier and leaves every other grade as it was, in
    place; deleting an identifier that no user has fails with not-found and
    leaves the store unchanged. *)
Theorem delete_user_cascades_to_grades
    (db : Db) (user_id : string) (current_user : User.t) :
  ((exists u, In u (users db) /\ User._id u = user_id) ->
     fst (delete_user db user_id current_user) = inr "Utilisateur supprimé avec succès"
     /\ grades (snd (delete_user db user_id current_user))
        = filter (fun g => negb (String.eqb (Grade.student_id g) user_id)) (grades db)
     /\ (forall g, In g (grades (snd (delete_user db user_id current_user))) <->
                   In g (grades db) /\ Grade.student_id g <> user_id)
     /\ subjects (snd (delete_user db user_id current_user)) = subjects db)
  /\ ((forall u, In u (users db) -> User._id u <> user_id) ->
     fst (delete_user db user_id current_user)
       = inl (HTTPException HTTP_404_NOT_FOUND "Utilisateur non trouvé")
     /\ snd (delete_user db user_id current_user) = db).
Proof.
  unfold delete_user. split.
  - intros [u [Hu Hid]].
    assert (Hc : snd (delete_one (user_by_id user_id) (users db)) = 1%nat).
    { apply delete_one_present. exists u. split; [assumption|].
      unfold user_by_id. now apply String.eqb_eq. }
    destruct (delete_one (user_by_id user_id) (users db)) as [us n].
    simpl in Hc. subst n. simpl.
    split; [reflexivity|]. split; [reflexivity|]. split; [|reflexivity].
    intros g. fold (delete_many (of_student user_id) (grades db)).
    rewrite In_delete_many. unfold of_student. now rewrite String.eqb_neq.
  - intros Hnone.
    rewrite delete_one_absent.
    + simpl. split; [reflexivity|]. now destruct db.
    + intros u Hu. unfold user_by_id. apply String.eqb_neq. now apply Hnone.
Qed.

Lemma delete_user_cascades_to_grades_witness :
  grades (snd (delete_user example_db "s1" example_admin))
    = [example_grade "g2" "s2" "A" 7]
  /\ snd (delete_user example_db "nobody" example_admin) = example_db.
Proof.
  split.
  - rewrite (proj1 (proj2 (proj1 (delete_user_cascades_to_grades example_db "s1"
                                     example_admin)
                             (ex_intro _ example_student (conj (or_introl eq_refl) eq_refl))))).
    reflexivity.
  - apply (proj2 (delete_user_cascades_to_grades example_db "nobody" example_admin)).
    intros u Hu. simpl in Hu.
    destruct Hu as [<-|[<-|[<-|[<-|[]]]]]; discriminate.
Defined.

(** C7. A grade creation or update whose value lies outside [0, 20] is
    refused and the store is left as it was; for a caller the role dependency
    admits, the refusal is the validation failure.  An accepted value is
    stored exactly as sent (never moved into range), and every sequence of
    requests keeps every stored grade value within [0, 20]. *)
Theorem grade_value_validated_never_clamped :
  (forall db body caller grade_id now later,
      ~ 0 <= GradeCreate.value body <= 20 ->
      snd (route_create_grade db body caller grade_id now later) = db
      /\ (exists e, fst (route_create_grade db body caller grade_id now later) = inl e)
      /\ (In (User.role caller) [TEACHER; ADMIN] ->
          fst (route_create_grade db body caller grade_id now later)
          = inl RequestValidationError))
  /\ (forall db grade_id body caller now v,
      GradeUpdate.value body = Some v -> ~ 0 <= v <= 20 ->
      snd (route_update_grade db grade_id body caller now) = db
      /\ (exists e, fst (route_update_grade db grade_id body caller now) = inl e)
      /\ (In (User.role caller) [TEACHER; ADMIN] ->
          fst (route_update_grade db grade_id body caller now)
          = inl RequestValidationError))
  /\ (forall db body caller grade_id now later response,
      fst (route_create_grade db body caller grade_id now later) = inr response ->
      0 <= GradeCreate.value body <= 20
      /\ GradeResponse.value response = GradeCreate.value body
      /\ exists g,
           grades (snd (route_create_grade db body caller grade_id now later))
           = grades db ++ [g]
           /\ Grade.value g = GradeCreate.value body)
  /\ (forall db grade_id body caller now response v,
      fst (route_update_grade db grade_id body caller now) = inr response ->
      GradeUpdate.value body = Some v ->
      0 <= v <= 20
      /\ GradeResponse.value response = v
      /\ exists g,
           find_one (grade_by_id grade_id)
             (grades (snd (route_update_grade db grade_id body caller now))) = Some g
           /\ Grade.value g = v)
  /\ (forall db trace, grades_in_range db -> grades_in_range (serve_all db trace))
  /\ grades_in_range empty_db.
Proof.
  split; [|split; [|split; [|split; [|split]]]].
  - intros db body caller grade_id now later Hout. unfold route_create_grade.
    apply guarded_refused.
    destruct (GradeCreate_validate_cases body) as [[Hin _] | [_ Hv]];
      [contradiction | exact Hv].
  - intros db grade_id body caller now v Hv Hout. unfold route_update_grade.
    apply guarded_refused.
    destruct (GradeUpdate_validate_cases body) as [[Hin _] | [_ Hv']];
      [|exact Hv'].
    exfalso. apply Hout. now apply Hin.
  - intros db body caller grade_id now later response. unfold route_create_grade.
    destruct (guarded_cases [TEACHER; ADMIN] GradeCreate.validate
                (fun r u => create_grade db r u grade_id now later) db body caller)
      as [[_ [e ->]] | [request [Hv [_ ->]]]]; [discriminate|].
    destruct (GradeCreate_validate_cases body) as [[Hr Hv'] | [_ Hv']];
      rewrite Hv' in Hv; [|discriminate].
    injection Hv as <-. intros Hrun.
    pose proof (create_grade_stores db body caller grade_id now later) as Hs.
    rewrite Hrun in Hs. destruct Hs as [Hresp [g [-> [_ Hg]]]].
    split; [assumption|]. split; [assumption|]. now exists g.
  - intros db grade_id body caller now response v. unfold route_update_grade.
    destruct (guarded_cases [TEACHER; ADMIN] GradeUpdate.validate
                (fun r u => update_grade db grade_id r u now) db body caller)
      as [[_ [e ->]] | [request [Hv [_ ->]]]]; [discriminate|].
    destruct (GradeUpdate_validate_cases body) as [[Hr Hv'] | [_ Hv']];
      rewrite Hv' in Hv; [|discriminate].
    injection Hv as <-. intros Hrun Hval.
    pose proof (update_grade_stores db grade_id body caller now) as Hs.
    rewrite Hrun in Hs. destruct Hs as [_ [g [Hfind [Hresp Hg]]]].
    split; [now apply Hr|]. split; [rewrite Hresp; now apply Hg|].
    exists g. split; [assumption | now apply Hg].
  - apply serve_all_grades_in_range.
  - constructor.
Qed.

(** A teacher posts a grade of 25: refused as invalid, nothing is stored. *)
Lemma grade_value_validated_never_clamped_witness :
  route_create_grade example_db (GradeCreate.mk "s1" "A" 25 None None)
    example_teacher "g9" 0 1
  = (inl RequestValidationError, example_db).
Proof.
  destruct (proj1 grade_value_validated_never_clamped example_db
              (GradeCreate.mk "s1" "A" 25 None None) example_teacher "g9" 0%Z 1%Z)
    as [Hdb [_ Hres]].
  - simpl. intros [_ H]. apply H. reflexivity.
  - rewrite (surjective_pairing (route_create_grade _ _ _ _ _ _)).
    rewrite Hdb, Hres; [reflexivity | simpl; tauto].
Defined.

(* ================================================================== *)
(** * Further properties of the handlers *)

(** ** Roles *)

Lemma role_value_inj (r1 r2 : RoleEnum) : role_value r1 = role_value r2 -> r1 = r2.
Proof. destruct r1, r2; simpl; congruence. Qed.

Lemma require_role_not_In (roles : list RoleEnum) (caller : User.t) :
  ~ In (User.role caller) roles ->
  require_role roles caller
  = inl (HTTPException HTTP_403_FORBIDDEN "Permissions insuffisantes").
Proof.
  intros H. unfold require_role.
  destruct (existsb _ _) eqn:E; [|reflexivity].
  exfalso. apply H. apply existsb_exists in E as [x [Hx He]].
  apply String.eqb_eq in He. subst x.
  apply in_map_iff in Hx as [r [Hv Hr]].
  apply role_value_inj in Hv. now subst r.
Qed.

Lemma require_role_inr (roles : list RoleEnum) (caller u : User.t) :
  require_role roles caller = inr u -> u = caller /\ In (User.role caller) roles.
Proof.
  unfold require_role. destruct (existsb _ _) eqn:E; [|discriminate].
  intros [= <-]. split; [reflexivity|].
  apply existsb_exists in E as [x [Hx He]].
  apply String.eqb_eq in He. subst x.
  apply in_map_iff in Hx as [r [Hv Hr]].
  apply role_value_inj in Hv. now subst r.
Qed.

(** X1. [require_role] lets through exactly the callers whose role is one of
    the required roles, handing back the caller unchanged; every other caller
    gets the 403 "Permissions insuffisantes". *)
Theorem require_role_admits_exactly (roles : list RoleEnum) (caller : User.t) :
  (In (User.role caller) roles -> require_role roles caller = inr caller)
  /\ (~ In (User.role caller) roles ->
      require_role roles caller
      = inl (HTTPException HTTP_403_FORBIDDEN "Permissions insuffisantes"))
  /\ (forall u, require_role roles caller = inr u ->
                u = caller /\ In (User.role caller) roles).
Proof.
  split; [apply require_role_In|]. split; [apply require_role_not_In|].
  intros u. apply require_role_inr.
Qed.

Lemma require_role_admits_exactly_witness :
  require_role [TEACHER; ADMIN] example_teacher = inr example_teacher
  /\ require_role [TEACHER; ADMIN] example_student
     = inl (HTTPException HTTP_403_FORBIDDEN "Permissions insuffisantes").
Proof.
  split.
  - apply (proj1 (require_role_admits_exactly [TEACHER; ADMIN] example_teacher)).
    simpl. tauto.
  - apply (proj1 (proj2 (require_role_admits_exactly [TEACHER; ADMIN] example_student))).
    simpl. intros [H|[H|[]]]; discriminate.
Defined.

(** ** Subjects *)

Lemma find_one_some_In (A : Type) (q : A -> bool) (c : list A) (d : A) :
  find_one q c = Some d -> In d c /\ q d = true.
Proof. unfold find_one. apply find_some. Qed.

Lemma find_one_none (A : Type) (q : A -> bool) (c : list A) :
  find_one q c = None <-> forall d, In d c -> q d = false.
Proof.
  unfold find_one. split.
  - intros H d Hd. exact (find_none q c H d Hd).
  - intros H. induction c as [|x c IH]; simpl; [reflexivity|].
    rewrite (H x (or_introl eq_refl)). apply IH. intros d Hd. apply H. now right.
Qed.

Lemma find_one_app_fresh (A : Type) (q : A -> bool) (c : list A) (d : A) :
  find_one q c = None -> q d = true -> find_one q (c ++ [d]) = Some d.
Proof.
  unfold find_one. induction c as [|x c IH]; simpl.
  - intros _ ->. reflexivity.
  - destruct (q x); [discriminate | assumption].
Qed.

Lemma find_one_app_found (A : Type) (q : A -> bool) (c c' : list A) (d : A) :
  find_one q c = Some d -> find_one q (c ++ c') = Some d.
Proof.
  unfold find_one. induction c as [|x c IH]; simpl; [discriminate|].
  destruct (q x); [trivial | assumption].
Qed.

Lemma find_one_app_none (A : Type) (q : A -> bool) (c : list A) (d : A) :
  q d = false -> find_one q (c ++ [d]) = find_one q c.
Proof.
  unfold find_one. intros Hd. induction c as [|x c IH]; simpl.
  - now rewrite Hd.
  - destruct (q x); [reflexivity | assumption].
Qed.

Lemma SubjectCreate_validate_iff (body : SubjectCreate.t) :
  SubjectCreate.validate body = inr body <->
  (1 <= len (SubjectCreate.subject_code body) <= 20)%nat
  /\ (1 <= len (SubjectCreate.name body) <= 200)%nat
  /\ (1 # 10) <= SubjectCreate.coefficient body <= 10.
Proof.
  unfold SubjectCreate.validate, length_between.
  destruct (_ && _) eqn:E.
  - split; [intros _ | reflexivity].
    apply andb_true_iff in E as [E E3]. apply andb_true_iff in E as [E1 E2].
    apply andb_true_iff in E1 as [E1a E1b]. apply andb_true_iff in E2 as [E2a E2b].
    apply in_closed_range_iff in E3.
    apply Nat.leb_le in E1a, E1b, E2a, E2b. tauto.
  - split; [discriminate|]. intros [[H1 H2] [[H3 H4] H5]]. exfalso.
    apply Nat.leb_le in H1, H2, H3, H4. apply in_closed_range_iff in H5.
    rewrite H1, H2, H3, H4, H5 in E. discriminate.
Qed.

(** X2. [create_subject] through its route stores a subject exactly when the
    caller is an ADMIN, the body is within the limits of [SubjectCreate]
    (code of 1 to 20 characters, name of 1 to 200 characters, coefficient in
    [0.1, 10]) and no stored subject has the same code.  It then appends one
    subject carrying the fields of the request and the first reading of the
    clock, and answers with the same fields and the second reading.  In
    every other case the store is unchanged, and a duplicate code sent by an
    ADMIN with a valid body is answered with 400. *)
Theorem route_create_subject_outcome
    (db : Db) (body : SubjectCreate.t) (caller : User.t) (subject_id : string)
    (now later : Z) :
  let run := route_create_subject db body caller subject_id now later in
  let valid :=
    (1 <= len (SubjectCreate.subject_code body) <= 20)%nat
    /\ (1 <= len (SubjectCreate.name body) <= 200)%nat
    /\ (1 # 10) <= SubjectCreate.coefficient body <= 10 in
  let accepted :=
    User.role caller = ADMIN
    /\ valid
    /\ (forall s, In s (subjects db) ->
          Subject.subject_code s <> SubjectCreate.subject_code body) in
  (accepted ->
     fst run = inr (SubjectResponse.mk subject_id (SubjectCreate.subject_code body)
                      (SubjectCreate.name body) (SubjectCreate.coefficient body)
                      (SubjectCreate.description body) later)
     /\ snd run
        = with_subjects db
            (subjects db ++
               [Subject.mk subject_id (SubjectCreate.subject_code body)
                  (SubjectCreate.name body) (SubjectCreate.coefficient body)
                  (SubjectCreate.description body) now]))
  /\ (~ accepted -> snd run = db /\ exists e, fst run = inl e)
  /\ (User.role caller = ADMIN -> valid ->
      (exists s, In s (subjects db)
                 /\ Subject.subject_code s = SubjectCreate.subject_code body) ->
      fst run = inl (HTTPException 400 "Ce code de matière existe déjà"))
  /\ (User.role caller = ADMIN -> ~ valid -> fst run = inl RequestValidationError).
Proof.
  cbn zeta. unfold route_create_subject, guarded.
  assert (Hcode : forall s, by_code (SubjectCreate.subject_code body) s = false
                            <-> Subject.subject_code s <> SubjectCreate.subject_code body).
  { intros s. unfold by_code. apply String.eqb_neq. }
  split; [|split; [|split]].
  - intros [Hr [Hv Hfresh]]. apply SubjectCreate_validate_iff in Hv.
    rewrite require_role_In by (rewrite Hr; simpl; tauto). rewrite Hv.
    unfold create_subject.
    assert (Hnone : find_one (by_code (SubjectCreate.subject_code body)) (subjects db)
                    = None).
    { apply find_one_none. intros s Hs. apply Hcode. now apply Hfresh. }
    rewrite Hnone. split; reflexivity.
  - intros Hnot.
    destruct (require_role [ADMIN] caller) as [e|u] eqn:Hrole;
      [split; [reflexivity | now exists e]|].
    apply require_role_inr in Hrole as [-> Hrole].
    destruct (SubjectCreate.validate body) as [e|request] eqn:Hv;
      [split; [reflexivity | now exists e]|].
    assert (request = body).
    { unfold SubjectCreate.validate in Hv.
      destruct (_ && _) in Hv; [now injection Hv | discriminate]. }
    subst request. unfold create_subject.
    destruct (find_one (by_code (SubjectCreate.subject_code body)) (subjects db))
      as [s|] eqn:Hf; [split; [reflexivity | now eexists]|].
    exfalso. apply Hnot. split; [|split].
    + destruct Hrole as [Hrole|[]]. now symmetry.
    + now apply SubjectCreate_validate_iff.
    + intros s Hs. apply Hcode. revert s Hs. now apply find_one_none.
  - intros Hr Hv [s [Hs Hc]]. apply SubjectCreate_validate_iff in Hv.
    rewrite require_role_In by (rewrite Hr; simpl; tauto). rewrite Hv.
    unfold create_subject.
    destruct (find_one (by_code (SubjectCreate.subject_code body)) (subjects db))
      as [s'|] eqn:Hf; [reflexivity|].
    exfalso. rewrite find_one_none in Hf. specialize (Hf s Hs).
    apply Hcode in Hf. contradiction.
  - intros Hr Hv.
    rewrite require_role_In by (rewrite Hr; simpl; tauto).
    destruct (SubjectCreate.validate body) as [e|request] eqn:Hval.
    + unfold SubjectCreate.validate in Hval.
      destruct (_ && _) in Hval; [discriminate | now injection Hval as <-].
    + exfalso. apply Hv. apply SubjectCreate_validate_iff.
      unfold SubjectCreate.validate in *.
      destruct (_ && _); [reflexivity | discriminate].
Qed.

(** A code of eleven accented letters is eleven characters (twenty-two
    bytes): it is within the limit and the subject is stored. *)
Lemma route_create_subject_outcome_witness :
  route_create_subject example_db
    (SubjectCreate.mk "ééééééééééé" "Chimie" 3 None) example_admin "C" 5 6
  = (inr (SubjectResponse.mk "C" "ééééééééééé" "Chimie" 3 None 6),
     with_subjects example_db
       (subjects example_db ++ [Subject.mk "C" "ééééééééééé" "Chimie" 3 None 5])).
Proof.
  rewrite (surjective_pairing (route_create_subject _ _ _ _ _ _)).
  destruct (proj1 (route_create_subject_outcome example_db
                     (SubjectCreate.mk "ééééééééééé" "Chimie" 3 None) example_admin
                     "C" 5%Z 6%Z)) as [-> ->]; [|reflexivity].
  split; [reflexivity|]. split.
  - simpl. repeat split; try lia; discriminate.
  - intros s Hs. simpl in Hs. destruct Hs as [<-|[<-|[]]]; discriminate.
Defined.

(** ** What each write route leaves in the store *)

Lemma SubjectCreate_validate_inr (body request : SubjectCreate.t) :
  SubjectCreate.validate body = inr request ->
  request = body
  /\ (1 # 10) <= SubjectCreate.coefficient body <= 10
  /\ (1 <= len (SubjectCreate.subject_code body) <= 20)%nat
  /\ (1 <= len (SubjectCreate.name body) <= 200)%nat.
Proof.
  unfold SubjectCreate.validate, length_between.
  destruct (_ && _) eqn:E; [|discriminate]. intros [= <-].
  apply andb_true_iff in E as [E E3]. apply andb_true_iff in E as [E1 E2].
  apply andb_true_iff in E1 as [E1a E1b]. apply andb_true_iff in E2 as [E2a E2b].
  apply in_closed_range_iff in E3.
  apply Nat.leb_le in E1a, E1b, E2a, E2b. tauto.
Qed.

Lemma GradeCreate_validate_inr (body request : GradeCreate.t) :
  GradeCreate.validate body = inr request ->
  request = body /\ 0 <= GradeCreate.value body <= 20.
Proof.
  destruct (GradeCreate_validate_cases body) as [[Hr ->] | [_ ->]];
    [|discriminate]. intros [= <-]. now split.
Qed.

Lemma GradeUpdate_validate_inr (body request : GradeUpdate.t) :
  GradeUpdate.validate body = inr request ->
  request = body /\ forall v, GradeUpdate.value body = Some v -> 0 <= v <= 20.
Proof.
  destruct (GradeUpdate_validate_cases body) as [[Hr ->] | [_ ->]];
    [|discriminate]. intros [= <-]. now split.
Qed.

Lemma route_create_subject_store
    (db : Db) (body : SubjectCreate.t) (caller : User.t) (subject_id : string) (now later : Z) :
  snd (route_create_subject db body caller subject_id now later) = db
  \/ (User.role caller = ADMIN
      /\ SubjectCreate.validate body = inr body
      /\ find_one (by_code (SubjectCreate.subject_code body)) (subjects db) = None
      /\ snd (route_create_subject db body caller subject_id now later)
         = with_subjects db (subjects db ++ [new_subject body subject_id now])).
Proof.
  unfold route_create_subject.
  destruct (guarded_cases [ADMIN] SubjectCreate.validate
              (fun r u => create_subject db r u subject_id now later) db body caller)
    as [[-> _] | [request [Hv [Hr ->]]]]; [now left|].
  destruct (SubjectCreate_validate_inr _ Hv) as [-> _].
  unfold create_subject.
  destruct (find_one (by_code _) (subjects db)) eqn:Hf; [now left|].
  right. destruct Hr as [Hr|[]]. repeat split; auto.
Qed.

Lemma route_create_grade_store
    (db : Db) (body : GradeCreate.t) (caller : User.t) (grade_id : string) (now later : Z) :
  snd (route_create_grade db body caller grade_id now later) = db
  \/ (In (User.role caller) [TEACHER; ADMIN]
      /\ 0 <= GradeCreate.value body <= 20
      /\ (exists student,
            find_one (student_by_id (GradeCreate.student_id body)) (users db)
            = Some student)
      /\ resolves (subjects db) (GradeCreate.subject_id body) = true
      /\ snd (route_create_grade db body caller grade_id now later)
         = with_grades db (grades db ++ [new_grade body caller grade_id now])).
Proof.
  unfold route_create_grade.
  destruct (guarded_cases [TEACHER; ADMIN] GradeCreate.validate
              (fun r u => create_grade db r u grade_id now later) db body caller)
    as [[-> _] | [request [Hv [Hr ->]]]]; [now left|].
  destruct (GradeCreate_validate_inr _ Hv) as [-> Hrange].
  unfold create_grade, resolves.
  destruct (find_one (student_by_id _) (users db)) as [student|] eqn:Hs; [|now left].
  destruct (find_one (by_id _) (subjects db)) as [subject|] eqn:Hsub; [|now left].
  right. split; [assumption|]. split; [assumption|].
  split; [now exists student|]. split; reflexivity.
Qed.

Lemma route_update_grade_store
    (db : Db) (grade_id : string) (body : GradeUpdate.t) (caller : User.t) (now : Z) :
  snd (route_update_grade db grade_id body caller now) = db
  \/ (In (User.role caller) [TEACHER; ADMIN]
      /\ (forall v, GradeUpdate.value body = Some v -> 0 <= v <= 20)
      /\ snd (route_update_grade db grade_id body caller now)
         = with_grades db
             (update_one (grade_by_id grade_id)
                (set_update body now (User._id caller)) (grades db))).
Proof.
  unfold route_update_grade.
  destruct (guarded_cases [TEACHER; ADMIN] GradeUpdate.validate
              (fun r u => update_grade db grade_id r u now) db body caller)
    as [[-> _] | [request [Hv [Hr ->]]]]; [now left|].
  destruct (GradeUpdate_validate_inr _ Hv) as [-> Hrange].
  pose proof (update_grade_stores db grade_id body caller now) as Hs.
  destruct (fst (update_grade db grade_id body caller now)).
  - left. tauto.
  - right. tauto.
Qed.

Lemma route_delete_grade_store (db : Db) (grade_id : string) (caller : User.t) :
  snd (route_delete_grade db grade_id caller) = db
  \/ (In (User.role caller) [TEACHER; ADMIN]
      /\ snd (route_delete_grade db grade_id caller)
         = with_grades db (fst (delete_one (grade_by_id grade_id) (grades db)))).
Proof.
  unfold route_delete_grade.
  destruct (guarded_cases [TEACHER; ADMIN] (@ret unit)
              (fun _ u => delete_grade db grade_id u) db tt caller)
    as [[-> _] | [request [_ [Hr ->]]]]; [now left|].
  right. split; [assumption|]. unfold delete_grade.
  destruct (delete_one (grade_by_id grade_id) (grades db)) as [gs n].
  now destruct (Nat.eqb n 0).
Qed.

Lemma route_delete_user_store (db : Db) (user_id : string) (caller : User.t) :
  snd (route_delete_user db user_id caller) = db
  \/ (User.role caller = ADMIN
      /\ (exists u, In u (users db) /\ User._id u = user_id)
      /\ snd (route_delete_user db user_id caller)
         = mkDb (fst (delete_one (user_by_id user_id) (users db))) (subjects db)
             (delete_many (of_student user_id) (grades db))).
Proof.
  unfold route_delete_user.
  destruct (guarded_cases [ADMIN] (@ret unit)
              (fun _ u => delete_user db user_id u) db tt caller)
    as [[-> _] | [request [_ [Hr ->]]]]; [now left|].
  unfold delete_user.
  destruct (find_one (user_by_id user_id) (users db)) as [u|] eqn:Hf.
  - right. apply find_one_some_In in Hf as [Hu Hq].
    assert (Hc : snd (delete_one (user_by_id user_id) (users db)) = 1%nat).
    { apply delete_one_present. now exists u. }
    destruct (delete_one (user_by_id user_id) (users db)) as [us n].
    simpl in Hc. subst n. simpl.
    destruct Hr as [Hr|[]]. split; [now symmetry|]. split; [|reflexivity].
    exists u. split; [assumption|]. now apply String.eqb_eq.
  - left. rewrite find_one_none in Hf. rewrite (delete_one_absent _ _ Hf).
    simpl. now destruct db.
Qed.

Lemma serve_all_invariant (P : Db -> Prop) :
  (forall db cr, P db -> P (serve db cr)) ->
  forall db trace, P db -> P (serve_all db trace).
Proof.
  intros Hstep db trace. unfold serve_all. revert db.
  induction trace as [|cr trace IH]; intros db H; [exact H|].
  simpl. apply IH. now apply Hstep.
Qed.

(** Only an accepted subject creation changes the subject collection. *)
Lemma serve_subjects (db : Db) (cr : User.t * request) :
  subjects (serve db cr) = subjects db
  \/ exists body subject_id now,
       SubjectCreate.validate body = inr body
       /\ find_one (by_code (SubjectCreate.subject_code body)) (subjects db) = None
       /\ subjects (serve db cr) = subjects db ++ [new_subject body subject_id now].
Proof.
  destruct cr as [caller r].
  destruct r as [body subject_id now later | body grade_id now later | grade_id body now
                 | grade_id | user_id]; simpl.
  - destruct (route_create_subject_store db body caller subject_id now later)
      as [-> | [_ [Hv [Hf ->]]]]; [now left|].
    right. exists body, subject_id, now. auto.
  - destruct (route_create_grade_store db body caller grade_id now later)
      as [-> | [_ [_ [_ [_ ->]]]]]; now left.
  - destruct (route_update_grade_store db grade_id body caller now)
      as [-> | [_ [_ ->]]]; now left.
  - destruct (route_delete_grade_store db grade_id caller) as [-> | [_ ->]]; now left.
  - destruct (route_delete_user_store db user_id caller) as [-> | [_ [_ ->]]]; now left.
Qed.

Lemma NoDup_snoc (A : Type) (l : list A) (x : A) :
  NoDup l -> ~ In x l -> NoDup (l ++ [x]).
Proof.
  intros Hnd Hx. induction Hnd as [|a l Ha Hnd IH]; simpl.
  - constructor; [intros [] | constructor].
  - constructor.
    + rewrite in_app_iff. simpl. intros [H|[H|[]]]; [contradiction|].
      subst. apply Hx. now left.
    + apply IH. intros H. apply Hx. now right.
Qed.

(** X3. Subject codes stay unique: whatever requests are served, no two
    stored subjects share a [subject_code] if none did before. *)
Theorem serve_all_unique_subject_codes (db : Db) (trace : list (User.t * request)) :
  unique_subject_codes db -> unique_subject_codes (serve_all db trace).
Proof.
  apply serve_all_invariant. clear db trace. intros db cr Hinv.
  unfold unique_subject_codes in *.
  destruct (serve_subjects db cr) as [-> | [body [subject_id [now [_ [Hf ->]]]]]];
    [assumption|].
  rewrite map_app. simpl. apply NoDup_snoc; [assumption|].
  rewrite in_map_iff. intros [s [Hc Hs]].
  rewrite find_one_none in Hf. specialize (Hf s Hs).
  unfold by_code in Hf. rewrite Hc, String.eqb_refl in Hf. discriminate.
Qed.

(** Two admins try to create the code MATH again, then a new code twice. *)
Lemma serve_all_unique_subject_codes_witness :
  unique_subject_codes
    (serve_all example_db
       [(example_admin, PostSubject (SubjectCreate.mk "MATH" "Algebra" 2 None) "C" 1 2);
        (example_admin, PostSubject (SubjectCreate.mk "CHEM" "Chemistry" 3 None) "D" 2 3);
        (example_admin, PostSubject (SubjectCreate.mk "CHEM" "Chemistry II" 3 None) "E" 3 4)])
  /\ List.length
       (subjects
          (serve_all example_db
             [(example_admin, PostSubject (SubjectCreate.mk "MATH" "Algebra" 2 None) "C" 1 2);
              (example_admin, PostSubject (SubjectCreate.mk "CHEM" "Chemistry" 3 None) "D" 2 3);
              (example_admin,
               PostSubject (SubjectCreate.mk "CHEM" "Chemistry II" 3 None) "E" 3 4)]))
     = 3%nat.
Proof.
  split; [|reflexivity].
  apply serve_all_unique_subject_codes.
  unfold unique_subject_codes. simpl.
  constructor; [simpl; intros [H|[]]; discriminate|].
  constructor; [intros []|constructor].
Defined.

(** X4. Every stored subject keeps its fields within the limits of
    [SubjectCreate] (coefficient in [0.1, 10], code of 1 to 20 characters,
    name of 1 to 200), whatever requests are served. *)
Theorem serve_all_subjects_within_limits (db : Db) (trace : list (User.t * request)) :
  Forall subject_within_limits (subjects db) ->
  Forall subject_within_limits (subjects (serve_all db trace)).
Proof.
  apply (serve_all_invariant (fun db => Forall subject_within_limits (subjects db))).
  clear db trace. intros db cr Hinv.
  destruct (serve_subjects db cr) as [-> | [body [subject_id [now [Hv [_ ->]]]]]];
    [assumption|].
  apply Forall_app. split; [assumption|].
  constructor; [|constructor].
  destruct (SubjectCreate_validate_inr _ Hv) as [_ H].
  exact H.
Qed.

Lemma serve_all_subjects_within_limits_witness :
  Forall subject_within_limits
    (subjects
       (serve_all empty_db
          [(example_admin,
            PostSubject (SubjectCreate.mk "ééééééééééé" "Algèbre" 2 None) "C" 1 2);
           (example_admin, PostSubject (SubjectCreate.mk "BAD" "Too heavy" 11 None) "D" 2 3)])).
Proof.
  apply serve_all_subjects_within_limits. constructor.
Defined.

Lemma route_create_subject_inr
    (db : Db) (body : SubjectCreate.t) (caller : User.t) (subject_id : string)
    (now later : Z) (response : SubjectResponse.t) :
  fst (route_create_subject db body caller subject_id now later) = inr response ->
  response
  = SubjectResponse.mk subject_id (SubjectCreate.subject_code body)
      (SubjectCreate.name body) (SubjectCreate.coefficient body)
      (SubjectCreate.description body) later
  /\ snd (route_create_subject db body caller subject_id now later)
     = with_subjects db (subjects db ++ [new_subject body subject_id now]).
Proof.
  unfold route_create_subject.
  destruct (guarded_cases [ADMIN] SubjectCreate.validate
              (fun r u => create_subject db r u subject_id now later) db body caller)
    as [[_ [e ->]] | [request [Hv [_ ->]]]]; [discriminate|].
  destruct (SubjectCreate_validate_inr _ Hv) as [-> _].
  unfold create_subject.
  destruct (find_one (by_code _) (subjects db)); [discriminate|].
  simpl. intros [= <-]. split; reflexivity.
Qed.

Lemma filter_all (A : Type) (c : list A) : filter (fun _ => true) c = c.
Proof. induction c as [|x c IH]; simpl; [reflexivity | now rewrite IH]. Qed.

(** X5. A subject that [create_subject] accepted under a fresh identifier can
    be read back: [get_subject_by_id] returns the identifier, code, name,
    coefficient and description of the response the creation returned,
    together with the stored creation time (the first reading of the clock,
    where the creation's response carries the second); [get_all_subjects]
    returns the former list followed by that same entry; and every subject
    that could be read before still reads the same. *)
Theorem created_subject_reads_back
    (db : Db) (body : SubjectCreate.t) (caller reader : User.t)
    (subject_id : string) (now later : Z) (response : SubjectResponse.t) :
  fst (route_create_subject db body caller subject_id now later) = inr response ->
  (forall s, In s (subjects db) -> Subject._id s <> subject_id) ->
  let db' := snd (route_create_subject db body caller subject_id now later) in
  let stored :=
    SubjectResponse.mk (SubjectResponse.id response)
      (SubjectResponse.subject_code response) (SubjectResponse.name response)
      (SubjectResponse.coefficient response) (SubjectResponse.description response)
      now in
  SubjectResponse.id response = subject_id
  /\ SubjectResponse.created_at response = later
  /\ get_subject_by_id db' subject_id reader = inr stored
  /\ (exists before,
        get_all_subjects db reader = inr before
        /\ get_all_subjects db' reader = inr (before ++ [stored]))
  /\ (forall other r, get_subject_by_id db other reader = inr r ->
                      get_subject_by_id db' other reader = inr r).
Proof.
  intros Hrun Hfresh. cbn zeta.
  destruct (route_create_subject_inr _ _ _ _ _ _ Hrun) as [-> ->].
  unfold get_subject_by_id, get_all_subjects, find. cbn [subjects with_subjects].
  split; [reflexivity|]. split; [reflexivity|]. split; [|split].
  - rewrite find_one_app_fresh; [reflexivity| |].
    + apply find_one_none. intros s Hs. unfold by_id.
      apply String.eqb_neq. now apply Hfresh.
    + unfold by_id, new_subject. simpl. apply String.eqb_refl.
  - eexists. split; [reflexivity|].
    rewrite !filter_all, map_app. reflexivity.
  - intros other r.
    destruct (find_one (by_id other) (subjects db)) as [s|] eqn:Hf; [|discriminate].
    erewrite find_one_app_found by exact Hf. trivial.
Qed.

(** Created at time 5 and answered at time 6: the subject reads back with
    creation time 5. *)
Lemma created_subject_reads_back_witness :
  get_subject_by_id
    (snd (route_create_subject example_db (SubjectCreate.mk "CHEM" "Chemistry" 3 None)
            example_admin "C" 5 6)) "C" example_student
  = inr (SubjectResponse.mk "C" "CHEM" "Chemistry" 3 None 5).
Proof.
  destruct (@created_subject_reads_back example_db
              (SubjectCreate.mk "CHEM" "Chemistry" 3 None) example_admin example_student
              "C" 5%Z 6%Z (SubjectResponse.mk "C" "CHEM" "Chemistry" 3 None 6))
    as [_ [_ [H _]]].
  - reflexivity.
  - intros s Hs. simpl in Hs. destruct Hs as [<-|[<-|[]]]; discriminate.
  - exact H.
Defined.

(** In a collection with unique keys, looking a stored document up by its key
    finds that document. *)
Lemma find_one_unique (A : Type) (key : A -> string) (c : list A) (d : A) :
  NoDup (map key c) -> In d c ->
  find_one (fun x => String.eqb (key x) (key d)) c = Some d.
Proof.
  unfold find_one. induction c as [|x c IH]; simpl; [intros _ []|].
  intros Hnd Hin. inversion Hnd as [|k ks Hk Hnd']; subst.
  destruct Hin as [->|Hin].
  - now rewrite String.eqb_refl.
  - destruct (String.eqb (key x) (key d)) eqn:E.
    + exfalso. apply Hk. apply String.eqb_eq in E. rewrite E. now apply in_map.
    + now apply IH.
Qed.

(** X6. [get_subject_by_id] answers 404 exactly when no stored subject has
    the identifier; otherwise it returns a subject with that identifier, and
    when identifiers are unique it returns the stored subject unchanged. *)
Theorem get_subject_by_id_outcome (db : Db) (subject_id : string) (current_user : User.t) :
  ((forall s, In s (subjects db) -> Subject._id s <> subject_id) <->
   get_subject_by_id db subject_id current_user
   = inl (HTTPException HTTP_404_NOT_FOUND "Matière non trouvée"))
  /\ (forall r, get_subject_by_id db subject_id current_user = inr r ->
        SubjectResponse.id r = subject_id
        /\ exists s, In s (subjects db) /\ r = subject_response s)
  /\ (unique_subject_ids db ->
      forall s, In s (subjects db) -> Subject._id s = subject_id ->
        get_subject_by_id db subject_id current_user = inr (subject_response s)).
Proof.
  unfold get_subject_by_id. split; [|split].
  - split.
    + intros Hnone.
      replace (find_one (by_id subject_id) (subjects db)) with (@None Subject.t);
        [reflexivity|].
      symmetry. apply find_one_none. intros s Hs. unfold by_id.
      apply String.eqb_neq. now apply Hnone.
    + destruct (find_one (by_id subject_id) (subjects db)) as [s|] eqn:Hf;
        [discriminate|].
      intros _ s Hs. rewrite find_one_none in Hf.
      apply String.eqb_neq. exact (Hf s Hs).
  - intros r.
    destruct (find_one (by_id subject_id) (subjects db)) as [s|] eqn:Hf;
      [|discriminate].
    intros [= <-]. apply find_one_some_In in Hf as [Hs Hq].
    split; [now apply String.eqb_eq | now exists s].
  - intros Hnd s Hs Hid. subst subject_id.
    unfold by_id. now rewrite (find_one_unique Subject._id _ _ Hnd Hs).
Qed.

Lemma get_subject_by_id_outcome_witness :
  get_subject_by_id example_db "B" example_student
  = inr (SubjectResponse.mk "B" "PHYS" "Subject B" 1 None 0)
  /\ get_subject_by_id example_db "Z" example_student
     = inl (HTTPException HTTP_404_NOT_FOUND "Matière non trouvée").
Proof.
  split.
  - apply (proj2 (proj2 (get_subject_by_id_outcome example_db "B" example_student))
             ltac:(unfold unique_subject_ids; simpl;
                   repeat constructor; simpl; intuition discriminate)
             (Subject.mk "B" "PHYS" "Subject B" 1 None 0)).
    + simpl. tauto.
    + reflexivity.
  - apply (proj1 (get_subject_by_id_outcome example_db "Z" example_student)).
    intros s Hs. simpl in Hs. destruct Hs as [<-|[<-|[]]]; discriminate.
Defined.

(** ** Creating grades *)

Lemma find_one_exists (A : Type) (q : A -> bool) (c : list A) :
  (exists d, In d c /\ q d = true) -> exists d, find_one q c = Some d.
Proof.
  intros [d [Hd Hq]]. destruct (find_one q c) as [d'|] eqn:Hf; [now exists d'|].
  rewrite find_one_none in Hf. rewrite (Hf d Hd) in Hq. discriminate.
Qed.

Lemma student_by_id_iff (student_id : string) (u : User.t) :
  student_by_id student_id u = true <->
  User._id u = student_id /\ User.role u = STUDENT.
Proof.
  unfold student_by_id. rewrite andb_true_iff, !String.eqb_eq. split.
  - intros [Hi Hr]. split; [assumption|]. now apply role_value_inj.
  - intros [Hi Hr]. split; [assumption|]. now rewrite Hr.
Qed.

(** X7. [create_grade] checks the student first and the subject second: with
    no user of role STUDENT under the requested identifier it answers 404
    "Étudiant non trouvé" (also when the identifier belongs to a teacher or
    admin, and whatever the subject); with such a student but no such subject
    it answers 404 "Matière non trouvée"; in both cases the store is
    unchanged.  Otherwise it appends exactly one grade, which carries the
    requested student, subject, value and comment, and whose recording
    teacher is the one given in the request or, failing that, the caller. *)
Theorem create_grade_outcome
    (db : Db) (grade_request : GradeCreate.t) (current_user : User.t)
    (grade_id : string) (now later : Z) :
  let run := create_grade db grade_request current_user grade_id now later in
  let student_known :=
    exists u, In u (users db)
              /\ User._id u = GradeCreate.student_id grade_request
              /\ User.role u = STUDENT in
  let subject_known :=
    exists s, In s (subjects db)
              /\ Subject._id s = GradeCreate.subject_id grade_request in
  (~ student_known ->
     run = (inl (HTTPException HTTP_404_NOT_FOUND "Étudiant non trouvé"), db))
  /\ (student_known -> ~ subject_known ->
     run = (inl (HTTPException HTTP_404_NOT_FOUND "Matière non trouvée"), db))
  /\ (student_known -> subject_known ->
     exists response g,
       run = (inr response, with_grades db (grades db ++ [g]))
       /\ Grade._id g = grade_id
       /\ Grade.student_id g = GradeCreate.student_id grade_request
       /\ Grade.subject_id g = GradeCreate.subject_id grade_request
       /\ Grade.value g = GradeCreate.value grade_request
       /\ Grade.comment g = GradeCreate.comment grade_request
       /\ Grade.date g = now
       /\ Grade.recorded_by_teacher_id g
          = match GradeCreate.recorded_by_teacher_id grade_request with
            | Some t => if String.eqb t "" then User._id current_user else t
            | None => User._id current_user
            end
       /\ GradeResponse.id response = grade_id
       /\ GradeResponse.value response = GradeCreate.value grade_request).
Proof.
  cbn zeta. unfold create_grade.
  assert (Hstu : forall student,
             find_one (student_by_id (GradeCreate.student_id grade_request)) (users db)
             = Some student ->
             exists u, In u (users db)
                       /\ User._id u = GradeCreate.student_id grade_request
                       /\ User.role u = STUDENT).
  { intros student Hf. apply find_one_some_In in Hf as [Hin Hq].
    apply student_by_id_iff in Hq. now exists student. }
  assert (Hsub : forall subject,
             find_one (by_id (GradeCreate.subject_id grade_request)) (subjects db)
             = Some subject ->
             exists s, In s (subjects db)
                       /\ Subject._id s = GradeCreate.subject_id grade_request).
  { intros subject Hf. apply find_one_some_In in Hf as [Hin Hq].
    exists subject. split; [assumption|]. now apply String.eqb_eq. }
  split; [|split].
  - intros Hno.
    destruct (find_one (student_by_id _) (users db)) as [student|] eqn:Hf;
      [|reflexivity].
    exfalso. apply Hno. now apply Hstu with student.
  - intros [u [Hu [Hid Hrole]]] Hno.
    destruct (@find_one_exists _ (student_by_id (GradeCreate.student_id grade_request))
                (users db)) as [student ->].
    { exists u. split; [assumption|]. now apply student_by_id_iff. }
    destruct (find_one (by_id _) (subjects db)) as [subject|] eqn:Hf; [|reflexivity].
    exfalso. apply Hno. now apply Hsub with subject.
  - intros [u [Hu [Hid Hrole]]] [s [Hs Hsid]].
    destruct (@find_one_exists _ (student_by_id (GradeCreate.student_id grade_request))
                (users db)) as [student ->].
    { exists u. split; [assumption|]. now apply student_by_id_iff. }
    destruct (@find_one_exists _ (by_id (GradeCreate.subject_id grade_request))
                (subjects db)) as [subject ->].
    { exists s. split; [assumption|]. now apply String.eqb_eq. }
    eexists. eexists. split; [reflexivity|]. simpl. repeat split.
Qed.

(** A teacher's identifier is not accepted as a student. *)
Lemma create_grade_outcome_witness :
  create_grade example_db (GradeCreate.mk "t1" "A" 12 None None) example_admin "g9" 0 1
  = (inl (HTTPException HTTP_404_NOT_FOUND "Étudiant non trouvé"), example_db).
Proof.
  apply (proj1 (create_grade_outcome example_db (GradeCreate.mk "t1" "A" 12 None None)
                  example_admin "g9" 0%Z 1%Z)).
  intros [u [Hu [Hid Hrole]]]. simpl in Hu.
  destruct Hu as [<-|[<-|[<-|[<-|[]]]]]; discriminate.
Defined.

Lemma route_create_grade_inr
    (db : Db) (body : GradeCreate.t) (caller : User.t) (grade_id : string)
    (now later : Z) (response : GradeResponse.t) :
  fst (route_create_grade db body caller grade_id now later) = inr response ->
  exists student subject,
    find_one (student_by_id (GradeCreate.student_id body)) (users db) = Some student
    /\ find_one (by_id (GradeCreate.subject_id body)) (subjects db) = Some subject
    /\ response
       = GradeResponse.mk grade_id (GradeCreate.value body) later
           (GradeCreate.comment body) (GradeCreate.student_id body)
           (full_name (User.firstname student) (User.lastname student))
           (GradeCreate.subject_id body) (Subject.name subject)
           (Subject.coefficient subject)
           (teacher_name (users db)
              (Grade.recorded_by_teacher_id (new_grade body caller grade_id now)))
    /\ snd (route_create_grade db body caller grade_id now later)
       = with_grades db (grades db ++ [new_grade body caller grade_id now]).
Proof.
  unfold route_create_grade.
  destruct (guarded_cases [TEACHER; ADMIN] GradeCreate.validate
              (fun r u => create_grade db r u grade_id now later) db body caller)
    as [[_ [e ->]] | [request [Hv [_ ->]]]]; [discriminate|].
  destruct (GradeCreate_validate_inr _ Hv) as [-> _].
  unfold create_grade.
  destruct (find_one (student_by_id _) (users db)) as [student|]; [|discriminate].
  destruct (find_one (by_id _) (subjects db)) as [subject|]; [|discriminate].
  simpl. intros [= <-]. exists student, subject. repeat split.
Qed.

Lemma find_one_student_is_user (db : Db) (student_id : string) (student : User.t) :
  unique_user_ids db ->
  find_one (student_by_id student_id) (users db) = Some student ->
  find_one (user_by_id student_id) (users db) = Some student.
Proof.
  intros Hnd Hf. apply find_one_some_In in Hf as [Hin Hq].
  apply student_by_id_iff in Hq as [Hid _]. subst student_id.
  exact (find_one_unique User._id _ _ Hnd Hin).
Qed.

(** X8. A grade accepted by [create_grade] shows up in the student's list:
    in a store with unique user identifiers, [get_student_grades] for that
    student afterwards returns what it returned before followed by one more
    entry, which has every field of the response the creation returned
    except the date: the entry carries the stored date (the first reading of
    the clock), the creation's response the second reading. *)
Theorem created_grade_is_listed
    (db : Db) (body : GradeCreate.t) (caller reader : User.t)
    (grade_id : string) (now later : Z) (response : GradeResponse.t) :
  unique_user_ids db ->
  fst (route_create_grade db body caller grade_id now later) = inr response ->
  access_denied reader (GradeCreate.student_id body) = false ->
  let listed :=
    GradeResponse.mk (GradeResponse.id response) (GradeResponse.value response)
      now (GradeResponse.comment response) (GradeResponse.student_id response)
      (GradeResponse.student_name response) (GradeResponse.subject_id response)
      (GradeResponse.subject_name response)
      (GradeResponse.subject_coefficient response)
      (GradeResponse.recorded_by response) in
  GradeResponse.date response = later
  /\ GradeResponse.id response = grade_id
  /\ exists before,
       get_student_grades db (GradeCreate.student_id body) reader = inr before
       /\ get_student_grades (snd (route_create_grade db body caller grade_id now later))
            (GradeCreate.student_id body) reader
          = inr (before ++ [listed]).
Proof.
  intros Hnd Hrun Hacc. cbn zeta.
  destruct (route_create_grade_inr _ _ _ _ _ _ Hrun)
    as [student [subject [Hstu [Hsub [-> ->]]]]].
  apply (@find_one_student_is_user db _ _ Hnd) in Hstu.
  split; [reflexivity|]. split; [reflexivity|].
  unfold get_student_grades. rewrite Hacc. cbn [users grades with_grades].
  rewrite Hstu. eexists. split; [reflexivity|].
  unfold find. rewrite filter_app, map_app. cbn [filter].
  replace (of_student (GradeCreate.student_id body) (new_grade body caller grade_id now))
    with true by (symmetry; apply String.eqb_refl).
  cbn [map]. do 3 f_equal.
  unfold grade_response. cbn [subjects users with_grades new_grade Grade.subject_id
    Grade._id Grade.value Grade.date Grade.comment Grade.student_id
    Grade.recorded_by_teacher_id GradeResponse.id GradeResponse.value
    GradeResponse.comment GradeResponse.student_id GradeResponse.student_name
    GradeResponse.subject_id GradeResponse.subject_name
    GradeResponse.subject_coefficient GradeResponse.recorded_by].
  now rewrite Hsub.
Qed.

(** Stored at time 4 and answered at time 5: the list shows the date 4. *)
Lemma created_grade_is_listed_witness :
  exists before,
    get_student_grades example_db "s2" example_teacher = inr before
    /\ get_student_grades
         (snd (route_create_grade example_db (GradeCreate.mk "s2" "B" 9 None None)
                 example_teacher "g9" 4 5)) "s2" example_teacher
       = inr (before ++
                [GradeResponse.mk "g9" 9 4 None "s2" "Bob Durand" "B" "Subject B" 1
                   "Carol Petit"]).
Proof.
  destruct (@created_grade_is_listed example_db (GradeCreate.mk "s2" "B" 9 None None)
              example_teacher example_teacher "g9" 4%Z 5%Z
              (GradeResponse.mk "g9" 9 5 None "s2" "Bob Durand" "B" "Subject B" 1
                 "Carol Petit")) as [_ [_ H]].
  - unfold unique_user_ids. simpl.
    repeat constructor; simpl; intuition discriminate.
  - reflexivity.
  - reflexivity.
  - exact H.
Defined.

(** ** Updating and deleting grades *)

Lemma find_one_split (A : Type) (q : A -> bool) (c : list A) (d : A) :
  find_one q c = Some d ->
  exists l1 l2, c = l1 ++ d :: l2 /\ (forall x, In x l1 -> q x = false) /\ q d = true.
Proof.
  unfold find_one. induction c as [|x c IH]; simpl; [discriminate|].
  destruct (q x) eqn:E.
  - intros [= <-]. exists [], c. repeat split; [intros x' []| assumption].
  - intros Hf. destruct (IH Hf) as [l1 [l2 [-> [Hl1 Hd]]]].
    exists (x :: l1), l2. repeat split; [|assumption].
    intros x' [<-|Hx']; auto.
Qed.

Lemma update_one_at (A : Type) (q : A -> bool) (f : A -> A) (l1 l2 : list A) (d : A) :
  (forall x, In x l1 -> q x = false) -> q d = true ->
  update_one q f (l1 ++ d :: l2) = l1 ++ f d :: l2.
Proof.
  intros Hl1 Hd. induction l1 as [|x l1 IH]; simpl.
  - now rewrite Hd.
  - rewrite (Hl1 x (or_introl eq_refl)). f_equal. apply IH.
    intros x' Hx'. apply Hl1. now right.
Qed.

Lemma delete_one_at (A : Type) (q : A -> bool) (l1 l2 : list A) (d : A) :
  (forall x, In x l1 -> q x = false) -> q d = true ->
  delete_one q (l1 ++ d :: l2) = (l1 ++ l2, 1%nat).
Proof.
  intros Hl1 Hd. induction l1 as [|x l1 IH]; simpl.
  - now rewrite Hd.
  - rewrite (Hl1 x (or_introl eq_refl)). rewrite IH; [reflexivity|].
    intros x' Hx'. apply Hl1. now right.
Qed.

(** X9. [update_grade] answers 404 and changes nothing when no grade has the
    identifier, and never fails on its re-read.  Otherwise it rewrites the
    first grade with that identifier and nothing else: the grade keeps its
    identifier, student, subject, date and recording teacher; its value and
    comment are replaced only when the request carries one (so a comment can
    be changed but not removed); and it is stamped with the time and the
    caller.  The response carries the stored value. *)
Theorem update_grade_outcome
    (db : Db) (grade_id : string) (grade_update : GradeUpdate.t)
    (current_user : User.t) (now : Z) :
  let run := update_grade db grade_id grade_update current_user now in
  fst run <> inl TypeError
  /\ ((forall g, In g (grades db) -> Grade._id g <> grade_id) ->
      run = (inl (HTTPException HTTP_404_NOT_FOUND "Note non trouvée"), db))
  /\ (forall g, In g (grades db) -> Grade._id g = grade_id ->
      exists before old after response,
        grades db = before ++ old :: after
        /\ (forall x, In x before -> Grade._id x <> grade_id)
        /\ Grade._id old = grade_id
        /\ run = (inr response,
                  with_grades db
                    (before ++
                       Grade.mk (Grade._id old) (Grade.student_id old)
                         (Grade.subject_id old)
                         (match GradeUpdate.value grade_update with
                          | Some v => v
                          | None => Grade.value old
                          end)
                         (match GradeUpdate.comment grade_update with
                          | Some c => Some c
                          | None => Grade.comment old
                          end)
                         (Grade.recorded_by_teacher_id old) (Grade.date old)
                         (Some now) (Some (User._id current_user))
                       :: after))
        /\ GradeResponse.id response = grade_id
        /\ GradeResponse.value response
           = match GradeUpdate.value grade_update with
             | Some v => v
             | None => Grade.value old
             end).
Proof.
  cbn zeta. split; [|split].
  - pose proof (update_grade_stores db grade_id grade_update current_user now) as Hs.
    destruct (fst (update_grade db grade_id grade_update current_user now)) as [e|r];
      [|discriminate].
    destruct Hs as [-> _]. discriminate.
  - intros Hnone. unfold update_grade.
    replace (find_one (grade_by_id grade_id) (grades db)) with (@None Grade.t);
      [reflexivity|].
    symmetry. apply find_one_none. intros g Hg. unfold grade_by_id.
    apply String.eqb_neq. now apply Hnone.
  - intros g Hg Hid.
    destruct (@find_one_exists _ (grade_by_id grade_id) (grades db)) as [old Hf].
    { exists g. split; [assumption|]. now apply String.eqb_eq. }
    destruct (find_one_split _ _ Hf) as [before [after [Hsplit [Hbefore Hold]]]].
    exists before, old, after. unfold update_grade. rewrite Hf.
    cbn [grades with_grades].
    rewrite (@find_one_update_one _ (grade_by_id grade_id)
               (set_update grade_update now (User._id current_user)) (grades db) old
               (grade_by_id_set_update grade_id grade_update now (User._id current_user))
               Hf).
    eexists. split; [assumption|]. split.
    { intros x Hx. apply String.eqb_neq. now apply Hbefore. }
    split; [now apply String.eqb_eq|]. split; [|split].
    + f_equal. f_equal. rewrite Hsplit at 1.
      rewrite update_one_at; [reflexivity | assumption | assumption].
    + simpl. now apply String.eqb_eq.
    + reflexivity.
Qed.

(** Updating an identifier that no grade has: 404, nothing changes. *)
Lemma update_grade_outcome_witness :
  update_grade example_db "g7" (GradeUpdate.mk (Some 12) None) example_teacher 9
  = (inl (HTTPException HTTP_404_NOT_FOUND "Note non trouvée"), example_db).
Proof.
  apply (proj1 (proj2 (update_grade_outcome example_db "g7"
                         (GradeUpdate.mk (Some 12) None) example_teacher 9%Z))).
  intros g Hg. simpl in Hg.
  destruct Hg as [<-|[<-|[<-|[<-|[]]]]]; discriminate.
Defined.

Example update_grade_comment_only :
  grades (snd (update_grade example_db "g3" (GradeUpdate.mk None (Some "oral"))
                 example_teacher 9))
  = [example_grade "g1" "s1" "A" 10;
     example_grade "g2" "s2" "A" 7;
     Grade.mk "g3" "s1" "A" 14 (Some "oral") "t1" 0 (Some 9%Z) (Some "t1");
     example_grade "g4" "s1" "B" 16].
Proof. reflexivity. Qed.

(** X10. [delete_grade] answers 404 and changes nothing when no grade has
    the identifier.  Otherwise it removes the first grade with that
    identifier and nothing else, keeping the order of the others; when grade
    identifiers are unique no grade with the identifier is left, so deleting
    it a second time answers 404. *)
Theorem delete_grade_outcome (db : Db) (grade_id : string) (current_user : User.t) :
  let run := delete_grade db grade_id current_user in
  ((forall g, In g (grades db) -> Grade._id g <> grade_id) ->
     run = (inl (HTTPException HTTP_404_NOT_FOUND "Note non trouvée"), db))
  /\ (forall g, In g (grades db) -> Grade._id g = grade_id ->
      exists before old after,
        grades db = before ++ old :: after
        /\ (forall x, In x before -> Grade._id x <> grade_id)
        /\ Grade._id old = grade_id
        /\ run = (inr "Note supprimée avec succès", with_grades db (before ++ after)))
  /\ (unique_grade_ids db ->
      forall g, In g (grades db) -> Grade._id g = grade_id ->
        (forall x, In x (grades (snd run)) -> Grade._id x <> grade_id)
        /\ delete_grade (snd run) grade_id current_user
           = (inl (HTTPException HTTP_404_NOT_FOUND "Note non trouvée"), snd run)).
Proof.
  cbn zeta.
  assert (Hnone : forall db', (forall g, In g (grades db') -> Grade._id g <> grade_id) ->
            delete_grade db' grade_id current_user
            = (inl (HTTPException HTTP_404_NOT_FOUND "Note non trouvée"), db')).
  { intros db' H. unfold delete_grade. rewrite delete_one_absent.
    - simpl. now destruct db'.
    - intros g Hg. unfold grade_by_id. apply String.eqb_neq. now apply H. }
  assert (Hsome : forall g, In g (grades db) -> Grade._id g = grade_id ->
            exists before old after,
              grades db = before ++ old :: after
              /\ (forall x, In x before -> Grade._id x <> grade_id)
              /\ Grade._id old = grade_id
              /\ delete_grade db grade_id current_user
                 = (inr "Note supprimée avec succès", with_grades db (before ++ after))).
  { intros g Hg Hid.
    destruct (@find_one_exists _ (grade_by_id grade_id) (grades db)) as [old Hf].
    { exists g. split; [assumption|]. now apply String.eqb_eq. }
    destruct (find_one_split _ _ Hf) as [before [after [Hsplit [Hbefore Hold]]]].
    exists before, old, after. split; [assumption|]. split.
    { intros x Hx. apply String.eqb_neq. now apply Hbefore. }
    split; [now apply String.eqb_eq|].
    unfold delete_grade. rewrite Hsplit at 1.
    rewrite delete_one_at by assumption. reflexivity. }
  split; [apply Hnone|]. split; [exact Hsome|].
  intros Hnd g Hg Hid.
  destruct (Hsome g Hg Hid) as [before [old [after [Hsplit [Hbefore [Hold ->]]]]]].
  cbn [snd grades with_grades].
  assert (Hleft : forall x, In x (before ++ after) -> Grade._id x <> grade_id).
  { intros x Hx. apply in_app_iff in Hx as [Hx|Hx]; [now apply Hbefore|].
    unfold unique_grade_ids in Hnd. rewrite Hsplit, map_app in Hnd. simpl in Hnd.
    apply NoDup_remove_2 in Hnd. intros Hxid. apply Hnd.
    apply in_app_iff. right. rewrite Hold, <- Hxid. now apply in_map. }
  split; [exact Hleft|]. now apply Hnone.
Qed.

Lemma delete_grade_outcome_witness :
  delete_grade example_db "g2" example_teacher
  = (inr "Note supprimée avec succès",
     with_grades example_db
       [example_grade "g1" "s1" "A" 10; example_grade "g3" "s1" "A" 14;
        example_grade "g4" "s1" "B" 16])
  /\ delete_grade (snd (delete_grade example_db "g2" example_teacher)) "g2" example_teacher
     = (inl (HTTPException HTTP_404_NOT_FOUND "Note non trouvée"),
        snd (delete_grade example_db "g2" example_teacher)).
Proof.
  split; [reflexivity|].
  apply (proj2 (proj2 (delete_grade_outcome example_db "g2" example_teacher))
           ltac:(unfold unique_grade_ids; simpl;
                 repeat constructor; simpl; intuition discriminate)
           (example_grade "g2" "s2" "A" 7)).
  - simpl. tauto.
  - reflexivity.
Defined.

(** ** A student's report and the requests about other students *)

Lemma group_grades_ext (subjects1 subjects2 : list Subject.t) (gs : list Grade.t) :
  (forall g, In g gs ->
     find_one (by_id (Grade.subject_id g)) subjects1
     = find_one (by_id (Grade.subject_id g)) subjects2) ->
  group_grades subjects1 gs = group_grades subjects2 gs.
Proof.
  unfold group_grades. generalize (@nil (string * SubjectData.t)).
  induction gs as [|g gs IH]; intros acc H; [reflexivity|].
  simpl. replace (group_grade subjects1 acc g) with (group_grade subjects2 acc g).
  - apply IH. intros g' Hg'. apply H. now right.
  - unfold group_grade. now rewrite (H g (or_introl eq_refl)).
Qed.

(** The handler reads the store only through the student's grades and the
    subjects these grades name. *)
Lemma calculate_student_average_ext
    (db1 db2 : Db) (student_id : string) (semester : option string)
    (current_user : User.t) (now : Z) :
  find (of_student student_id) (grades db1) = find (of_student student_id) (grades db2) ->
  (forall g, In g (find (of_student student_id) (grades db2)) ->
     find_one (by_id (Grade.subject_id g)) (subjects db1)
     = find_one (by_id (Grade.subject_id g)) (subjects db2)) ->
  calculate_student_average db1 student_id semester current_user now
  = calculate_student_average db2 student_id semester current_user now.
Proof.
  intros Hg Hs. unfold calculate_student_average. rewrite Hg.
  now rewrite (group_grades_ext (subjects db1) (subjects db2) _ Hs).
Qed.

Lemma filter_update_one_other (A : Type) (p q : A -> bool) (f : A -> A) (c : list A) :
  (forall x, In x c -> p x = true -> q x = false) ->
  (forall x, p (f x) = p x) ->
  filter p (update_one q f c) = filter p c.
Proof.
  intros Hpq Hf. induction c as [|x c IH]; simpl; [reflexivity|].
  assert (IH' : filter p (update_one q f c) = filter p c)
    by (apply IH; intros y Hy; apply Hpq; now right).
  destruct (q x) eqn:Eq; simpl.
  - rewrite Hf. destruct (p x) eqn:Ep; [|reflexivity].
    rewrite (Hpq x (or_introl eq_refl) Ep) in Eq. discriminate.
  - rewrite IH'. reflexivity.
Qed.

Lemma filter_delete_one_other (A : Type) (p q : A -> bool) (c : list A) :
  (forall x, In x c -> p x = true -> q x = false) ->
  filter p (fst (delete_one q c)) = filter p c.
Proof.
  intros Hpq. induction c as [|x c IH]; simpl; [reflexivity|].
  assert (IH' : filter p (fst (delete_one q c)) = filter p c)
    by (apply IH; intros y Hy; apply Hpq; now right).
  destruct (q x) eqn:Eq; simpl.
  - destruct (p x) eqn:Ep; [|reflexivity].
    rewrite (Hpq x (or_introl eq_refl) Ep) in Eq. discriminate.
  - destruct (delete_one q c) as [r n]. simpl in *. now rewrite IH'.
Qed.

Lemma filter_delete_many_other (A : Type) (p q : A -> bool) (c : list A) :
  (forall x, p x = true -> q x = false) ->
  filter p (delete_many q c) = filter p c.
Proof.
  intros Hpq. unfold delete_many. induction c as [|x c IH]; simpl; [reflexivity|].
  destruct (q x) eqn:Eq; simpl.
  - destruct (p x) eqn:Ep; [|assumption].
    rewrite (Hpq x Ep) in Eq. discriminate.
  - now rewrite IH.
Qed.

(** X11. A student's report depends only on that student's grades: serving a
    write request that is not about the student (a grade created for someone
    else, an update or deletion of a grade none of the student's grades
    shares the identifier of, the deletion of another user, a subject created
    under an identifier none of the student's dangling grades points to)
    leaves the outcome of [calculate_student_average] for the student exactly
    as it was. *)
Theorem other_requests_keep_the_report
    (db : Db) (student_id : string) (caller : User.t) (r : request)
    (semester : option string) (current_user : User.t) (now : Z) :
  ~ concerns db student_id r ->
  calculate_student_average (serve db (caller, r)) student_id semester current_user now
  = calculate_student_average db student_id semester current_user now.
Proof.
  intros Hnot.
  assert (Hsame : forall db', grades db' = grades db -> subjects db' = subjects db ->
            calculate_student_average db' student_id semester current_user now
            = calculate_student_average db student_id semester current_user now).
  { intros db' Hg Hs. apply calculate_student_average_ext; [now rewrite Hg|].
    intros g _. now rewrite Hs. }
  destruct r as [body subject_id now' later' | body grade_id now' later' | grade_id body now'
                 | grade_id | user_id]; cbn [serve]; simpl in Hnot.
  - destruct (route_create_subject_store db body caller subject_id now' later')
      as [-> | [_ [_ [_ ->]]]]; [reflexivity|].
    apply calculate_student_average_ext; [reflexivity|].
    intros g Hg. cbn [subjects with_subjects].
    apply filter_In in Hg as [Hg Hs]. apply String.eqb_eq in Hs.
    destruct (find_one (by_id (Grade.subject_id g)) (subjects db)) as [s|] eqn:Hf.
    + now apply find_one_app_found.
    + rewrite find_one_app_none; [assumption|].
      unfold by_id, new_subject. simpl. apply String.eqb_neq. intros Hid.
      apply Hnot. exists g. repeat split; auto.
      unfold resolves. rewrite Hid. now rewrite Hf.
  - destruct (route_create_grade_store db body caller grade_id now' later')
      as [-> | [_ [_ [_ [_ ->]]]]]; [reflexivity|].
    apply calculate_student_average_ext; [|reflexivity].
    cbn [grades with_grades]. unfold find. rewrite filter_app. simpl.
    replace (of_student student_id (new_grade body caller grade_id now')) with false.
    + apply app_nil_r.
    + symmetry. unfold of_student, new_grade. simpl. now apply String.eqb_neq.
  - destruct (route_update_grade_store db grade_id body caller now')
      as [-> | [_ [_ ->]]]; [reflexivity|].
    apply calculate_student_average_ext; [|reflexivity].
    cbn [grades with_grades]. unfold find. apply filter_update_one_other.
    + intros g Hg Hs. unfold grade_by_id. apply String.eqb_neq. intros Hid.
      apply Hnot. exists g. apply String.eqb_eq in Hs. auto.
    + reflexivity.
  - destruct (route_delete_grade_store db grade_id caller) as [-> | [_ ->]];
      [reflexivity|].
    apply calculate_student_average_ext; [|reflexivity].
    cbn [grades with_grades]. unfold find. apply filter_delete_one_other.
    intros g Hg Hs. unfold grade_by_id. apply String.eqb_neq. intros Hid.
    apply Hnot. exists g. apply String.eqb_eq in Hs. auto.
  - destruct (route_delete_user_store db user_id caller) as [-> | [_ [_ ->]]];
      [reflexivity|].
    apply calculate_student_average_ext; [|reflexivity].
    cbn [grades]. unfold find. apply filter_delete_many_other.
    intros g Hs. unfold of_student in *. apply String.eqb_eq in Hs.
    apply String.eqb_neq. congruence.
Qed.

(** Deleting student [s2] does not change the report of [s1]. *)
Lemma other_requests_keep_the_report_witness :
  calculate_student_average (serve example_db (example_admin, DeleteUser "s2"))
    "s1" None example_student 0
  = calculate_student_average example_db "s1" None example_student 0.
Proof.
  apply other_requests_keep_the_report. simpl. discriminate.
Defined.

(** ** Reading after a user was deleted *)

Lemma delete_one_keeps (A : Type) (q : A -> bool) (c : list A) (d : A) :
  In d c -> q d = false -> In d (fst (delete_one q c)).
Proof.
  induction c as [|x c IH]; simpl; [tauto|].
  intros [->|Hd] Hq.
  - rewrite Hq. destruct (delete_one q c). now left.
  - destruct (q x); [assumption|].
    specialize (IH Hd Hq). destruct (delete_one q c). now right.
Qed.

Lemma delete_one_unique_gone (A : Type) (key : A -> string) (k : string) (c : list A) :
  NoDup (map key c) ->
  forall x, In x (fst (delete_one (fun x => String.eqb (key x) k) c)) -> key x <> k.
Proof.
  induction c as [|y c IH]; simpl; [intros _ x []|].
  intros Hnd x Hx. inversion Hnd as [|k' ks Hk Hnd']; subst.
  destruct (String.eqb (key y) k) eqn:E.
  - simpl in Hx. apply String.eqb_eq in E. intros Hxk. apply Hk.
    rewrite E, <- Hxk. now apply in_map.
  - specialize (IH Hnd'). destruct (delete_one _ c) as [r n]. simpl in *.
    destruct Hx as [<-|Hx]; [now apply String.eqb_neq | now apply IH].
Qed.

(** X12. After [delete_user] removed a user from a store with unique user
    identifiers, no user with that identifier is left and every other user is
    still there; for the deleted identifier [get_student_grades] answers 404,
    while [calculate_student_average], which never looks the student up,
    answers with the empty report (average 0, no rows, total 0). *)
Theorem deleted_student_reads
    (db : Db) (user_id : string) (current_user : User.t) :
  unique_user_ids db ->
  (exists u, In u (users db) /\ User._id u = user_id) ->
  let db' := snd (delete_user db user_id current_user) in
  (forall u, In u (users db') <-> In u (users db) /\ User._id u <> user_id)
  /\ (forall reader, access_denied reader user_id = false ->
        get_student_grades db' user_id reader
        = inl (HTTPException HTTP_404_NOT_FOUND "Étudiant non trouvé"))
  /\ (forall reader semester now, access_denied reader user_id = false ->
        calculate_student_average db' user_id semester reader now
        = inr (mkReport user_id 0 [] 0 semester None)).
Proof.
  intros Hnd [u [Hu Hid]]. cbn zeta. unfold delete_user.
  assert (Hc : snd (delete_one (user_by_id user_id) (users db)) = 1%nat).
  { apply delete_one_present. exists u. split; [assumption|]. now apply String.eqb_eq. }
  pose proof (@delete_one_unique_gone _ User._id user_id (users db) Hnd) as Hgone.
  pose proof (@delete_one_incl _ (user_by_id user_id) (users db)) as Hincl.
  pose proof (@delete_one_keeps _ (user_by_id user_id) (users db)) as Hkeep.
  unfold user_by_id in *.
  destruct (delete_one (fun u => String.eqb (User._id u) user_id) (users db)) as [us n].
  simpl in Hc, Hgone, Hincl, Hkeep. subst n. cbn [Nat.eqb snd users grades with_grades
    with_users subjects].
  split; [|split].
  - intros x. split.
    + intros Hx. split; [now apply Hincl | now apply Hgone].
    + intros [Hx Hne]. apply Hkeep; [assumption | now apply String.eqb_neq].
  - intros reader Hacc. unfold get_student_grades. rewrite Hacc.
    cbn [users with_grades with_users].
    replace (find_one (user_by_id user_id) us) with (@None User.t); [reflexivity|].
    symmetry. apply find_one_none. intros x Hx. unfold user_by_id.
    apply String.eqb_neq. now apply Hgone.
  - intros reader semester now Hacc. unfold calculate_student_average.
    rewrite Hacc. cbn [grades with_grades with_users].
    replace (find (of_student user_id) (delete_many (of_student user_id) (grades db)))
      with (@nil Grade.t); [reflexivity|].
    symmetry. unfold find, delete_many.
    induction (grades db) as [|g gs IH]; simpl; [reflexivity|].
    destruct (of_student user_id g) eqn:E; simpl; [assumption|].
    now rewrite E.
Qed.

Lemma deleted_student_reads_witness :
  get_student_grades (snd (delete_user example_db "s1" example_admin)) "s1" example_admin
  = inl (HTTPException HTTP_404_NOT_FOUND "Étudiant non trouvé")
  /\ calculate_student_average (snd (delete_user example_db "s1" example_admin))
       "s1" None example_admin 0
     = inr (mkReport "s1" 0 [] 0 None None).
Proof.
  destruct (@deleted_student_reads example_db "s1" example_admin) as [_ [Hg Ha]].
  - unfold unique_user_ids. simpl.
    repeat constructor; simpl; intuition discriminate.
  - exists example_student. simpl. tauto.
  - split; [apply Hg | apply Ha]; reflexivity.
Defined.

(** ** Listing grades *)

Lemma Forall2_map_right (A B : Type) (R : A -> B -> Prop) (f : A -> B) (l : list A) :
  (forall a, In a l -> R a (f a)) -> Forall2 R l (map f l).
Proof.
  induction l as [|a l IH]; intros H; simpl; constructor.
  - apply H. now left.
  - apply IH. intros a' Ha'. apply H. now right.
Qed.

(** X13. For a caller who passes the permission test, [get_student_grades]
    answers 404 when no user has the identifier, even if grades with that
    student reference are stored; otherwise it returns one response per
    stored grade of the student, in store order, with the grade's
    identifier, value, date, comment and subject reference.  A grade whose
    subject is missing is still listed, under the name "Matière inconnue"
    and with coefficient 1. *)
Theorem get_student_grades_outcome
    (db : Db) (student_id : string) (current_user : User.t) :
  access_denied current_user student_id = false ->
  ((forall u, In u (users db) -> User._id u <> student_id) ->
     get_student_grades db student_id current_user
     = inl (HTTPException HTTP_404_NOT_FOUND "Étudiant non trouvé"))
  /\ ((exists u, In u (users db) /\ User._id u = student_id) ->
      exists responses,
        get_student_grades db student_id current_user = inr responses
        /\ Forall2
             (fun g r =>
                GradeResponse.id r = Grade._id g
                /\ GradeResponse.value r = Grade.value g
                /\ GradeResponse.date r = Grade.date g
                /\ GradeResponse.comment r = Grade.comment g
                /\ GradeResponse.student_id r = student_id
                /\ GradeResponse.subject_id r = Grade.subject_id g
                /\ (if resolves (subjects db) (Grade.subject_id g)
                    then GradeResponse.subject_name r
                         = name_of (subjects db) (Grade.subject_id g)
                         /\ GradeResponse.subject_coefficient r
                            = coefficient_of (subjects db) (Grade.subject_id g)
                    else GradeResponse.subject_name r = "Matière inconnue"
                         /\ GradeResponse.subject_coefficient r = 1))
             (fetched db student_id) responses).
Proof.
  intros Hacc. unfold get_student_grades. rewrite Hacc. split.
  - intros Hnone.
    replace (find_one (user_by_id student_id) (users db)) with (@None User.t);
      [reflexivity|].
    symmetry. apply find_one_none. intros u Hu. unfold user_by_id.
    apply String.eqb_neq. now apply Hnone.
  - intros [u [Hu Hid]].
    destruct (@find_one_exists _ (user_by_id student_id) (users db)) as [student ->].
    { exists u. split; [assumption|]. now apply String.eqb_eq. }
    eexists. split; [reflexivity|].
    apply Forall2_map_right. intros g Hg.
    apply filter_In in Hg as [Hg Hs]. apply String.eqb_eq in Hs.
    unfold grade_response, resolves, name_of, coefficient_of. simpl.
    repeat (split; [reflexivity || assumption|]).
    destruct (find_one (by_id (Grade.subject_id g)) (subjects db)); split; reflexivity.
Qed.

(** Student [s1] has a grade in subject Z, which does not exist. *)
Lemma get_student_grades_outcome_witness :
  exists responses,
    get_student_grades
      (with_grades example_db [example_grade "g5" "s1" "Z" 3]) "s1" example_student
    = inr responses
    /\ map GradeResponse.subject_name responses = ["Matière inconnue"]
    /\ map GradeResponse.subject_coefficient responses = [1].
Proof.
  destruct (proj2 (@get_student_grades_outcome
                     (with_grades example_db [example_grade "g5" "s1" "Z" 3])
                     "s1" example_student eq_refl)) as [responses [Hrun Hall]].
  - exists example_student. simpl. tauto.
  - exists responses. split; [exact Hrun|].
    inversion Hall as [|g r gs rs Hr Hrest]; subst.
    inversion Hrest; subst. simpl in Hr.
    destruct Hr as [_ [_ [_ [_ [_ [_ [Hn Hc]]]]]]].
    simpl. now rewrite Hn, Hc.
Defined.

(** X14. The route of [get_subject_grades] answers 403 to a caller who is
    neither TEACHER nor ADMIN, before looking at the subject; to the others
    it answers 404 when the subject does not exist, and otherwise one
    response per stored grade of the subject, in store order, each showing
    the grade's identifier, value and student reference together with the
    name and coefficient of the subject. *)
Theorem route_get_subject_grades_outcome
    (db : Db) (subject_id : string) (caller : User.t) :
  (~ In (User.role caller) [TEACHER; ADMIN] ->
     route_get_subject_grades db subject_id caller
     = inl (HTTPException HTTP_403_FORBIDDEN "Permissions insuffisantes"))
  /\ (In (User.role caller) [TEACHER; ADMIN] ->
      resolves (subjects db) subject_id = false ->
      route_get_subject_grades db subject_id caller
      = inl (HTTPException HTTP_404_NOT_FOUND "Matière non trouvée"))
  /\ (In (User.role caller) [TEACHER; ADMIN] ->
      resolves (subjects db) subject_id = true ->
      exists responses,
        route_get_subject_grades db subject_id caller = inr responses
        /\ Forall2
             (fun g r =>
                GradeResponse.id r = Grade._id g
                /\ GradeResponse.value r = Grade.value g
                /\ GradeResponse.student_id r = Grade.student_id g
                /\ GradeResponse.subject_id r = subject_id
                /\ GradeResponse.subject_name r = name_of (subjects db) subject_id
                /\ GradeResponse.subject_coefficient r
                   = coefficient_of (subjects db) subject_id)
             (filter (of_subject subject_id) (grades db)) responses).
Proof.
  unfold route_get_subject_grades. split; [|split].
  - intros Hr. now rewrite (require_role_not_In _ _ Hr).
  - intros Hr Hs. rewrite (require_role_In _ _ Hr). simpl.
    unfold get_subject_grades. unfold resolves in Hs.
    now destruct (find_one (by_id subject_id) (subjects db)).
  - intros Hr Hs. rewrite (require_role_In _ _ Hr). simpl.
    unfold get_subject_grades, name_of, coefficient_of. unfold resolves in Hs.
    destruct (find_one (by_id subject_id) (subjects db)) as [subject|]; [|discriminate].
    eexists. split; [reflexivity|].
    apply Forall2_map_right. intros g Hg. simpl. repeat split.
Qed.

Lemma route_get_subject_grades_outcome_witness :
  route_get_subject_grades example_db "A" example_student
  = inl (HTTPException HTTP_403_FORBIDDEN "Permissions insuffisantes")
  /\ route_get_subject_grades example_db "Z" example_teacher
     = inl (HTTPException HTTP_404_NOT_FOUND "Matière non trouvée").
Proof.
  split.
  - apply (proj1 (route_get_subject_grades_outcome example_db "A" example_student)).
    simpl. intros [H|[H|[]]]; discriminate.
  - apply (proj1 (proj2 (route_get_subject_grades_outcome example_db "Z" example_teacher))).
    + simpl. tauto.
    + reflexivity.
Defined.

Lemma filter_map_swap (A B : Type) (p : B -> bool) (f : A -> B) (l : list A) :
  filter p (map f l) = map f (filter (fun a => p (f a)) l).
Proof.
  induction l as [|a l IH]; simpl; [reflexivity|].
  destruct (p (f a)); simpl; now rewrite IH.
Qed.

Lemma filter_filter_swap (A : Type) (p q : A -> bool) (l : list A) :
  filter p (filter q l) = filter q (filter p l).
Proof.
  induction l as [|a l IH]; simpl; [reflexivity|].
  destruct (p a) eqn:Ep, (q a) eqn:Eq; simpl; rewrite ?Ep, ?Eq, ?IH; reflexivity.
Qed.

(** X15. The list of a subject's grades and a student's average agree: the
    row of the subject in the student's report counts exactly the responses
    of [get_subject_grades] that belong to the student, its average is
    [round(statistics.mean(values), 2)] over the values these responses
    show, computed on doubles, and its coefficient is the one every response
    shows. *)
Theorem subject_grades_agree_with_average
    (db : Db) (subject_id student_id : string) (semester : option string)
    (teacher reader : User.t) (now : Z) (responses : list GradeResponse.t) :
  get_subject_grades db subject_id teacher = inr responses ->
  access_denied reader student_id = false ->
  let mine :=
    filter (fun r => String.eqb (GradeResponse.student_id r) student_id) responses in
  exists report,
    Binary64.calculate_student_average db student_id semester reader now = inr report
    /\ forall row, In row (subject_averages report) ->
         SubjectAverage.subject_id row = subject_id ->
         SubjectAverage.grade_count row = List.length mine
         /\ SubjectAverage.average row
            = fl (round (fl (arithmetic_mean (map GradeResponse.value mine))) 2)
         /\ Forall (fun r => GradeResponse.subject_coefficient r
                             = SubjectAverage.coefficient row) responses.
Proof.
  intros Hlist Hacc. cbn zeta.
  exists (float_expected_report db student_id semester now).
  split; [now apply Binary64_calculate_student_average_allowed|].
  intros row Hrow Hk.
  assert (Hrow' : exists k, In k (graded_subjects (subjects db) (fetched db student_id))
                            /\ row = float_row (subjects db) (fetched db student_id) k).
  { revert Hrow. unfold float_expected_report.
    destruct (fetched db student_id) as [|g0 gs0]; [intros []|].
    cbn [subject_averages]. rewrite in_map_iff. intros [k [<- Hin]]. now exists k. }
  destruct Hrow' as [k [Hin ->]]. simpl in Hk. subst k.
  unfold get_subject_grades in Hlist.
  destruct (find_one (by_id subject_id) (subjects db)) as [subject|] eqn:Hf;
    [|discriminate].
  injection Hlist as <-.
  rewrite filter_map_swap. cbn [GradeResponse.student_id].
  assert (Hvals : values_of subject_id (fetched db student_id)
                  = map Grade.value
                      (filter (fun g => String.eqb (Grade.student_id g) student_id)
                         (find (of_subject subject_id) (grades db)))).
  { unfold values_of, fetched, find. f_equal. apply filter_filter_swap. }
  unfold float_row, float_mean. cbn [SubjectAverage.grade_count
    SubjectAverage.average SubjectAverage.coefficient].
  rewrite Hvals, map_map, !length_map. cbn [GradeResponse.value].
  split; [reflexivity|]. split; [reflexivity|].
  apply Forall_forall. intros r Hr. apply in_map_iff in Hr as [g [<- _]].
  unfold coefficient_of. now rewrite Hf.
Qed.

Lemma subject_grades_agree_with_average_witness :
  exists report,
    Binary64.calculate_student_average example_db "s1" None example_student 0
    = inr report
    /\ forall row, In row (subject_averages report) ->
         SubjectAverage.subject_id row = "A" ->
         SubjectAverage.grade_count row = 2%nat /\ SubjectAverage.average row = 12.
Proof.
  destruct (@subject_grades_agree_with_average example_db "A" "s1" None
              example_teacher example_student 0%Z
              [GradeResponse.mk "g1" 10 0 None "s1" "Alice Martin" "A" "Subject A" 2
                 "Carol Petit";
               GradeResponse.mk "g2" 7 0 None "s2" "Bob Durand" "A" "Subject A" 2
                 "Carol Petit";
               GradeResponse.mk "g3" 14 0 None "s1" "Alice Martin" "A" "Subject A" 2
                 "Carol Petit"])
    as [report [Hrun Hrows]].
  - reflexivity.
  - reflexivity.
  - exists report. split; [exact Hrun|].
    intros row Hrow Hk. destruct (Hrows row Hrow Hk) as [-> [-> _]].
    split; vm_compute; reflexivity.
Defined.

(** ** How close the reported averages are *)

(** X16. When every stored grade lies in [0, 20], every subject average in
    the report is the double nearest to a whole number of hundredths, lies
    in [0, 20], and differs from the exact mean of the subject's grade
    values by at most 0.005 + 2^-48: 0.005 for the rounding to two decimals
    and 2^-49 for each of the two roundings to a double. *)
Theorem reported_subject_averages_are_close
    (db : Db) (student_id : string) (semester : option string)
    (current_user : User.t) (now : Z) :
  access_denied current_user student_id = false ->
  grades_in_range db ->
  exists report,
    Binary64.calculate_student_average db student_id semester current_user now
    = inr report
    /\ forall row, In row (subject_averages report) ->
         let exact :=
           arithmetic_mean
             (values_of (SubjectAverage.subject_id row) (fetched db student_id)) in
         (exists n : Z, SubjectAverage.average row = fl (n # 100))
         /\ 0 <= SubjectAverage.average row <= 20
         /\ Qabs (SubjectAverage.average row - exact) <= (1 # 200) + two_power (-48).
Proof.
  intros Hacc Hrange.
  exists (float_expected_report db student_id semester now).
  split; [now apply Binary64_calculate_student_average_allowed|].
  intros row Hrow.
  assert (Hrow' : exists k, In k (graded_subjects (subjects db) (fetched db student_id))
                            /\ row = float_row (subjects db) (fetched db student_id) k).
  { revert Hrow. unfold float_expected_report.
    destruct (fetched db student_id) as [|g0 gs0]; [intros []|].
    cbn [subject_averages]. rewrite in_map_iff. intros [k [<- Hin]]. now exists k. }
  destruct Hrow' as [k [Hin ->]].
  unfold float_row, float_mean. cbn [SubjectAverage.average SubjectAverage.subject_id].
  cbn zeta. split.
  - destruct (round_2_nearest
                (fl (arithmetic_mean (values_of k (fetched db student_id)))))
      as [n [Hn _]].
    exists n. now apply fl_comp.
  - apply float_row_average_close.
    + now apply values_of_nonempty with (subjects := subjects db).
    + intros v Hv. apply In_values_of in Hv as [g [Hg <-]].
      apply In_fetched in Hg as [Hg _].
      unfold grades_in_range in Hrange. rewrite Forall_forall in Hrange.
      now apply Hrange.
Qed.

Lemma reported_subject_averages_are_close_witness :
  exists report,
    Binary64.calculate_student_average float_example_db "s1" None example_student 0
    = inr report
    /\ forall row, In row (subject_averages report) ->
         Qabs (SubjectAverage.average row
               - arithmetic_mean [fl (267 # 100); fl (268 # 100)])
         <= (1 # 200) + two_power (-48).
Proof.
  destruct (@reported_subject_averages_are_close float_example_db "s1" None
              example_student 0%Z) as [report [Hrun Hrows]].
  - reflexivity.
  - unfold grades_in_range, grade_in_range. simpl.
    repeat constructor; vm_compute; discriminate.
  - exists report. split; [exact Hrun|].
    intros row Hrow. destruct (Hrows row Hrow) as [_ [_ Hclose]].
    assert (E : report = mkReport "s1" (fl (267 # 100))
                  [SubjectAverage.mk "A" "Subject A" (fl (267 # 100)) 1 2]
                  1 None (Some 0%Z)).
    { assert (H : inr report = inr (mkReport "s1" (fl (267 # 100))
                  [SubjectAverage.mk "A" "Subject A" (fl (267 # 100)) 1 2]
                  1 None (Some 0%Z)) :> result AverageReport)
        by (rewrite <- Hrun; vm_compute; reflexivity).
      now inversion H. }
    rewrite E in Hrow. destruct Hrow as [<-|[]]. exact Hclose.
Defined.

(** ** The number of grades counted *)

Lemma occurrences_absent (k : string) (l : list string) :
  ~ In k l -> occurrences k l = O.
Proof.
  unfold occurrences. induction l as [|y l IH]; intros H; simpl; [reflexivity|].
  destruct (String.eqb y k) eqn:E.
  - exfalso. apply H. left. now apply String.eqb_eq.
  - apply IH. intros Hin. apply H. now right.
Qed.

Lemma list_sum_split (f : string -> nat) (x : string) (m : list string) :
  NoDup m ->
  list_sum (map f m)
  = ((if mem x m then f x else O) + list_sum (map f (remove_key x m)))%nat.
Proof.
  unfold remove_key, mem. induction 1 as [|y m Hy Hnd IH]; simpl; [reflexivity|].
  destruct (String.eqb x y) eqn:E; simpl.
  - apply String.eqb_eq in E. subst y. rewrite IH.
    replace (existsb (String.eqb x) m) with false; [reflexivity|].
    symmetry. apply (proj2 (mem_false_In x m)). exact Hy.
  - rewrite IH. lia.
Qed.

(** Summed over the distinct keys, the occurrences add up to the length. *)
Lemma list_sum_occurrences (l : list string) :
  list_sum (map (fun k => occurrences k l) (first_seen l)) = List.length l.
Proof.
  induction l as [|x l IH]; [reflexivity|].
  cbn [first_seen map list_sum List.length].
  assert (Hx : occurrences x (x :: l) = S (occurrences x l)).
  { unfold occurrences. simpl. now rewrite String.eqb_refl. }
  assert (Hrest : map (fun k => occurrences k (x :: l)) (remove_key x (first_seen l))
                  = map (fun k => occurrences k l) (remove_key x (first_seen l))).
  { apply map_ext_in. intros k Hk. apply In_remove_key in Hk as [_ Hne].
    unfold occurrences. simpl.
    destruct (String.eqb x k) eqn:E; [|reflexivity].
    apply String.eqb_eq in E. contradiction. }
  rewrite Hx, Hrest.
  rewrite (list_sum_split (fun k => occurrences k l) x (NoDup_first_seen l)) in IH.
  rewrite mem_first_seen in IH. unfold list_sum in *. cbn [fold_right].
  destruct (mem x l) eqn:Em; [lia|].
  rewrite occurrences_absent by (now apply mem_false_In). lia.
Qed.

Lemma length_values_of (k : string) (gs : list Grade.t) :
  List.length (values_of k gs) = occurrences k (map Grade.subject_id gs).
Proof.
  unfold values_of, occurrences. rewrite length_map, filter_map_swap, length_map.
  reflexivity.
Qed.

(** X18. Every grade that points to an existing subject is counted in exactly
    one row: the grade counts of the rows add up to the number of the
    student's grades whose subject exists. *)
Theorem grade_counts_add_up
    (db : Db) (student_id : string) (semester : option string)
    (current_user : User.t) (now : Z) :
  access_denied current_user student_id = false ->
  exists report,
    calculate_student_average db student_id semester current_user now = inr report
    /\ list_sum (map SubjectAverage.grade_count (subject_averages report))
       = List.length (live_grades (subjects db) (fetched db student_id)).
Proof.
  intros Hacc. exists (expected_report db student_id semester now).
  split; [now apply calculate_student_average_allowed|].
  unfold expected_report.
  destruct (fetched db student_id) as [|g0 gs0] eqn:E; [reflexivity|].
  rewrite <- E. cbn [subject_averages]. rewrite map_map.
  cbn [subject_row SubjectAverage.grade_count].
  rewrite <- (length_map Grade.subject_id (live_grades _ _)).
  rewrite <- list_sum_occurrences. fold (graded_subjects (subjects db) (fetched db student_id)).
  f_equal. apply map_ext_in. intros k Hk.
  rewrite <- length_values_of.
  rewrite values_of_live by (eapply graded_subjects_resolve; eassumption).
  reflexivity.
Qed.

(** Of the three grades of [s1] below, the one in subject Z is not counted. *)
Lemma grade_counts_add_up_witness :
  exists report,
    calculate_student_average
      (with_grades example_db
         [example_grade "g1" "s1" "B" 16; example_grade "g2" "s1" "Z" 3;
          example_grade "g3" "s1" "B" 12])
      "s1" None example_student 0 = inr report
    /\ list_sum (map SubjectAverage.grade_count (subject_averages report)) = 2%nat.
Proof.
  destruct (@grade_counts_add_up
              (with_grades example_db
                 [example_grade "g1" "s1" "B" 16; example_grade "g2" "s1" "Z" 3;
                  example_grade "g3" "s1" "B" 12])
              "s1" None example_student 0%Z eq_refl) as [report [Hrun Hsum]].
  exists report. split; [exact Hrun|]. rewrite Hsum. reflexivity.
Defined.

(** ** References between the collections *)

Lemma In_update_one (A : Type) (q : A -> bool) (f : A -> A) (c : list A) (d : A) :
  In d (update_one q f c) -> In d c \/ exists x, In x c /\ d = f x.
Proof.
  induction c as [|x c IH]; simpl; [tauto|].
  destruct (q x); simpl.
  - intros [<-|H]; [right; exists x; auto | left; now right].
  - intros [<-|H]; [left; now left|].
    destruct (IH H) as [H'|[y [Hy ->]]]; [left; now right|].
    right. exists y. auto.
Qed.

Lemma resolves_app (subjects extra : list Subject.t) (k : string) :
  resolves subjects k = true -> resolves (subjects ++ extra) k = true.
Proof.
  unfold resolves.
  destruct (find_one (by_id k) subjects) as [s|] eqn:Hf; [|discriminate].
  intros _. erewrite find_one_app_found by exact Hf. reflexivity.
Qed.

Lemma serve_references_resolve (db : Db) (cr : User.t * request) :
  references_resolve db -> references_resolve (serve db cr).
Proof.
  unfold references_resolve. intros Hinv. destruct cr as [caller r].
  destruct r as [body subject_id now later | body grade_id now later | grade_id body now
                 | grade_id | user_id]; cbn [serve].
  - destruct (route_create_subject_store db body caller subject_id now later)
      as [-> | [_ [_ [_ ->]]]]; [assumption|].
    cbn [grades subjects users with_subjects]. intros g Hg.
    destruct (Hinv g Hg) as [Hr Hu]. split; [now apply resolves_app | assumption].
  - destruct (route_create_grade_store db body caller grade_id now later)
      as [-> | [_ [_ [[student Hstu] [Hres ->]]]]]; [assumption|].
    cbn [grades subjects users with_grades]. intros g Hg.
    apply in_app_iff in Hg as [Hg|[<-|[]]]; [now apply Hinv|].
    cbn [new_grade Grade.subject_id Grade.student_id]. split; [assumption|].
    apply find_one_some_In in Hstu as [Hin Hq].
    apply student_by_id_iff in Hq. now exists student.
  - destruct (route_update_grade_store db grade_id body caller now)
      as [-> | [_ [_ ->]]]; [assumption|].
    cbn [grades subjects users with_grades]. intros g Hg.
    apply In_update_one in Hg as [Hg|[old [Hold ->]]]; [now apply Hinv|].
    exact (Hinv old Hold).
  - destruct (route_delete_grade_store db grade_id caller) as [-> | [_ ->]];
      [assumption|].
    cbn [grades subjects users with_grades]. intros g Hg.
    apply Hinv. now apply delete_one_incl with (grade_by_id grade_id).
  - destruct (route_delete_user_store db user_id caller) as [-> | [_ [_ ->]]];
      [assumption|].
    cbn [grades subjects users]. intros g Hg.
    apply In_delete_many in Hg as [Hg Hs].
    destruct (Hinv g Hg) as [Hr [u [Hu [Hid Hrole]]]]. split; [assumption|].
    exists u. split; [|now split].
    apply delete_one_keeps; [assumption|].
    unfold user_by_id. rewrite Hid. exact Hs.
Qed.

(** X19. The write routes cannot leave a grade dangling: if every stored
    grade points to a stored subject and to a stored user of role STUDENT,
    this is still so after any sequence of subject creations, grade
    creations, updates and deletions, and user deletions; hence in such a
    store [calculate_student_average] skips no grade of any student. *)
Theorem serve_all_references_resolve (db : Db) (trace : list (User.t * request)) :
  references_resolve db ->
  references_resolve (serve_all db trace)
  /\ forall student_id,
       live_grades (subjects (serve_all db trace))
         (fetched (serve_all db trace) student_id)
       = fetched (serve_all db trace) student_id.
Proof.
  intros Hinv.
  assert (Hafter : references_resolve (serve_all db trace)).
  { revert Hinv. apply serve_all_invariant. apply serve_references_resolve. }
  split; [assumption|].
  intros student_id. unfold live_grades.
  assert (Hall : forall g, In g (fetched (serve_all db trace) student_id) ->
            resolves (subjects (serve_all db trace)) (Grade.subject_id g) = true).
  { intros g Hg. apply In_fetched in Hg as [Hg _]. now apply Hafter. }
  induction (fetched (serve_all db trace) student_id) as [|g gs IH]; [reflexivity|].
  simpl. rewrite (Hall g (or_introl eq_refl)). f_equal.
  apply IH. intros g' Hg'. apply Hall. now right.
Qed.

(** From the example store: a grade is added, its student is deleted. *)
Lemma serve_all_references_resolve_witness :
  references_resolve
    (serve_all example_db
       [(example_teacher, PostGrade (GradeCreate.mk "s2" "B" 9 None None) "g9" 4 5);
        (example_admin, DeleteUser "s2")]).
Proof.
  apply serve_all_references_resolve.
  intros g Hg. simpl in Hg.
  destruct Hg as [<-|[<-|[<-|[<-|[]]]]]; (split; [reflexivity|]).
  - exists example_student. simpl. tauto.
  - exists example_other_student. simpl. tauto.
  - exists example_student. simpl. tauto.
  - exists example_student. simpl. tauto.
Defined.

(** ** Who can write *)




(* ================================================================== *)
(** ** A grade just recorded counts in the average *)

(** X21. After [create_grade] accepted a grade, the student's report has a
    row for the subject of the grade; that row counts one grade more than the
    student had in the subject, and its average is
    [round(statistics.mean(values), 2)], computed on doubles, over the former
    values followed by the new one. *)
Theorem created_grade_enters_the_average
    (db : Db) (body : GradeCreate.t) (caller reader : User.t)
    (grade_id : string) (now later read_time : Z) (semester : option string)
    (response : GradeResponse.t) :
  fst (route_create_grade db body caller grade_id now later) = inr response ->
  access_denied reader (GradeCreate.student_id body) = false ->
  let former :=
    values_of (GradeCreate.subject_id body) (fetched db (GradeCreate.student_id body)) in
  exists report row,
    Binary64.calculate_student_average
      (snd (route_create_grade db body caller grade_id now later))
      (GradeCreate.student_id body) semester reader read_time = inr report
    /\ In row (subject_averages report)
    /\ SubjectAverage.subject_id row = GradeCreate.subject_id body
    /\ SubjectAverage.grade_count row = S (List.length former)
    /\ SubjectAverage.average row
       = fl (round (fl (arithmetic_mean (former ++ [GradeCreate.value body]))) 2).
Proof.
  intros Hrun Hacc. cbn zeta.
  destruct (route_create_grade_inr _ _ _ _ _ _ Hrun)
    as [student [subject [_ [Hsub [_ Hstore]]]]].
  set (db' := snd (route_create_grade db body caller grade_id now later)) in *.
  set (g := new_grade body caller grade_id now) in *.
  assert (Hf : fetched db' (GradeCreate.student_id body)
               = fetched db (GradeCreate.student_id body) ++ [g]).
  { rewrite Hstore. unfold fetched, find. cbn [grades with_grades].
    rewrite filter_app. simpl.
    replace (of_student (GradeCreate.student_id body) g) with true; [reflexivity|].
    symmetry. apply String.eqb_refl. }
  assert (Hs : subjects db' = subjects db) by (rewrite Hstore; reflexivity).
  assert (Hk : In (GradeCreate.subject_id body)
                 (graded_subjects (subjects db') (fetched db' (GradeCreate.student_id body)))).
  { apply graded_subjects_In. split.
    - rewrite Hs. unfold resolves. now rewrite Hsub.
    - exists g. split; [|reflexivity]. rewrite Hf. apply in_app_iff. right. now left. }
  exists (float_expected_report db' (GradeCreate.student_id body) semester read_time).
  exists (float_row (subjects db') (fetched db' (GradeCreate.student_id body))
            (GradeCreate.subject_id body)).
  split; [now apply Binary64_calculate_student_average_allowed|].
  rewrite float_expected_report_nonempty
    by (rewrite Hf; intros Hnil; apply app_eq_nil in Hnil as [_ Hnil]; discriminate).
  cbn [subject_averages]. split; [now apply in_map|].
  split; [reflexivity|].
  unfold float_row, float_mean.
  cbn [SubjectAverage.grade_count SubjectAverage.average].
  rewrite Hf, values_of_snoc.
  replace (String.eqb (Grade.subject_id g) (GradeCreate.subject_id body)) with true
    by (symmetry; apply String.eqb_refl).
  split; [|reflexivity].
  rewrite length_app. simpl. lia.
Qed.

Lemma created_grade_enters_the_average_witness :
  exists report row,
    Binary64.calculate_student_average
      (snd (route_create_grade example_db
              (GradeCreate.mk "s1" "A" (25 # 2) None None)
              example_teacher "g9" 4 5))
      "s1" None example_student 8 = inr report
    /\ In row (subject_averages report)
    /\ SubjectAverage.subject_id row = "A"
    /\ SubjectAverage.grade_count row = 3%nat
    /\ SubjectAverage.average row = fl (1217 # 100).
Proof.
  destruct (@created_grade_enters_the_average example_db
              (GradeCreate.mk "s1" "A" (25 # 2) None None) example_teacher
              example_student "g9" 4%Z 5%Z 8%Z None
              (GradeResponse.mk "g9" (25 # 2) 5 None "s1" "Alice Martin" "A"
                 "Subject A" 2 "Carol Petit"))
    as [report [row [Hrun [Hin [Hk [Hc Ha]]]]]].
  - vm_compute. reflexivity.
  - reflexivity.
  - exists report, row.
    split; [exact Hrun|]. split; [exact Hin|]. split; [exact Hk|].
    split; [exact Hc|]. rewrite Ha. vm_compute. reflexivity.
Defined.

(* ================================================================== *)
(** ** Exact and double-precision arithmetic give reports of the same shape *)

Lemma Forall2_map_same (A B : Type) (R : B -> B -> Prop) (f g : A -> B) (l : list A) :
  (forall a, In a l -> R (f a) (g a)) -> Forall2 R (map f l) (map g l).
Proof.
  induction l as [|a l IH]; intros H; simpl; constructor.
  - apply H. now left.
  - apply IH. intros a' Ha'. apply H. now right.
Qed.

(** X22. The handler computing on doubles and the handler computing on
    exact rationals end alike: both raise the same exception, or both return
    a report for the same student, semester and calculation date whose rows
    name the same subjects in the same order with the same names,
    coefficients and grade counts.  Only the averages and the total
    coefficient can differ, by the rounding of the operations. *)
Theorem double_precision_keeps_the_shape
    (db : Db) (student : string) (term : option string)
    (current_user : User.t) (now : Z) :
  match calculate_student_average db student term current_user now,
        Binary64.calculate_student_average db student term current_user now with
  | inl e, inl e' => e = e'
  | inr exact, inr report =>
      student_id exact = student_id report
      /\ semester exact = semester report
      /\ calculation_date exact = calculation_date report
      /\ Forall2 (fun a b =>
                    SubjectAverage.subject_id a = SubjectAverage.subject_id b
                    /\ SubjectAverage.subject_name a = SubjectAverage.subject_name b
                    /\ SubjectAverage.coefficient a = SubjectAverage.coefficient b
                    /\ SubjectAverage.grade_count a = SubjectAverage.grade_count b)
           (subject_averages exact) (subject_averages report)
  | _, _ => False
  end.
Proof.
  destruct (access_denied current_user student) eqn:Hacc.
  - rewrite Binary64_calculate_student_average_denied by exact Hacc.
    unfold calculate_student_average. now rewrite Hacc.
  - rewrite Binary64_calculate_student_average_allowed by exact Hacc.
    rewrite calculate_student_average_allowed by exact Hacc.
    unfold expected_report, float_expected_report.
    destruct (fetched db student) as [|g gs]; cbn.
    + repeat split. constructor.
    + repeat split. apply Forall2_map_same. intros k _. repeat split.
Qed.
